(** * Diagnostico_Hardware: a shallow embedding of the diagnostic workflow

    The development follows the layout of the repository:

    - [Py]              the few Python built-ins the sources rely on
    - [USBTest]         src/tests/usb_test.py
    - [WebcamTest]      src/tests/webcam_test.py
    - [AudioTest]       src/tests/audio_test.py
    - [KeyboardTest]    src/tests/keyboard_test.py
    - [ReportGenerator] src/core/report_generator.py
    - [HardwareInfo]    src/core/hardware_info.py
    - [MainWindow]      src/gui/main_window.py

    Conventions.  Python floats are idealised as rationals ([Q]): every
    finite float is a rational and the comparisons against the integer
    thresholds of the sources are exact on them.  Tk widgets are reduced
    to the part of their state the program reads back (a button is its
    enabled flag, a window is its open flag).  Work that the sources hand
    to a worker thread or to [after(0, ...)] is run to completion at the
    point where it is scheduled.  A Python [str] is the UTF-8 encoding
    of its code points, and a percentage is formatted from its exact
    value.  What the operating system answers (clock, file system,
    subprocesses) is an argument of the function that asks for it. *)

From Stdlib Require Import QArith ZArith List String Ascii Bool Lia.
From stdpp Require Import gmap strings list pretty.
Import ListNotations.

Open Scope string_scope.

(** ** Python built-ins *)

Module Py.

(** Results of code that may raise: [Raise msg] is an exception whose
    [str(e)] is [msg]. *)
Inductive outcome (A : Type) : Type :=
| Ok (a : A)
| Raise (msg : string).
Arguments Ok {A} a.
Arguments Raise {A} msg.

(** [x < y] on floats. *)
Definition lt (x y : Q) : bool := negb (Qle_bool y x).

(** [min(a, b)]: the first argument unless the second is smaller. *)
Definition min (a b : Q) : Q := if lt b a then b else a.

(** [max(a, b)]: the first argument unless the second is larger. *)
Definition max (a b : Q) : Q := if lt a b then b else a.

(** [sum(xs)] on floats. *)
Definition sum (xs : list Q) : Q := fold_left Qplus xs 0%Q.

(** [all(bs)]. *)
Definition all (bs : list bool) : bool := forallb (fun b => b) bs.

(** Insertion of one element into a strictly increasing list. *)
Fixpoint insert_unique (x : Z) (l : list Z) : list Z :=
  match l with
  | [] => [x]
  | y :: r =>
      if (x <? y)%Z then x :: l
      else if (x =? y)%Z then l
      else y :: insert_unique x r
  end.

(** [list(sorted(set(xs)))] on integers. *)
Definition sorted_set (xs : list Z) : list Z :=
  fold_right insert_unique [] xs.

(** *** Text

    A Python [str] is kept as the UTF-8 encoding of its code points. *)

(** The UTF-8 encoding of a code point. *)
Definition utf8 (cp : N) : string :=
  let byte n := ascii_of_N n in
  (if cp <? 128 then String (byte cp) EmptyString
   else if cp <? 2048 then
     String (byte (192 + cp / 64))
       (String (byte (128 + cp mod 64)) EmptyString)
   else if cp <? 65536 then
     String (byte (224 + cp / 4096))
       (String (byte (128 + (cp / 64) mod 64))
          (String (byte (128 + cp mod 64)) EmptyString))
   else
     String (byte (240 + cp / 262144))
       (String (byte (128 + (cp / 4096) mod 64))
          (String (byte (128 + (cp / 64) mod 64))
             (String (byte (128 + cp mod 64)) EmptyString))))%N.

(** A byte that continues a multi-byte character. *)
Definition is_continuation (b : ascii) : bool :=
  (128 <=? nat_of_ascii b)%nat && (nat_of_ascii b <? 192)%nat.

(** The characters of a text, each with its continuation bytes; [cur]
    is the character being read. *)
Fixpoint chars_from (cur : string) (s : string) : list string :=
  match s with
  | EmptyString => [cur]
  | String b rest =>
      if is_continuation b
      then chars_from (cur ++ String b EmptyString) rest
      else cur :: chars_from (String b EmptyString) rest
  end.

Definition chars (s : string) : list string :=
  match s with
  | EmptyString => []
  | String b rest => chars_from (String b EmptyString) rest
  end.

(** The characters for which [str.isspace] holds. *)
Definition whitespace : list string :=
  map utf8
    [9; 10; 11; 12; 13; 28; 29; 30; 31; 32; 133; 160; 5760;
     8192; 8193; 8194; 8195; 8196; 8197; 8198; 8199; 8200; 8201; 8202;
     8232; 8233; 8239; 8287; 12288]%N.

Definition isspace (ch : string) : bool := existsb (String.eqb ch) whitespace.

Fixpoint lstrip_chars (l : list string) : list string :=
  match l with
  | [] => []
  | ch :: rest => if isspace ch then lstrip_chars rest else l
  end.

(** [s.strip()] *)
Definition strip (s : string) : string :=
  String.concat "" (rev (lstrip_chars (rev (lstrip_chars (chars s))))).

(** [sep.join(lines)] *)
Definition join (sep : string) (lines : list string) : string :=
  String.concat sep lines.

(** [s * n] *)
Fixpoint times (s : string) (n : nat) : string :=
  match n with
  | O => ""
  | S m => s ++ times s m
  end.

Definition newline : string := String (ascii_of_nat 10) EmptyString.

(** The double quote, for the texts that hold one. *)
Definition quote : string := String (ascii_of_nat 34) EmptyString.

Definition lower_ascii (c : ascii) : ascii :=
  let n := nat_of_ascii c in
  if (65 <=? n)%nat && (n <=? 90)%nat then ascii_of_nat (n + 32) else c.

Definition upper_ascii (c : ascii) : ascii :=
  let n := nat_of_ascii c in
  if (97 <=? n)%nat && (n <=? 122)%nat then ascii_of_nat (n - 32) else c.

(** [s.lower()] on the ASCII letters of [s]; the answers of the system
    tools it is applied to are ASCII. *)
Fixpoint lower (s : string) : string :=
  match s with
  | EmptyString => EmptyString
  | String c rest => String (lower_ascii c) (lower rest)
  end.

(** [s.capitalize()], likewise. *)
Definition capitalize (s : string) : string :=
  match s with
  | EmptyString => EmptyString
  | String c rest => String (upper_ascii c) (lower rest)
  end.

(** [str(n)] for a natural number. *)
Definition str_nat (n : nat) : string := pretty n.

(** The nearest integer, ties to the even one. *)
Definition round_half_even (q : Q) : Z :=
  let n := Qnum q in
  let d := Zpos (Qden q) in
  let fl := (n / d)%Z in
  let twice := (2 * (n mod d))%Z in
  if (twice <? d)%Z then fl
  else if (d <? twice)%Z then (fl + 1)%Z
  else if Z.even fl then fl else (fl + 1)%Z.

Definition digit (n : Z) : ascii := ascii_of_nat (48 + Z.to_nat n).

(** A non-negative number of hundredths, written with two decimals. *)
Definition two_decimals (cents : Z) : string :=
  str_nat (Z.to_nat (cents / 100))
  ++ "."
  ++ String (digit ((cents / 10) mod 10)) (String (digit (cents mod 10)) "").

(** [f"{x:.2f}"] for [x >= 0] (the value formatted by the sources is a
    percentage), on the exact value of [x].  The sources format the
    double nearest to the quotient instead, which gives other digits
    only when the exact value is a tie or next to one: 23 successes of
    160, exactly 14.375, are written 14.38 here and 14.37 by the
    sources. *)
Definition format_2f (x : Q) : string :=
  two_decimals (round_half_even (x * 100)%Q).

End Py.

Import Py.

(** ** The result envelope shared by the four test modules

    Every test keeps a dictionary with the keys [success], [message],
    [details] and [error].  The [details] entry is test specific. *)

(** One entry of the USB test's [results] list. *)
Record USBPass : Type := {
  pass_size : Z;
  pass_write_speed : Q;
  pass_read_speed : Q;
  pass_integrity : bool
}.

Record USBDetails : Type := {
  d_write_speed : Q;
  d_read_speed : Q;
  d_usb_type : string;
  d_protocol : string;
  d_integrity : bool;
  d_test_sizes : list Z;
  d_results : list USBPass;
  d_device : string
}.

Inductive Details : Type :=
| NoDetails                                        (* [{}] *)
| KeyboardDetails (total_keys pressed_keys : nat)
| USBMeasured (d : USBDetails).

Record TestResult : Type := {
  success : bool;
  message : string;
  details : Details;
  error : option string
}.

(** The dictionary every test starts from. *)
Definition initial_result : TestResult :=
  {| success := false; message := ""; details := NoDetails; error := None |}.

Definition set_success (b : bool) (r : TestResult) : TestResult :=
  {| success := b; message := message r; details := details r; error := error r |}.

Definition set_message (m : string) (r : TestResult) : TestResult :=
  {| success := success r; message := m; details := details r; error := error r |}.

Definition set_details (d : Details) (r : TestResult) : TestResult :=
  {| success := success r; message := message r; details := d; error := error r |}.

Definition set_error (e : option string) (r : TestResult) : TestResult :=
  {| success := success r; message := message r; details := details r; error := e |}.

(** ** src/tests/usb_test.py *)

Module USBTest.

(** The two files of one pass: [test_<size>MB.bin] in the temporary
    directory and its copy on the selected device. *)
Inductive path : Type :=
| TempFile (size : Z)
| DeviceFile (size : Z).

(** An entry of [self.devices]. *)
Record Device : Type := {
  dev_name : string;
  dev_path : string;
  dev_protocol : string
}.

(** What the operating system answers during one measurement. *)
Record Env : Type := {
  now : nat -> Q;                          (* n-th reading of [time.time()] *)
  getsize : path -> outcome Z;             (* [os.path.getsize], in bytes *)
  copy_result : nat -> outcome unit;       (* n-th call of [shutil.copyfile] *)
  mkdtemp_result : outcome unit;           (* [tempfile.mkdtemp] *)
  create_result : Z -> outcome unit;       (* [_create_test_file] *)
  hash_result : path -> outcome string;    (* [_calculate_file_hash] *)
  read_result : bool -> path -> outcome Q; (* [_measure_real_read_speed] when
                                              the flag is set, else
                                              [_measure_read_speed] *)
  remove_result : path -> outcome unit     (* [os.remove] *)
}.

(** The part of the world a measurement changes: how often the clock was
    read and which copies were started. *)
Record World : Type := {
  reads : nat;
  copies : list (path * path)
}.

Definition fresh_world : World := {| reads := 0; copies := [] |}.

(** Computations that may raise and that act on the world. *)
Definition M (A : Type) : Type := World -> outcome A * World.

Definition ret {A : Type} (a : A) : M A := fun w => (Ok a, w).

Definition bind {A B : Type} (m : M A) (k : A -> M B) : M B :=
  fun w =>
    match m w with
    | (Ok a, w') => k a w'
    | (Raise e, w') => (Raise e, w')
    end.

Definition lift {A : Type} (o : outcome A) : M A := fun w => (o, w).

Notation "x <- m ;; k" := (bind m (fun x => k))
  (at level 100, m at next level, right associativity).

(** [time.time()] *)
Definition time_time (env : Env) : M Q :=
  fun w => (Ok (now env (reads w)),
            {| reads := S (reads w); copies := copies w |}).

(** [shutil.copyfile(src, dst)] *)
Definition copyfile (env : Env) (src dst : path) : M unit :=
  fun w => (copy_result env (List.length (copies w)),
            {| reads := reads w; copies := copies w ++ [(src, dst)] |}).

(** [file_size_mb / elapsed if elapsed > 0 else 0] *)
Definition speed_of (file_size_mb elapsed : Q) : Q :=
  if lt 0 elapsed then (file_size_mb / elapsed)%Q else 0%Q.

Definition _measure_write_speed (env : Env) (src dst : path) : M Q :=
  bytes <- lift (getsize env src) ;;
  let file_size_mb := (inject_Z bytes / inject_Z (1024 * 1024))%Q in
  start_time <- time_time env ;;
  _ <- copyfile env src dst ;;
  stop_time <- time_time env ;;
  let speed1 := speed_of file_size_mb (stop_time - start_time)%Q in
  start_time' <- time_time env ;;
  _ <- copyfile env src dst ;;
  stop_time' <- time_time env ;;
  let speed2 := speed_of file_size_mb (stop_time' - start_time')%Q in
  ret (Py.min speed1 speed2).

Definition _determine_usb_type (speed_mbps : Q) : string :=
  if lt speed_mbps 35 then "USB 2.0 (até 480 Mbps)"
  else if lt speed_mbps 450 then "USB 3.2 Gen 1 (5 Gbps)"
  else if lt speed_mbps 1100 then "USB 3.2 Gen 2 (10 Gbps)"
  else if lt speed_mbps 2500 then "USB4/Thunderbolt (20 Gbps)"
  else "USB4/Thunderbolt (40 Gbps)".

(** The three sizes of a run: [10], the configured size and [200], each
    capped by the configured size, without repetition, ascending. *)
Definition test_sizes_of (test_file_size_mb : Z) : list Z :=
  sorted_set (map (fun size => Z.min size test_file_size_mb)
                  [10%Z; test_file_size_mb; 200%Z]).

(** One iteration of the loop over [test_sizes]. *)
Definition run_pass (env : Env) (force_no_cache : bool) (size : Z) : M USBPass :=
  _ <- lift (create_result env size) ;;
  original_hash <- lift (hash_result env (TempFile size)) ;;
  write_speed <- _measure_write_speed env (TempFile size) (DeviceFile size) ;;
  read_speed <- lift (read_result env force_no_cache (DeviceFile size)) ;;
  copied_hash <- lift (hash_result env (DeviceFile size)) ;;
  let integrity := String.eqb original_hash copied_hash in
  _ <- lift (remove_result env (DeviceFile size)) ;;
  ret {| pass_size := size;
         pass_write_speed := write_speed;
         pass_read_speed := read_speed;
         pass_integrity := integrity |}.

Fixpoint run_passes (env : Env) (force_no_cache : bool) (sizes : list Z)
  : M (list USBPass) :=
  match sizes with
  | [] => ret []
  | size :: rest =>
      p <- run_pass env force_no_cache size ;;
      ps <- run_passes env force_no_cache rest ;;
      ret (p :: ps)
  end.

(** [sum(xs) / len(xs)], which raises on the empty list. *)
Definition average (xs : list Q) : outcome Q :=
  match xs with
  | [] => Raise "division by zero"
  | _ => Ok (Py.sum xs / inject_Z (Z.of_nat (List.length xs)))%Q
  end.

(** The body of the [try] of [_run_advanced_test], up to the dictionary
    stored under [details]. *)
Definition measure (env : Env) (force_no_cache : bool)
    (test_file_size_mb : Z) (device : Device) : M USBDetails :=
  _ <- lift (mkdtemp_result env) ;;
  let test_sizes := test_sizes_of test_file_size_mb in
  results <- run_passes env force_no_cache test_sizes ;;
  let integrity_checks := map pass_integrity results in
  final_write <- lift (average (map pass_write_speed results)) ;;
  final_read <- lift (average (map pass_read_speed results)) ;;
  let all_integrity := Py.all integrity_checks in
  let max_speed := Py.max final_write final_read in
  let usb_type := _determine_usb_type max_speed in
  ret {| d_write_speed := final_write;
         d_read_speed := final_read;
         d_usb_type := usb_type;
         d_protocol := dev_protocol device;
         d_integrity := all_integrity;
         d_test_sizes := test_sizes;
         d_results := results;
         d_device := dev_name device |}.

(** The state of a [USBTest] object. *)
Record t : Type := {
  result : TestResult;
  selected_device : option Device;
  test_file_size_mb : Z;
  force_no_cache : bool;
  is_running : bool;
  is_completed : bool;
  window_open : bool;
  start_button : bool;
  complete_button : bool;
  completions : list (string * TestResult)  (* calls of [on_complete_callback] *)
}.

Definition init : t :=
  {| result := initial_result;
     selected_device := None;
     test_file_size_mb := 100;
     force_no_cache := true;
     is_running := false;
     is_completed := false;
     window_open := true;
     start_button := true;
     complete_button := false;
     completions := [] |}.

Definition with_result (r : TestResult) (s : t) : t :=
  {| result := r;
     selected_device := selected_device s;
     test_file_size_mb := test_file_size_mb s;
     force_no_cache := force_no_cache s;
     is_running := is_running s;
     is_completed := is_completed s;
     window_open := window_open s;
     start_button := start_button s;
     complete_button := complete_button s;
     completions := completions s |}.

Definition with_size (n : Z) (s : t) : t :=
  {| result := result s;
     selected_device := selected_device s;
     test_file_size_mb := n;
     force_no_cache := force_no_cache s;
     is_running := is_running s;
     is_completed := is_completed s;
     window_open := window_open s;
     start_button := start_button s;
     complete_button := complete_button s;
     completions := completions s |}.

Definition with_device (d : Device) (s : t) : t :=
  {| result := result s;
     selected_device := Some d;
     test_file_size_mb := test_file_size_mb s;
     force_no_cache := force_no_cache s;
     is_running := is_running s;
     is_completed := is_completed s;
     window_open := window_open s;
     start_button := start_button s;
     complete_button := complete_button s;
     completions := completions s |}.

(** [self.window.destroy()] *)
Definition destroy (s : t) : t :=
  {| result := result s;
     selected_device := selected_device s;
     test_file_size_mb := test_file_size_mb s;
     force_no_cache := force_no_cache s;
     is_running := is_running s;
     is_completed := is_completed s;
     window_open := false;
     start_button := start_button s;
     complete_button := complete_button s;
     completions := completions s |}.

(** [self.on_complete_callback("usb", self.get_result(), ...)] *)
Definition notify (s : t) : t :=
  {| result := result s;
     selected_device := selected_device s;
     test_file_size_mb := test_file_size_mb s;
     force_no_cache := force_no_cache s;
     is_running := is_running s;
     is_completed := is_completed s;
     window_open := window_open s;
     start_button := start_button s;
     complete_button := complete_button s;
     completions := completions s ++ [("usb", result s)] |}.

(** [_run_advanced_test]: the measurement, the [except] branch and the
    [finally] block, which enables the button "Concluir" on both paths. *)
Definition _run_advanced_test (env : Env) (device : Device) (s : t) : t :=
  let r :=
    match fst (measure env (force_no_cache s) (test_file_size_mb s) device fresh_world) with
    | Ok d =>
        {| success := d_integrity d;
           message := "Teste avançado concluído";
           details := USBMeasured d;
           error := error (result s) |}
    | Raise e =>
        {| success := false;
           message := "Erro no teste avançado: " ++ e;
           details := details (result s);
           error := Some e |}
    end in
  {| result := r;
     selected_device := selected_device s;
     test_file_size_mb := test_file_size_mb s;
     force_no_cache := force_no_cache s;
     is_running := false;
     is_completed := is_completed s;
     window_open := window_open s;
     start_button := start_button s;
     complete_button := true;
     completions := completions s |}.

(** [_start_test].  [selection] is the selected entry of the list box,
    [size] the integer read from the size field ([None] when [int]
    raises), [free_bytes] the answer of [GetDiskFreeSpaceEx]. *)
Definition _start_test (selection : option Device) (size : option Z)
    (free_bytes : outcome Z) (env : Env) (s : t) : t :=
  if is_running s then s
  else
    match selection with
    | None => s
    | Some device =>
        match size with
        | None => s
        | Some n =>
            let s := with_size n s in
            if (n <=? 0)%Z then s
            else
              let s := with_device device s in
              let required_bytes := (n * 1024 * 1024 * 2)%Z in
              let enough :=
                match free_bytes with
                | Ok free => negb (free <? required_bytes)%Z
                | Raise _ => true
                end in
              if enough then
                let s :=
                  {| result := result s;
                     selected_device := selected_device s;
                     test_file_size_mb := test_file_size_mb s;
                     force_no_cache := force_no_cache s;
                     is_running := true;
                     is_completed := is_completed s;
                     window_open := window_open s;
                     start_button := false;
                     complete_button := complete_button s;
                     completions := completions s |} in
                _run_advanced_test env device s
              else s
        end
    end.

(** [_skip_test]; [yes] is the answer to the question box. *)
Definition _skip_test (yes : bool) (s : t) : t :=
  if yes then
    destroy (with_result
               (set_message "Teste pulado pelo usuário" (set_success false (result s))) s)
  else s.

Definition _complete_test (s : t) : t :=
  let s := with_result (set_success true (result s)) s in
  let s :=
    {| result := result s;
       selected_device := selected_device s;
       test_file_size_mb := test_file_size_mb s;
       force_no_cache := force_no_cache s;
       is_running := is_running s;
       is_completed := true;
       window_open := window_open s;
       start_button := start_button s;
       complete_button := complete_button s;
       completions := completions s |} in
  notify (destroy s).

(** [_on_close]; [yes] is the answer to the question box. *)
Definition _on_close (yes : bool) (s : t) : t :=
  if yes then
    notify (destroy (with_result
               (set_message "Teste interrompido pelo usuário" (set_success false (result s))) s))
  else s.

(** What the operator can do with the window. *)
Inductive event : Type :=
| ClickStart (selection : option Device) (size : option Z)
             (free_bytes : outcome Z) (env : Env)
| ClickSkip (yes : bool)
| ClickComplete
| CloseWindow (yes : bool).

(** Tk delivers a click only to an enabled button of an open window. *)
Definition step (s : t) (e : event) : t :=
  if negb (window_open s) then s
  else
    match e with
    | ClickStart selection size free_bytes env =>
        if start_button s then _start_test selection size free_bytes env s else s
    | ClickSkip yes => _skip_test yes s
    | ClickComplete => if complete_button s then _complete_test s else s
    | CloseWindow yes => _on_close yes s
    end.

Definition run (events : list event) : t := fold_left step events init.


(** While the window is open nothing was reported; once it is gone, the
    final result was reported once or not at all. *)
Definition reported (s : t) : Prop :=
  (window_open s = true -> completions s = []) /\
  (window_open s = false ->
   completions s = [] \/ completions s = [("usb", result s)]).

(** A measurement counts as passed when it was stored and every hash
    comparison in it succeeded. *)
Definition measurement_passed (r : TestResult) : Prop :=
  exists d, details r = USBMeasured d /\ d_integrity d = true.

End USBTest.

(** ** src/tests/webcam_test.py *)

Module WebcamTest.

Record t : Type := {
  result : TestResult;
  is_completed : bool;
  window_open : bool;
  start_button : bool;
  confirm_buttons : bool;   (* "Sim" / "Não" exist once the preview ended *)
  complete_button : bool
}.

Definition init : t :=
  {| result := initial_result;
     is_completed := false;
     window_open := true;
     start_button := true;
     confirm_buttons := false;
     complete_button := false |}.

(** [_capture_webcam]; [capture] is what opening the device and the
    five seconds of preview came to. *)
Definition _capture_webcam (capture : outcome unit) (s : t) : t :=
  match capture with
  | Ok _ =>
      (* [_ask_webcam_confirmation] *)
      {| result := result s;
         is_completed := is_completed s;
         window_open := window_open s;
         start_button := start_button s;
         confirm_buttons := true;
         complete_button := complete_button s |}
  | Raise e =>
      {| result := set_error (Some e) (result s);
         is_completed := is_completed s;
         window_open := window_open s;
         start_button := true;
         confirm_buttons := confirm_buttons s;
         complete_button := complete_button s |}
  end.

Definition _start_webcam (capture : outcome unit) (s : t) : t :=
  _capture_webcam capture
    {| result := result s;
       is_completed := is_completed s;
       window_open := window_open s;
       start_button := false;
       confirm_buttons := confirm_buttons s;
       complete_button := complete_button s |}.

Definition _confirm_webcam (ok : bool) (s : t) : t :=
  let r := set_success ok (result s) in
  let r :=
    if ok then set_message "Webcam funcionou corretamente" r
    else set_message "Webcam não funcionou corretamente" r in
  {| result := r;
     is_completed := is_completed s;
     window_open := window_open s;
     start_button := start_button s;
     confirm_buttons := confirm_buttons s;
     complete_button := true |}.

(** The common tail of [_skip_test] and [_on_close]. *)
Definition abandon (msg : string) (s : t) : t :=
  {| result := set_message msg (set_success false (result s));
     is_completed := false;
     window_open := false;
     start_button := start_button s;
     confirm_buttons := confirm_buttons s;
     complete_button := complete_button s |}.

Definition _skip_test (yes : bool) (s : t) : t :=
  if yes then abandon "Teste pulado pelo usuário" s else s.

Definition _on_close (yes : bool) (s : t) : t :=
  if yes then abandon "Teste interrompido pelo usuário" s else s.

Definition _complete_test (s : t) : t :=
  {| result := result s;
     is_completed := true;
     window_open := false;
     start_button := start_button s;
     confirm_buttons := confirm_buttons s;
     complete_button := complete_button s |}.

Inductive event : Type :=
| ClickStart (capture : outcome unit)
| ClickConfirm (ok : bool)
| ClickSkip (yes : bool)
| ClickComplete
| CloseWindow (yes : bool).

Definition step (s : t) (e : event) : t :=
  if negb (window_open s) then s
  else
    match e with
    | ClickStart capture => if start_button s then _start_webcam capture s else s
    | ClickConfirm ok => if confirm_buttons s then _confirm_webcam ok s else s
    | ClickSkip yes => _skip_test yes s
    | ClickComplete => if complete_button s then _complete_test s else s
    | CloseWindow yes => _on_close yes s
    end.

Definition run (events : list event) : t := fold_left step events init.

(** [if self.result['error']]: an error is recorded and its text is
    not empty. *)
Definition has_error (r : TestResult) : option string :=
  match error r with
  | Some e => if String.eqb e "" then None else Some e
  | None => None
  end.

Definition get_formatted_result (s : t) : string :=
  if success (result s) then
    "Teste de Webcam: SUCESSO" ++ newline
    ++ "Mensagem: " ++ message (result s)
  else
    match has_error (result s) with
    | Some e => "Teste de Webcam: FALHA" ++ newline ++ "Erro: " ++ e
    | None =>
        "Teste de Webcam: FALHA" ++ newline
        ++ "Motivo: " ++ message (result s)
    end.

(** The result carries an answer of the operator. *)
Definition answered (r : TestResult) : Prop :=
  (success r = true /\ message r = "Webcam funcionou corretamente") \/
  (success r = false /\ message r = "Webcam não funcionou corretamente").

(** While the window is open the test is not completed, and the button
    "Concluir Teste" is enabled only on an answered result; once the
    window is gone the test was completed on an answer or abandoned as
    a failure. *)
Definition outcome_invariant (s : t) : Prop :=
  (window_open s = true ->
   is_completed s = false /\
   (complete_button s = true -> answered (result s))) /\
  (window_open s = false ->
   (is_completed s = true /\ answered (result s)) \/
   (is_completed s = false /\ success (result s) = false /\
    (message (result s) = "Teste pulado pelo usuário" \/
     message (result s) = "Teste interrompido pelo usuário"))).

End WebcamTest.

(** ** src/tests/audio_test.py *)

Module AudioTest.

Record t : Type := {
  result : TestResult;
  is_completed : bool;
  window_open : bool;
  audio_file_exists : bool;
  play_button : bool;
  confirm_buttons : bool;   (* "Sim" / "Não" are enabled *)
  complete_button : bool
}.

Definition init : t :=
  {| result := initial_result;
     is_completed := false;
     window_open := true;
     audio_file_exists := false;
     play_button := false;
     confirm_buttons := false;
     complete_button := false |}.

Definition with_error (e : string) (s : t) : t :=
  {| result := set_error (Some e) (result s);
     is_completed := is_completed s;
     window_open := window_open s;
     audio_file_exists := audio_file_exists s;
     play_button := play_button s;
     confirm_buttons := confirm_buttons s;
     complete_button := complete_button s |}.

(** [_stop_recording]; [frames] tells whether anything was recorded,
    [save] is the outcome of writing the WAV file. *)
Definition _stop_recording (frames : bool) (save : outcome unit) (s : t) : t :=
  if frames then
    match save with
    | Ok _ =>
        {| result := result s;
           is_completed := is_completed s;
           window_open := window_open s;
           audio_file_exists := true;
           play_button := true;
           confirm_buttons := confirm_buttons s;
           complete_button := complete_button s |}
    | Raise e => with_error e s
    end
  else s.

(** A recording from [_start_recording] to [_stop_recording]; [recording]
    is the outcome of [_record_audio] (whether frames arrived). *)
Definition record (recording : outcome bool) (save : outcome unit) (s : t) : t :=
  let s :=
    {| result := result s;
       is_completed := is_completed s;
       window_open := window_open s;
       audio_file_exists := audio_file_exists s;
       play_button := false;
       confirm_buttons := confirm_buttons s;
       complete_button := complete_button s |} in
  match recording with
  | Ok frames => _stop_recording frames save s
  | Raise e => with_error e s
  end.

(** [_play_audio] followed by [_play_audio_thread]. *)
Definition _play_audio (playback : outcome unit) (s : t) : t :=
  if negb (audio_file_exists s) then s
  else
    let s :=
      match playback with
      | Ok _ =>
          {| result := result s;
             is_completed := is_completed s;
             window_open := window_open s;
             audio_file_exists := audio_file_exists s;
             play_button := play_button s;
             confirm_buttons := true;
             complete_button := complete_button s |}
      | Raise e => with_error e s
      end in
    {| result := result s;
       is_completed := is_completed s;
       window_open := window_open s;
       audio_file_exists := audio_file_exists s;
       play_button := true;
       confirm_buttons := confirm_buttons s;
       complete_button := complete_button s |}.

Definition _confirm_audio (ok : bool) (s : t) : t :=
  let r := set_success ok (result s) in
  let r :=
    if ok then set_message "Áudio funcionou corretamente" r
    else set_message "Áudio não funcionou corretamente" r in
  {| result := r;
     is_completed := is_completed s;
     window_open := window_open s;
     audio_file_exists := audio_file_exists s;
     play_button := play_button s;
     confirm_buttons := confirm_buttons s;
     complete_button := true |}.

(** The common tail of [_skip_test] and [_on_close]. *)
Definition abandon (msg : string) (s : t) : t :=
  {| result := set_message msg (set_success false (result s));
     is_completed := false;
     window_open := false;
     audio_file_exists := audio_file_exists s;
     play_button := play_button s;
     confirm_buttons := confirm_buttons s;
     complete_button := complete_button s |}.

Definition _skip_test (yes : bool) (s : t) : t :=
  if yes then abandon "Teste pulado pelo usuário" s else s.

Definition _on_close (yes : bool) (s : t) : t :=
  if yes then abandon "Teste interrompido pelo usuário" s else s.

Definition _complete_test (s : t) : t :=
  {| result := result s;
     is_completed := true;
     window_open := false;
     audio_file_exists := audio_file_exists s;
     play_button := play_button s;
     confirm_buttons := confirm_buttons s;
     complete_button := complete_button s |}.

Inductive event : Type :=
| ClickRecord (recording : outcome bool) (save : outcome unit)
| ClickPlay (playback : outcome unit)
| ClickConfirm (ok : bool)
| ClickSkip (yes : bool)
| ClickComplete
| CloseWindow (yes : bool).

Definition step (s : t) (e : event) : t :=
  if negb (window_open s) then s
  else
    match e with
    | ClickRecord recording save => record recording save s
    | ClickPlay playback => if play_button s then _play_audio playback s else s
    | ClickConfirm ok => if confirm_buttons s then _confirm_audio ok s else s
    | ClickSkip yes => _skip_test yes s
    | ClickComplete => if complete_button s then _complete_test s else s
    | CloseWindow yes => _on_close yes s
    end.

Definition run (events : list event) : t := fold_left step events init.

(** [if self.result['error']]: an error is recorded and its text is
    not empty. *)
Definition has_error (r : TestResult) : option string :=
  match error r with
  | Some e => if String.eqb e "" then None else Some e
  | None => None
  end.

Definition get_formatted_result (s : t) : string :=
  if success (result s) then
    "Teste de Áudio: SUCESSO" ++ newline
    ++ "Mensagem: " ++ message (result s)
  else
    match has_error (result s) with
    | Some e => "Teste de Áudio: FALHA" ++ newline ++ "Erro: " ++ e
    | None =>
        "Teste de Áudio: FALHA" ++ newline
        ++ "Motivo: " ++ message (result s)
    end.

(** The result carries an answer of the operator. *)
Definition answered (r : TestResult) : Prop :=
  (success r = true /\ message r = "Áudio funcionou corretamente") \/
  (success r = false /\ message r = "Áudio não funcionou corretamente").

(** While the window is open the test is not completed, and the button
    "Concluir Teste" is enabled only on an answered result; once the
    window is gone the test was completed on an answer or abandoned as
    a failure. *)
Definition outcome_invariant (s : t) : Prop :=
  (window_open s = true ->
   is_completed s = false /\
   (complete_button s = true -> answered (result s))) /\
  (window_open s = false ->
   (is_completed s = true /\ answered (result s)) \/
   (is_completed s = false /\ success (result s) = false /\
    (message (result s) = "Teste pulado pelo usuário" \/
     message (result s) = "Teste interrompido pelo usuário"))).

End AudioTest.

(** ** src/tests/keyboard_test.py *)

Module KeyboardTest.

(** The modifier keys that are drawn twice. *)
Definition dual_keys : list (string * list string) :=
  [("Shift", ["Shift (Esq)"; "Shift (Dir)"]);
   ("Ctrl", ["Ctrl (Esq)"; "Ctrl (Dir)"]);
   ("Alt", ["Alt (Esq)"; "Alt (Dir)"]);
   ("Win", ["Win (Esq)"; "Win (Dir)"])].

(** The ABNT2 layout of [_create_keyboard_layout], row by row (the
    widths of the buttons are left out). *)
Definition keyboard_layout : list (list string) :=
  [ ["Esc"; "F1"; "F2"; "F3"; "F4"; "F5"; "F6"; "F7"; "F8"; "F9"; "F10";
     "F11"; "F12"; "PrtSc"; "ScrLk"; "Pause"];
    ["'"; "1"; "2"; "3"; "4"; "5"; "6"; "7"; "8"; "9"; "0"; "-"; "=";
     "Backspace"; "Insert"; "Home"; "PgUp"];
    ["Tab"; "Q"; "W"; "E"; "R"; "T"; "Y"; "U"; "I"; "O"; "P"; "["; "]";
     "Delete"; "End"; "PgDn"];
    ["Caps Lock"; "A"; "S"; "D"; "F"; "G"; "H"; "J"; "K"; "L"; "Ç"; ";";
     "`"; "Enter"];
    ["Shift (Esq)"; "\"; "Z"; "X"; "C"; "V"; "B"; "N"; "M"; ","; "."; "/";
     "Shift (Dir)"; "↑"];
    ["Ctrl (Esq)"; "Win (Esq)"; "Alt (Esq)"; "Space"; "Alt (Dir)";
     "Win (Dir)"; "Menu"; "Ctrl (Dir)"; "←"; "↓"; "→"] ].

(** The keys of the dictionary [self.key_buttons]. *)
Definition key_buttons : gset string :=
  list_to_set (concat keyboard_layout).

(** The logical modifier a button stands for, if it is one side of a
    dual key (the inner loop over [dual_keys.items()]). *)
Definition logical_of (key : string) : option string :=
  match List.find (fun p => existsb (String.eqb key) (snd p)) dual_keys with
  | Some p => Some (fst p)
  | None => None
  end.

(** The dictionary [self.visual_to_logical], in insertion order. *)
Definition visual_to_logical : list (string * string) :=
  flat_map (fun key =>
              match logical_of key with
              | Some logic => [(key, logic)]
              | None => []
              end)
           (concat keyboard_layout)
  ++ [("\", "\")].

(** [d[key]] on a dictionary kept as a list of items. *)
Fixpoint assoc (key : string) (d : list (string * string)) : option string :=
  match d with
  | [] => None
  | (k, v) :: rest => if String.eqb key k then Some v else assoc key rest
  end.

(** [[visual for visual, logic_key in d.items() if logic_key == logic]] *)
Definition visuals_of (logic : string) : list string :=
  map fst (List.filter (fun p => String.eqb (snd p) logic) visual_to_logical).

(** What pynput hands to the listener: a special key with a name, or a
    key code with an optional character. *)
Inductive key : Type :=
| Key (name : string)
| KeyCode (char : option string).

(** The branches of [_get_key_string] on [key.name], first match first. *)
Definition named_keys : list (list string * string) :=
  [ (["space"], "Space");
    (["shift"; "shift_l"; "shift_r"], "Shift");
    (["ctrl"; "ctrl_l"; "ctrl_r"], "Ctrl");
    (["alt"; "alt_l"; "alt_r"], "Alt");
    (["cmd"; "cmd_l"; "cmd_r"; "win"], "Win");
    (["esc"], "Esc");
    (["menu"], "Menu");
    (["tab"], "Tab");
    (["caps_lock"], "Caps Lock");
    (["enter"], "Enter");
    (["backspace"], "Backspace");
    (["delete"], "Delete");
    (["insert"], "Insert");
    (["home"], "Home");
    (["end"], "End");
    (["page_up"], "PgUp");
    (["page_down"], "PgDn");
    (["print_screen"], "PrtSc");
    (["scroll_lock"], "ScrLk");
    (["pause"], "Pause");
    (["up"], "↑");
    (["down"], "↓");
    (["left"], "←");
    (["right"], "→") ].

(** The branches of [_get_key_string] on [key.char], first match first. *)
Definition char_keys : list (list string * string) :=
  [ (["`"; "~"], "`");
    (["1"; "!"], "1");
    (["2"; "@"], "2");
    (["3"; "#"], "3");
    (["4"; "$"], "4");
    (["5"; "%"], "5");
    (["6"; "¨"], "6");
    (["7"; "&"], "7");
    (["8"; "*"], "8");
    (["9"; "("], "9");
    (["0"; ")"], "0");
    (["-"; "_"], "-");
    (["="; "+"], "=");
    (["["; "{"], "[");
    (["]"; "}"], "]");
    (["\"; "|"], "\");
    ([";"; ":"], ";");
    (["'"; String (ascii_of_nat 34) EmptyString], "'");
    ([","; "<"], ",");
    (["."; ">"], ".");
    (["/"; "?"], "/") ].

(** The first branch whose alternatives contain [x]. *)
Definition branch_of (x : string) (table : list (list string * string))
  : option string :=
  match List.find (fun p => existsb (String.eqb x) (fst p)) table with
  | Some p => Some (snd p)
  | None => None
  end.

Definition is_digit (c : ascii) : bool :=
  (48 <=? nat_of_ascii c)%nat && (nat_of_ascii c <=? 57)%nat.

(** [s.isdigit()] on the names of pynput's keys, which are ASCII. *)
Definition isdigit (s : string) : bool :=
  match s with
  | EmptyString => false
  | _ => forallb is_digit (list_ascii_of_string s)
  end.

Section WithUpper.

(** [str.upper], applied by the source to the character of a key code. *)
Variable upper : string -> string.

Definition _get_key_string (k : key) : option string :=
  match k with
  | Key name =>
      match branch_of name named_keys with
      | Some label => Some label
      | None =>
          match name with
          | String "f" rest =>
              (* [name.startswith('f') and name[1:].isdigit()]: the
                 upper-cased name is "F" followed by the digits *)
              if isdigit rest then Some (String "F" rest) else None
          | _ => None
          end
      end
  | KeyCode None => None
  | KeyCode (Some char) =>
      if String.eqb char "" then None
      else
        match branch_of char char_keys with
        | Some label => Some label
        | None =>
            if String.eqb (upper char) "Ç" then Some "Ç"
            else Some (upper char)
        end
  end.

(** The state of a [KeyboardTest] object while its window exists. *)
Record t : Type := {
  pressed_keys : gset string;
  counter_var : nat;            (* the count shown in "<n> de <total> ..." *)
  complete_button : bool;
  result : TestResult;
  is_running : bool;
  is_completed : bool;
  window_open : bool
}.

(** After [initialize] and the set-up part of [execute]. *)
Definition init : t :=
  {| pressed_keys := ∅;
     counter_var := 0;
     complete_button := false;
     result := initial_result;
     is_running := true;
     is_completed := false;
     window_open := true |}.

(** [self.pressed_keys.add(v)] for every [v] of [vs]. *)
Definition mark (vs : list string) (s : t) : t :=
  {| pressed_keys := list_to_set vs ∪ pressed_keys s;
     counter_var := counter_var s;
     complete_button := complete_button s;
     result := result s;
     is_running := is_running s;
     is_completed := is_completed s;
     window_open := window_open s |}.

Definition _update_counter (s : t) : t :=
  let total_pressionadas := size (pressed_keys s) in
  {| pressed_keys := pressed_keys s;
     counter_var := total_pressionadas;
     complete_button := (70 <=? total_pressionadas)%nat;
     result := result s;
     is_running := is_running s;
     is_completed := is_completed s;
     window_open := window_open s |}.

(** [if len(self.pressed_keys) == len(self.key_buttons): enable] *)
Definition enable_when_all (s : t) : t :=
  if (size (pressed_keys s) =? size key_buttons)%nat then
    {| pressed_keys := pressed_keys s;
       counter_var := counter_var s;
       complete_button := true;
       result := result s;
       is_running := is_running s;
       is_completed := is_completed s;
       window_open := window_open s |}
  else s.

Definition _on_virtual_key_press (key : string) (s : t) : t :=
  match assoc key visual_to_logical with
  | Some logic =>
      enable_when_all (_update_counter (mark (visuals_of logic) s))
  | None =>
      if bool_decide (key ∈ key_buttons)
         && negb (bool_decide (key ∈ pressed_keys s))
      then enable_when_all (_update_counter (mark [key] s))
      else s
  end.

Definition _on_key_press (k : key) (s : t) : t :=
  if negb (is_running s) then s
  else
    match _get_key_string k with
    | Some key_str =>
        if existsb (String.eqb key_str) ["Shift"; "Ctrl"; "Alt"; "Win"] then
          enable_when_all (_update_counter (mark (visuals_of key_str) s))
        else
          let s :=
            if bool_decide (key_str ∈ key_buttons) then mark [key_str] s
            else s in
          enable_when_all (_update_counter s)
    | None => enable_when_all (_update_counter s)
    end.

(** The common tail of [_skip_test] and [_on_close]; the call of the
    completion callback that follows raises, the object having none. *)
Definition abandon (msg : string) (s : t) : t :=
  {| pressed_keys := pressed_keys s;
     counter_var := counter_var s;
     complete_button := complete_button s;
     result := set_message msg (set_success false (result s));
     is_running := is_running s;
     is_completed := false;
     window_open := false |}.

Definition _skip_test (yes : bool) (s : t) : t :=
  if yes then abandon "Teste pulado pelo usuário" s else s.

Definition _on_close (yes : bool) (s : t) : t :=
  if yes then abandon "Teste interrompido pelo usuário" s else s.

Definition _complete_test (s : t) : t :=
  {| pressed_keys := pressed_keys s;
     counter_var := counter_var s;
     complete_button := complete_button s;
     result :=
       set_details (KeyboardDetails (size key_buttons) (size (pressed_keys s)))
         (set_message "Teste concluído com sucesso"
            (set_success true (result s)));
     is_running := is_running s;
     is_completed := true;
     window_open := false |}.

Inductive event : Type :=
| VirtualPress (key : string)   (* a click on a button of the drawn keyboard *)
| KeyPress (k : key)            (* the listener's [on_press] *)
| ClickSkip (yes : bool)
| ClickComplete
| CloseWindow (yes : bool).

(** Events reach the object while its window exists; [execute] stops
    the listener when the window is gone. *)
Definition step (s : t) (e : event) : t :=
  if negb (window_open s) then s
  else
    match e with
    | VirtualPress key => _on_virtual_key_press key s
    | KeyPress k => _on_key_press k s
    | ClickSkip yes => _skip_test yes s
    | ClickComplete => if complete_button s then _complete_test s else s
    | CloseWindow yes => _on_close yes s
    end.

Definition run (events : list event) : t := fold_left step events init.

(** The event registers a key that already counts as pressed: the
    clicked button, the label of the pressed key, or, for a modifier,
    one of its two buttons. *)
Definition already_pressed (s : t) (e : event) : Prop :=
  match e with
  | VirtualPress key => key ∈ pressed_keys s
  | KeyPress k =>
      match _get_key_string k with
      | Some key_str =>
          if existsb (String.eqb key_str) ["Shift"; "Ctrl"; "Alt"; "Win"]
          then exists v, In v (visuals_of key_str) /\ v ∈ pressed_keys s
          else key_str ∈ pressed_keys s
      | None => False
      end
  | _ => False
  end.

End WithUpper.

(** The two buttons of a dual key are pressed together or not at all. *)
Definition closed (p : gset string) : Prop :=
  Forall (fun d : string * list string =>
            (exists v, In v (snd d) /\ v ∈ p) ->
            forall v, In v (snd d) -> v ∈ p)
         dual_keys.

(** The counter and the button "Concluir Teste" show what the set of
    pressed keys says. *)
Definition consistent (s : t) : Prop :=
  counter_var s = size (pressed_keys s) /\
  complete_button s
  = ((70 <=? size (pressed_keys s))%nat
     || (size (pressed_keys s) =? size key_buttons)%nat).

(** The pressed keys are keys of the layout and the counter shows how
    many they are; while the window is open the button follows the
    counter and the result is no success; a success holds the numbers
    of the layout and of the pressed keys. *)
Definition accounted (s : t) : Prop :=
  pressed_keys s ⊆ key_buttons /\
  counter_var s = size (pressed_keys s) /\
  (window_open s = true -> consistent s /\ success (result s) = false) /\
  (success (result s) = true ->
   details (result s)
   = KeyboardDetails (size key_buttons) (size (pressed_keys s)) /\
   70 <= size (pressed_keys s)).

(** [self.result['details'].get(key, 0)] for the two keys of the
    keyboard details. *)
Definition details_total_keys (r : TestResult) : nat :=
  match details r with
  | KeyboardDetails total _ => total
  | _ => 0
  end.

Definition details_pressed_keys (r : TestResult) : nat :=
  match details r with
  | KeyboardDetails _ pressed => pressed
  | _ => 0
  end.

Definition get_formatted_result (s : t) : string :=
  if success (result s) then
    "Teste de Teclado: SUCESSO" ++ newline
    ++ "Total de teclas no teclado: " ++ str_nat (details_total_keys (result s))
    ++ newline
    ++ "Teclas pressionadas: " ++ str_nat (details_pressed_keys (result s))
  else
    match error (result s) with
    | Some e =>
        if String.eqb e ""
        then "Teste de Teclado: FALHA" ++ newline
             ++ "Motivo: " ++ message (result s)
        else "Teste de Teclado: FALHA" ++ newline ++ "Erro: " ++ e
    | None =>
        "Teste de Teclado: FALHA" ++ newline
        ++ "Motivo: " ++ message (result s)
    end.

(** What both press handlers do once the key is marked: the counter,
    then the button. *)
Definition refresh (s : t) : t := enable_when_all (_update_counter s).

Definition invariant (s : t) : Prop :=
  closed (pressed_keys s) /\
  is_running s = true /\
  (window_open s = true -> consistent s /\ success (result s) = false) /\
  (success (result s) = true -> 70 <= size (pressed_keys s)).

End KeyboardTest.

(** ** src/core/report_generator.py *)

Module ReportGenerator.

(** A dictionary from field names to texts, in insertion order. *)
Definition dict := list (string * string).

(** [d.get(key, default)] *)
Fixpoint get {V : Type} (d : list (string * V)) (key : string) (default : V) : V :=
  match d with
  | [] => default
  | (k, v) :: rest => if String.eqb k key then v else get rest key default
  end.

(** [key in d] *)
Definition contains {V : Type} (d : list (string * V)) (key : string) : bool :=
  existsb (fun kv => String.eqb (fst kv) key) d.

(** [d[key] = value]: an existing key keeps its place, a new one goes
    last. *)
Fixpoint set_item {V : Type} (key : string) (value : V) (d : list (string * V))
  : list (string * V) :=
  match d with
  | [] => [(key, value)]
  | (k, v) :: rest =>
      if String.eqb k key then (k, value) :: rest
      else (k, v) :: set_item key value rest
  end.

(** [d.values()] *)
Definition values {V : Type} (d : list (string * V)) : list V := map snd d.

(** An element of the disk and video lists: a dictionary
    ([isinstance(x, dict)]) or anything else, by its [str]. *)
Inductive entry : Type :=
| Dict (d : dict)
| Other (text : string).

Record Ram : Type := {
  ram_fields : dict;
  modules : list dict
}.

(** The hardware dictionary, by its keys; [None] is an absent key. *)
Record Hardware : Type := {
  motherboard : option dict;
  cpu : option dict;
  ram : option Ram;
  disks : option (list entry);
  gpu : option (list entry);
  display : option dict;
  tpm : option dict;
  bluetooth : option dict;
  wifi : option dict
}.

(** [{}] *)
Definition no_hardware : Hardware :=
  {| motherboard := None; cpu := None; ram := None; disks := None;
     gpu := None; display := None; tpm := None; bluetooth := None;
     wifi := None |}.

Definition present {A : Type} (o : option A) : bool :=
  match o with Some _ => true | None => false end.

(** Truth value of the hardware dictionary: it has a key. *)
Definition has_keys (h : Hardware) : bool :=
  present (motherboard h) || present (cpu h) || present (ram h)
  || present (disks h) || present (gpu h) || present (display h)
  || present (tpm h) || present (bluetooth h) || present (wifi h).

(** What the [platform] module answers. *)
Record Platform : Type := {
  system : string;
  release : string;
  version : string;
  machine : string;
  node : string
}.

Record t : Type := {
  hardware_info : Hardware;
  identification : dict;
  test_results : list (string * TestResult);
  test_details : list (string * string);
  output_directory : option string
}.

(** [__init__] *)
Definition init : t :=
  {| hardware_info := no_hardware; identification := [];
     test_results := []; test_details := []; output_directory := None |}.

Definition set_hardware_info (self : t) (h : Hardware) : t :=
  {| hardware_info := h; identification := identification self;
     test_results := test_results self; test_details := test_details self;
     output_directory := output_directory self |}.

Definition set_identification (self : t) (i : dict) : t :=
  {| hardware_info := hardware_info self; identification := i;
     test_results := test_results self; test_details := test_details self;
     output_directory := output_directory self |}.

Definition add_test_result (self : t) (test_name : string)
  (result : TestResult) (formatted_result : string) : t :=
  {| hardware_info := hardware_info self;
     identification := identification self;
     test_results := set_item test_name result (test_results self);
     test_details := set_item test_name formatted_result (test_details self);
     output_directory := output_directory self |}.

Definition set_output_directory (self : t) (d : string) : t :=
  {| hardware_info := hardware_info self;
     identification := identification self;
     test_results := test_results self; test_details := test_details self;
     output_directory := Some d |}.

(** One call of [add_test_result]: the name, the result, its text. *)
Definition call : Type := string * TestResult * string.

Definition name_of (c : call) : string := fst (fst c).

(** The generator after a sequence of calls of [add_test_result]. *)
Definition add_all (self : t) (calls : list call) : t :=
  fold_left
    (fun rg c => add_test_result rg (name_of c) (snd (fst c)) (snd c))
    calls self.

(** The number of distinct names among [names]. *)
Definition distinct (names : list string) : nat :=
  size (list_to_set names : gset string).

Definition unavailable : string := "Não disponível".

(** *** The sections of [_generate_report_content] *)

Definition header : list string :=
  [Py.times "=" 80; "RELATÓRIO DE DIAGNÓSTICO DE HARDWARE"; Py.times "=" 80; ""].

Definition identification_section (self : t) : list string :=
  List.concat
    [[Py.times "-" 80; "INFORMAÇÕES DE IDENTIFICAÇÃO"; Py.times "-" 80];
     match identification self with
     | [] => ["Informações de identificação não disponíveis"]
     | i =>
         ["Data e Hora: " ++ get i "date_time" unavailable;
          "Nome do Técnico: " ++ get i "technician_name" unavailable;
          "ID da Bancada: " ++ get i "workbench_id" unavailable]
     end;
     [""]].

Definition system_section (p : Platform) : list string :=
  [Py.times "-" 80; "INFORMAÇÕES DO SISTEMA"; Py.times "-" 80;
   "Sistema Operacional: " ++ system p ++ " " ++ release p ++ " " ++ version p;
   "Arquitetura: " ++ machine p;
   "Nome do Computador: " ++ node p;
   ""].

(** [enumerate(l, i)] *)
Fixpoint enumerate {A : Type} (l : list A) (i : nat) : list (nat * A) :=
  match l with
  | [] => []
  | x :: rest => (i, x) :: enumerate rest (S i)
  end.

Definition module_line (im : nat * dict) : string :=
  let (i, module) := im in
  get module "banklabel" ("BANK " ++ Py.str_nat i) ++ " : "
  ++ get module "size" "N/A GB" ++ " " ++ get module "speed" "N/A MHz".

Definition disk_line (id : nat * entry) : string :=
  match id with
  | (i, Dict disk) =>
      "   Disco" ++ Py.str_nat i ++ ": " ++ get disk "model" "N/A"
      ++ " - " ++ get disk "size" "N/A"
  | (i, Other disk) => "   Disco " ++ Py.str_nat i ++ ": " ++ disk
  end.

Definition gpu_line (ig : nat * entry) : string :=
  match ig with
  | (i, Dict g) => "  GPU " ++ Py.str_nat i ++ ": " ++ get g "model" "N/A"
  | (i, Other g) => "  GPU" ++ Py.str_nat i ++ ": " ++ g
  end.

(** The lines of one key of the hardware dictionary, none when the key
    is absent. *)
Definition when {A : Type} (o : option A) (lines : A -> list string)
  : list string :=
  match o with
  | Some a => lines a
  | None => []
  end.

Definition hardware_section (self : t) : list string :=
  let h := hardware_info self in
  List.concat
    [[Py.times "-" 80; "INFORMAÇÕES DE HARDWARE"; Py.times "-" 80];
     if has_keys h then
       List.concat
         [when (motherboard h) (fun d =>
            ["Placa-Mãe:";
             "  Fabricante: " ++ get d "manufacturer" unavailable;
             "  Modelo: " ++ get d "model" unavailable;
             "  Número de Série: " ++ get d "serial_number" unavailable;
             ""]);
          when (cpu h) (fun d =>
            ["Processador:";
             "  Marca: " ++ get d "brand" unavailable;
             "  Modelo: " ++ get d "model" unavailable;
             ""]);
          when (ram h) (fun r =>
            List.concat
              [["Memória RAM:";
                "  Total: " ++ get (ram_fields r) "total" "Não disponivel"];
               match modules r with
               | [] => [" Não foi possivel obter informações da memória"]
               | ms => map module_line (enumerate ms 1)
               end;
               [""]]);
          when (disks h) (fun ds =>
            match ds with
            | [] => []
            | _ =>
                List.concat
                  [["Discos:"]; map disk_line (enumerate ds 1); [""]]
            end);
          when (gpu h) (fun gs =>
            match gs with
            | [] => []
            | _ =>
                List.concat
                  [["Placas de Vídeo:"]; map gpu_line (enumerate gs 1); [""]]
            end);
          when (display h) (fun d =>
            ["Display:";
             "  Resolução: " ++ get d "resolution" unavailable;
             ""]);
          when (tpm h) (fun d =>
            ["TPM:";
             "  Versão: " ++ get d "version" unavailable;
             "  Status: " ++ get d "status" unavailable;
             "  Fabricante: " ++ get d "manufacturer" unavailable;
             ""]);
          when (bluetooth h) (fun d =>
            ["Bluetooth:";
             "  Dispositivo: " ++ get d "device_name" unavailable;
             "  Status: " ++ get d "device_status" unavailable;
             ""]);
          when (wifi h) (fun d =>
            ["Wi-Fi:";
             "  Adaptador: " ++ get d "adapter_name" unavailable;
             "  Status: " ++ get d "adapter_status" unavailable;
             "  SSID: " ++ get d "connected_ssid" unavailable;
             ""])]
     else ["Informações de hardware não disponíveis"; ""]].

Definition results_section (self : t) : list string :=
  List.concat
    [[Py.times "-" 80; "RESULTADOS DOS TESTES"; Py.times "-" 80];
     match test_details self with
     | [] => ["Nenhum teste foi executado"; ""]
     | ds => flat_map (fun kv => [snd kv; ""]) ds
     end].

(** [len(self.test_results)] *)
Definition total_tests (self : t) : nat := length (test_results self).

(** [sum(1 for result in self.test_results.values()
         if result.get('success', False))] *)
Definition successful_tests (self : t) : nat :=
  length (List.filter success (values (test_results self))).

(** [(successful_tests / total_tests) * 100 if total_tests > 0 else 0] *)
Definition success_rate (self : t) : Q :=
  if (0 <? total_tests self)%nat
  then ((inject_Z (Z.of_nat (successful_tests self))
         / inject_Z (Z.of_nat (total_tests self))) * 100)%Q
  else 0%Q.

(** The lines written under the summary heading. *)
Definition summary_lines (self : t) : list string :=
  match test_results self with
  | [] => ["Nenhum teste foi executado"]
  | _ =>
      ["Total de Testes: " ++ Py.str_nat (total_tests self);
       "Testes com Sucesso: " ++ Py.str_nat (successful_tests self);
       "Testes com Falha: "
         ++ Py.str_nat (total_tests self - successful_tests self);
       "Taxa de Sucesso: " ++ Py.format_2f (success_rate self) ++ "%"]
  end.

Definition summary_section (self : t) : list string :=
  List.concat
    [[Py.times "-" 80; "RESUMO DOS TESTES"; Py.times "-" 80];
     summary_lines self].

Definition footer : list string :=
  [""; Py.times "=" 80; "FIM DO RELATÓRIO"; Py.times "=" 80].

Definition _generate_report_content (self : t) (p : Platform) : string :=
  Py.join Py.newline
    (List.concat
       [header; identification_section self; system_section p;
        hardware_section self; results_section self;
        summary_section self; footer]).

(** *** Writing the report *)

(** How [f.write(content)] and the closing of the file end: the content
    is in the file, or an exception is raised after [arrived] bytes of
    it reached the file. *)
Inductive write_outcome : Type :=
| Written
| WriteFails (e : string) (arrived : nat).

(** What the operating system answers to [generate_report] and to the
    window that reads the report back: the home directory,
    [os.path.join], whether creating a directory and opening a file for
    writing succeed, how the writing of a content to an opened file
    ends, and whether a file can be opened and read. *)
Record OS : Type := {
  platform : Platform;
  expanduser : string;
  path_join : string -> string -> string;
  makedirs : string -> Py.outcome unit;
  open_write : string -> Py.outcome unit;
  write : string -> string -> write_outcome;
  open_read : string -> Py.outcome unit
}.

(** The files written so far, by path. *)
Definition Files := list (string * string).

(** [generate_report], at the clock reading [timestamp]
    ([strftime("%Y%m%d_%H%M%S")]).  [open(report_path, 'w')] creates the
    file or empties it, so a writing that fails leaves the file with the
    part of the content that arrived. *)
Definition generate_report (self : t) (os : OS) (timestamp : string)
  (files : Files) : Py.outcome string * Files :=
  let wrap e := "Erro ao gerar relatório: " ++ e in
  let report_dir :=
    match output_directory self with
    | Some d =>
        if String.eqb d ""
        then path_join os (expanduser os) "Diagnostico_Hardware_Reports"
        else d
    | None => path_join os (expanduser os) "Diagnostico_Hardware_Reports"
    end in
  match makedirs os report_dir with
  | Py.Raise e => (Py.Raise (wrap e), files)
  | Py.Ok _ =>
      let report_path :=
        path_join os report_dir ("relatorio_" ++ timestamp ++ ".txt") in
      let content := _generate_report_content self (platform os) in
      match open_write os report_path with
      | Py.Raise e => (Py.Raise (wrap e), files)
      | Py.Ok _ =>
          match write os report_path content with
          | Written => (Py.Ok report_path, set_item report_path content files)
          | WriteFails e arrived =>
              (Py.Raise (wrap e),
               set_item report_path (String.substring 0 arrived content) files)
          end
      end
  end.

End ReportGenerator.

(** ** src/core/hardware_info.py *)

Module HardwareInfo.

Import ReportGenerator.

(** How a [subprocess.run] ends. *)
Inductive completed : Type :=
| Completed (returncode : Z) (stdout : string)
| TimeoutExpired
| SubprocessError.

(** The machine the collector runs on. *)
Record t : Type := {
  is_windows : bool;
  subprocess_run : list string -> completed
}.

Definition _run_command (self : t) (command : list string) : string :=
  match subprocess_run self command with
  | Completed returncode stdout =>
      if (returncode =? 0)%Z then Py.strip stdout else ""
  | TimeoutExpired => ""
  | SubprocessError => ""
  end.

Definition _run_powershell (self : t) (command : string) : string :=
  _run_command self ["powershell"; "-Command"; command].

Definition bluetooth_status_query : string :=
  "Get-Service bthserv | Select-Object -ExpandProperty Status".

Definition bluetooth_device_query : string :=
  "Get-PnpDevice | Where-Object {$_.Class -like " ++ Py.quote ++ "Bluetooth"
  ++ Py.quote
  ++ "} | Select-Object -First 1 -ExpandProperty Manufacturer".

Definition get_bluetooth_info (self : t) : dict :=
  let result :=
    [("device_name", "Não disponível"); ("device_status", "Não disponível")] in
  if negb (is_windows self) then result
  else
    let status_output := _run_powershell self bluetooth_status_query in
    let result :=
      if String.eqb (Py.lower status_output) "running"
      then set_item "device_status" "Ativo" result
      else set_item "device_status" (Py.capitalize status_output) result in
    let device_output := _run_powershell self bluetooth_device_query in
    if negb (String.eqb device_output "")
       && negb (String.eqb (Py.lower device_output) "microsoft")
    then set_item "device_name" device_output result
    else result.

Definition wifi_adapters : string :=
  "Get-NetAdapter | Where-Object {$_.InterfaceDescription -match "
  ++ Py.quote ++ "Wi|Wireless|802" ++ Py.quote
  ++ "} | Select-Object -First 1 -ExpandProperty ".

Definition wifi_adapter_query : string := wifi_adapters ++ "InterfaceDescription".

Definition wifi_status_query : string := wifi_adapters ++ "Status".

Definition wifi_ssid_query : string :=
  "(netsh wlan show interfaces) -match " ++ Py.quote ++ "^ *SSID" ++ Py.quote
  ++ " | Select-Object -First 1 | ForEach-Object { ($_ -split "
  ++ Py.quote ++ ":" ++ Py.quote ++ ")[1].Trim() }".

(** [if output: result[key] = output] *)
Definition set_if_output (key output : string) (result : dict) : dict :=
  if negb (String.eqb output "") then set_item key output result else result.

Definition get_wifi_info (self : t) : dict :=
  let result :=
    [("adapter_name", "Não disponível"); ("adapter_status", "Não disponível");
     ("connected_ssid", "Não disponível")] in
  if negb (is_windows self) then result
  else
    let result :=
      set_if_output "adapter_name"
        (_run_powershell self wifi_adapter_query) result in
    let result :=
      set_if_output "adapter_status"
        (_run_powershell self wifi_status_query) result in
    set_if_output "connected_ssid"
      (_run_powershell self wifi_ssid_query) result.

(** A field holds a collected value or the placeholder: it is not left
    without text. *)
Definition filled (d : dict) (key : string) : bool :=
  negb (String.eqb (get d key "") "").

End HardwareInfo.

(** ** src/gui/main_window.py *)

Module MainWindow.

(** The part of the window the orchestration and the report read back.
    [open_tests] are the test windows that are open, [scheduled] counts
    the pending [after(100, self._execute_next_test)], [dialogs] are the
    titles of the message boxes shown, oldest first. *)
Record t : Type := {
  technician_name : string;
  workbench_id : string;
  report_save_path : string;
  selected_tests : list (string * bool);
  tests_running : bool;
  test_queue : list string;
  open_tests : list string;
  scheduled : nat;
  dialogs : list string;
  report_generator : ReportGenerator.t;
  report_text : string;
  files : ReportGenerator.Files
}.

(** [__init__]; [desktop] is the Desktop folder of the user. *)
Definition init (desktop : string) : t :=
  {| technician_name := ""; workbench_id := "";
     report_save_path := desktop;
     selected_tests :=
       [("keyboard", false); ("usb", false); ("webcam", false);
        ("audio", false)];
     tests_running := false; test_queue := []; open_tests := [];
     scheduled := 0; dialogs := [];
     report_generator := ReportGenerator.init;
     report_text := ""; files := [] |}.

Definition with_technician_name (v : string) (s : t) : t :=
  {| technician_name := v; workbench_id := workbench_id s;
     report_save_path := report_save_path s;
     selected_tests := selected_tests s; tests_running := tests_running s;
     test_queue := test_queue s; open_tests := open_tests s;
     scheduled := scheduled s; dialogs := dialogs s;
     report_generator := report_generator s;
     report_text := report_text s; files := files s |}.

Definition with_workbench_id (v : string) (s : t) : t :=
  {| technician_name := technician_name s; workbench_id := v;
     report_save_path := report_save_path s;
     selected_tests := selected_tests s; tests_running := tests_running s;
     test_queue := test_queue s; open_tests := open_tests s;
     scheduled := scheduled s; dialogs := dialogs s;
     report_generator := report_generator s;
     report_text := report_text s; files := files s |}.

Definition with_selected_tests (v : list (string * bool)) (s : t) : t :=
  {| technician_name := technician_name s; workbench_id := workbench_id s;
     report_save_path := report_save_path s;
     selected_tests := v; tests_running := tests_running s;
     test_queue := test_queue s; open_tests := open_tests s;
     scheduled := scheduled s; dialogs := dialogs s;
     report_generator := report_generator s;
     report_text := report_text s; files := files s |}.

Definition with_tests_running (v : bool) (s : t) : t :=
  {| technician_name := technician_name s; workbench_id := workbench_id s;
     report_save_path := report_save_path s;
     selected_tests := selected_tests s; tests_running := v;
     test_queue := test_queue s; open_tests := open_tests s;
     scheduled := scheduled s; dialogs := dialogs s;
     report_generator := report_generator s;
     report_text := report_text s; files := files s |}.

Definition with_test_queue (v : list string) (s : t) : t :=
  {| technician_name := technician_name s; workbench_id := workbench_id s;
     report_save_path := report_save_path s;
     selected_tests := selected_tests s; tests_running := tests_running s;
     test_queue := v; open_tests := open_tests s;
     scheduled := scheduled s; dialogs := dialogs s;
     report_generator := report_generator s;
     report_text := report_text s; files := files s |}.

Definition with_open_tests (v : list string) (s : t) : t :=
  {| technician_name := technician_name s; workbench_id := workbench_id s;
     report_save_path := report_save_path s;
     selected_tests := selected_tests s; tests_running := tests_running s;
     test_queue := test_queue s; open_tests := v;
     scheduled := scheduled s; dialogs := dialogs s;
     report_generator := report_generator s;
     report_text := report_text s; files := files s |}.

Definition with_scheduled (v : nat) (s : t) : t :=
  {| technician_name := technician_name s; workbench_id := workbench_id s;
     report_save_path := report_save_path s;
     selected_tests := selected_tests s; tests_running := tests_running s;
     test_queue := test_queue s; open_tests := open_tests s;
     scheduled := v; dialogs := dialogs s;
     report_generator := report_generator s;
     report_text := report_text s; files := files s |}.

Definition with_report_generator (v : ReportGenerator.t) (s : t) : t :=
  {| technician_name := technician_name s; workbench_id := workbench_id s;
     report_save_path := report_save_path s;
     selected_tests := selected_tests s; tests_running := tests_running s;
     test_queue := test_queue s; open_tests := open_tests s;
     scheduled := scheduled s; dialogs := dialogs s;
     report_generator := v;
     report_text := report_text s; files := files s |}.

Definition with_report (text : string) (fs : ReportGenerator.Files) (s : t) : t :=
  {| technician_name := technician_name s; workbench_id := workbench_id s;
     report_save_path := report_save_path s;
     selected_tests := selected_tests s; tests_running := tests_running s;
     test_queue := test_queue s; open_tests := open_tests s;
     scheduled := scheduled s; dialogs := dialogs s;
     report_generator := report_generator s;
     report_text := text; files := fs |}.

(** [messagebox.show...(title, ...)] *)
Definition show (title : string) (s : t) : t :=
  {| technician_name := technician_name s; workbench_id := workbench_id s;
     report_save_path := report_save_path s;
     selected_tests := selected_tests s; tests_running := tests_running s;
     test_queue := test_queue s; open_tests := open_tests s;
     scheduled := scheduled s; dialogs := dialogs s ++ [title];
     report_generator := report_generator s;
     report_text := report_text s; files := files s |}.

(** *** Identification *)

Definition _validate_identification_fields (s : t) : bool * t :=
  if String.eqb (Py.strip (technician_name s)) ""
  then (false, show "Campo Obrigatório" s)
  else if String.eqb (Py.strip (workbench_id s)) ""
  then (false, show "Campo Obrigatório" s)
  else (true, s).

(** *** Running the tests *)

(** What the system answers when a test is created: whether
    [tempfile.mkdtemp()], called by [initialize] of the webcam and audio
    tests, and [wmi.WMI()], called by the constructor of the USB test,
    go through. *)
Record System : Type := {
  mkdtemp : bool;
  wmi : bool
}.

(** The window of a test opens. *)
Definition open (test_id : string) (s : t) : t :=
  with_open_tests (open_tests s ++ [test_id]) s.

(** The window of a test closes. *)
Definition close (test_id : string) (s : t) : t :=
  with_open_tests
    (List.filter (fun x => negb (String.eqb x test_id)) (open_tests s)) s.

(** [self.root.after(100, self._execute_next_test)] *)
Definition schedule (s : t) : t := with_scheduled (S (scheduled s)) s.

(** [initialize] of the keyboard test always answers [True]. *)
Definition _run_keyboard_test (s : t) : t := open "keyboard" s.

(** The constructor of the USB test connects to WMI and then opens its
    window.  Nothing around it catches an exception: when the connection
    fails the handler ends there, with no window and no scheduled call.
    When the window is open the handler ends all the same, since the
    class has no [initialize]: with an [AttributeError] that Tk reports,
    the window staying open. *)
Definition _run_usb_test (sys : System) (s : t) : t :=
  if wmi sys then open "usb" s else s.

(** [initialize] of the webcam and audio tests answers [False] when the
    temporary directory cannot be made. *)
Definition _run_webcam_test (sys : System) (s : t) : t :=
  if mkdtemp sys then open "webcam" s else schedule (show "Erro" s).

Definition _run_audio_test (sys : System) (s : t) : t :=
  if mkdtemp sys then open "audio" s else schedule (show "Erro" s).

Definition _execute_next_test (sys : System) (s : t) : t :=
  match test_queue s with
  | [] => show "Testes Concluídos" (with_tests_running false s)
  | test_id :: rest =>
      let s := with_test_queue rest s in
      if String.eqb test_id "keyboard" then _run_keyboard_test s
      else if String.eqb test_id "usb" then _run_usb_test sys s
      else if String.eqb test_id "webcam" then _run_webcam_test sys s
      else if String.eqb test_id "audio" then _run_audio_test sys s
      else schedule s
  end.

Definition _run_selected_tests (sys : System) (s : t) : t :=
  let (valid, s) := _validate_identification_fields s in
  if negb valid then s
  else
    let selected :=
      map fst
        (List.filter (fun kv : string * bool => snd kv) (selected_tests s)) in
    match selected with
    | [] => show "Nenhum Teste Selecionado" s
    | _ =>
        if tests_running s then show "Testes em Execução" s
        else
          _execute_next_test sys
            (with_test_queue selected (with_tests_running true s))
    end.

Definition _run_all_tests (sys : System) (s : t) : t :=
  let (valid, s) := _validate_identification_fields s in
  if negb valid then s
  else if tests_running s then show "Testes em Execução" s
  else
    _execute_next_test sys
      (with_test_queue (map fst (selected_tests s))
         (with_tests_running true s)).

Definition _handle_test_completion (sys : System) (test_name : string)
  (result : TestResult) (formatted_result : string) (s : t) : t :=
  _execute_next_test sys
    (with_report_generator
       (ReportGenerator.add_test_result (report_generator s)
          test_name result formatted_result) s).

(** The name under which each test reports its completion. *)
Definition reported_name (test_id : string) : string :=
  if String.eqb test_id "webcam" then "Webcam"
  else if String.eqb test_id "audio" then "Áudio"
  else test_id.

(** *** The report *)

(** [_generate_report]; [hardware] is what the collector and the fields
    of the window give, [date_time] and [timestamp] the two readings of
    the clock.  The report is read back from the file to be shown; what
    [generate_report] left in the files stays there when it raises, and
    so does the report when it cannot be read back. *)
Definition _generate_report (hardware : ReportGenerator.Hardware)
  (os : ReportGenerator.OS) (date_time timestamp : string) (s : t) : t :=
  if String.eqb (Py.strip (technician_name s)) ""
  then show "Campo Obrigatório" s
  else if String.eqb (Py.strip (workbench_id s)) ""
  then show "Campo Obrigatório" s
  else
    let identification_info :=
      [("date_time", date_time);
       ("technician_name", technician_name s);
       ("workbench_id", workbench_id s)] in
    let rg :=
      ReportGenerator.set_output_directory
        (ReportGenerator.set_hardware_info
           (ReportGenerator.set_identification (report_generator s)
              identification_info)
           hardware)
        (report_save_path s) in
    let s := with_report_generator rg s in
    match ReportGenerator.generate_report rg os timestamp (files s) with
    | (Py.Ok report_path, fs) =>
        match ReportGenerator.open_read os report_path with
        | Py.Ok _ =>
            show "Relatório Gerado"
              (with_report (ReportGenerator.get fs report_path "") fs s)
        | Py.Raise e =>
            show "Erro ao Gerar Relatório" (with_report (report_text s) fs s)
        end
    | (Py.Raise e, fs) =>
        show "Erro ao Gerar Relatório" (with_report (report_text s) fs s)
    end.

(** *** What happens to the window *)

Inductive event : Type :=
| TypeTechnicianName (text : string)
| TypeWorkbenchId (text : string)
| Toggle (test_id : string) (value : bool)
| ClickRunSelected (sys : System)
| ClickRunAll (sys : System)
| TestCompletes (test_id : string) (result : TestResult)
    (formatted_result : string) (sys : System)
| TestSkipped
| TimerFires (sys : System)
| ClickGenerateReport (hardware : ReportGenerator.Hardware)
    (os : ReportGenerator.OS) (date_time timestamp : string).

(** [TestCompletes]: an open test window closes and the completion is
    reported.  [TestSkipped]: the USB window closes on its skip button,
    which reports nothing.  [TimerFires]: a scheduled call runs. *)
Definition step (s : t) (e : event) : t :=
  match e with
  | TypeTechnicianName text => with_technician_name text s
  | TypeWorkbenchId text => with_workbench_id text s
  | Toggle test_id value =>
      if ReportGenerator.contains (selected_tests s) test_id
      then with_selected_tests
             (ReportGenerator.set_item test_id value (selected_tests s)) s
      else s
  | ClickRunSelected sys => _run_selected_tests sys s
  | ClickRunAll sys => _run_all_tests sys s
  | TestCompletes test_id result formatted_result sys =>
      if existsb (String.eqb test_id) (open_tests s)
      then _handle_test_completion sys (reported_name test_id)
             result formatted_result (close test_id s)
      else s
  | TestSkipped =>
      if existsb (String.eqb "usb") (open_tests s) then close "usb" s else s
  | TimerFires sys =>
      match scheduled s with
      | O => s
      | S n => _execute_next_test sys (with_scheduled n s)
      end
  | ClickGenerateReport hardware os date_time timestamp =>
      _generate_report hardware os date_time timestamp s
  end.

Definition run (desktop : string) (evs : list event) : t :=
  fold_left step evs (init desktop).

(** One test at a time: at most one test window is open or about to be
    opened, and none unless a run is in progress. *)
Definition single_flight (s : t) : Prop :=
  length (open_tests s) + scheduled s <= 1 /\
  (tests_running s = false -> open_tests s = [] /\ scheduled s = 0).

(** The run is where it was: same flag, same queue, same open tests,
    same scheduled calls, same recorded results. *)
Definition same_run (s s' : t) : Prop :=
  tests_running s' = tests_running s /\
  test_queue s' = test_queue s /\
  open_tests s' = open_tests s /\
  scheduled s' = scheduled s /\
  report_generator s' = report_generator s.

(** Empty, or white space only. *)
Definition blank (text : string) : bool :=
  forallb Py.isspace (Py.chars text).

(** A run that waits for nothing: the flag is set, no test is open and
    no call of [_execute_next_test] is scheduled. *)
Definition stalled (s : t) : Prop :=
  tests_running s = true /\ open_tests s = [] /\ scheduled s = 0.

(** The identifiers of the four tests, in the order of
    [self.selected_tests]. *)
Definition test_ids : list string := ["keyboard"; "usb"; "webcam"; "audio"].

(** The ticked tests, in that order (the list comprehension of
    [_run_selected_tests]). *)
Definition ticked (s : t) : list string :=
  map fst (List.filter (fun kv : string * bool => snd kv) (selected_tests s)).

(** The names under which the four tests report their completion. *)
Definition recorded_names : list string :=
  ["keyboard"; "usb"; "Webcam"; "Áudio"].

(** Only the four tests are ever open, and results are recorded under
    their four names, each once. *)
Definition bounded (s : t) : Prop :=
  (forall x, In x (open_tests s) -> In x test_ids) /\
  NoDup (map fst (ReportGenerator.test_results (report_generator s))) /\
  (forall x, In x (map fst (ReportGenerator.test_results (report_generator s))) ->
             In x recorded_names).

(** *** Collecting the hardware information *)

(** The two flags of the collection, the number of threads that are
    inside [_collect_hardware_info], and the warnings shown. *)
Record Collection : Type := {
  hardware_collection_started : bool;
  hardware_collection_running : bool;
  collectors : nat;
  collection_warnings : list string
}.

(** [__init__] *)
Definition init_collection : Collection :=
  {| hardware_collection_started := false;
     hardware_collection_running := false;
     collectors := 0; collection_warnings := [] |}.

Definition _start_hardware_collection (c : Collection) : Collection :=
  if negb (hardware_collection_started c)
     && negb (hardware_collection_running c)
  then
    {| hardware_collection_started := true;
       hardware_collection_running := true;
       collectors := S (collectors c);
       collection_warnings := collection_warnings c |}
  else c.

Definition _refresh_hardware_info (c : Collection) : Collection :=
  if negb (hardware_collection_running c)
  then
    {| hardware_collection_started := hardware_collection_started c;
       hardware_collection_running := true;
       collectors := S (collectors c);
       collection_warnings := collection_warnings c |}
  else
    {| hardware_collection_started := hardware_collection_started c;
       hardware_collection_running := hardware_collection_running c;
       collectors := collectors c;
       collection_warnings :=
         collection_warnings c ++ ["Coleta em Andamento"] |}.

(** The [finally] block of [_collect_hardware_info], with which a
    collecting thread ends. *)
Definition _collect_hardware_info_ends (c : Collection) : Collection :=
  {| hardware_collection_started := hardware_collection_started c;
     hardware_collection_running := false;
     collectors := pred (collectors c);
     collection_warnings := collection_warnings c |}.

(** [StartTimerFires]: the call [__init__] schedules with
    [after(100, self._start_hardware_collection)] runs.  [ClickRefresh]:
    the refresh button.  [CollectorEnds]: a collecting thread, if there
    is one, reaches its end. *)
Inductive collection_event : Type :=
| StartTimerFires
| ClickRefresh
| CollectorEnds.

Definition collection_step (c : Collection) (e : collection_event)
  : Collection :=
  match e with
  | StartTimerFires => _start_hardware_collection c
  | ClickRefresh => _refresh_hardware_info c
  | CollectorEnds =>
      match collectors c with
      | O => c
      | S _ => _collect_hardware_info_ends c
      end
  end.

Definition collection_run (evs : list collection_event) : Collection :=
  fold_left collection_step evs init_collection.

End MainWindow.

(** ** Sample inputs *)

Module Samples.

Definition pendrive : USBTest.Device :=
  {| USBTest.dev_name := "KINGSTON (E:)";
     USBTest.dev_path := "E:\";
     USBTest.dev_protocol := "USB (desconhecido)" |}.

(** A device that stores what it is given: one second per copy. *)
Definition healthy : USBTest.Env :=
  {| USBTest.now := fun n => inject_Z (Z.of_nat n);
     USBTest.getsize := fun p =>
       match p with
       | USBTest.TempFile size | USBTest.DeviceFile size => Ok (size * 1048576)%Z
       end;
     USBTest.copy_result := fun _ => Ok tt;
     USBTest.mkdtemp_result := Ok tt;
     USBTest.create_result := fun _ => Ok tt;
     USBTest.hash_result := fun _ => Ok "9f86d081884c7d65";
     USBTest.read_result := fun _ _ => Ok 25%Q;
     USBTest.remove_result := fun _ => Ok tt |}.

(** A device whose copies take 2 s and 1 s for the file of 10 MB, 4 s
    and 5 s for the file of 100 MB, and that is read at 30 MB/s and
    20 MB/s. *)
Definition uneven : USBTest.Env :=
  {| USBTest.now := fun n =>
       inject_Z (nth n [0; 2; 2; 3; 10; 14; 14; 19]%Z 0%Z);
     USBTest.getsize := USBTest.getsize healthy;
     USBTest.copy_result := fun _ => Ok tt;
     USBTest.mkdtemp_result := Ok tt;
     USBTest.create_result := fun _ => Ok tt;
     USBTest.hash_result := USBTest.hash_result healthy;
     USBTest.read_result := fun _ p =>
       match p with
       | USBTest.DeviceFile 10 => Ok 30%Q
       | _ => Ok 20%Q
       end;
     USBTest.remove_result := fun _ => Ok tt |}.

(** A device that is unplugged before the first copy. *)
Definition unplugged : USBTest.Env :=
  {| USBTest.now := USBTest.now healthy;
     USBTest.getsize := USBTest.getsize healthy;
     USBTest.copy_result := fun _ => Raise "[Errno 2] No such file or directory";
     USBTest.mkdtemp_result := Ok tt;
     USBTest.create_result := fun _ => Ok tt;
     USBTest.hash_result := USBTest.hash_result healthy;
     USBTest.read_result := USBTest.read_result healthy;
     USBTest.remove_result := fun _ => Ok tt |}.

(** A device that returns other bytes than it was given, however fast. *)
Definition corrupting : USBTest.Env :=
  {| USBTest.now := USBTest.now healthy;
     USBTest.getsize := USBTest.getsize healthy;
     USBTest.copy_result := fun _ => Ok tt;
     USBTest.mkdtemp_result := Ok tt;
     USBTest.create_result := fun _ => Ok tt;
     USBTest.hash_result := fun p =>
       match p with
       | USBTest.TempFile _ => Ok "9f86d081884c7d65"
       | USBTest.DeviceFile _ => Ok "60303ae22b998861"
       end;
     USBTest.read_result := fun _ _ => Ok 2000%Q;
     USBTest.remove_result := fun _ => Ok tt |}.

(** [str.upper] on ASCII text. *)
Definition upper_ascii (c : ascii) : ascii :=
  let n := nat_of_ascii c in
  if (97 <=? n)%nat && (n <=? 122)%nat then ascii_of_nat (n - 32) else c.

Fixpoint ascii_upper (s : string) : string :=
  match s with
  | EmptyString => EmptyString
  | String c rest => String (upper_ascii c) (ascii_upper rest)
  end.

Definition is_lower (c : ascii) : bool :=
  (97 <=? nat_of_ascii c)%nat && (nat_of_ascii c <=? 122)%nat.

(** A result whose success flag is set. *)
Definition passed : TestResult := set_success true initial_result.

(** Two recorded results: A succeeded, B failed. *)
Definition two_results : ReportGenerator.t :=
  ReportGenerator.add_all ReportGenerator.init
    [("A", passed, "A: sucesso"); ("B", initial_result, "B: falha")].

(** A Windows machine on which every query times out. *)
Definition queries_time_out : HardwareInfo.t :=
  {| HardwareInfo.is_windows := true;
     HardwareInfo.subprocess_run := fun _ => HardwareInfo.TimeoutExpired |}.

(** A Windows machine without the Bluetooth service: the query of its
    status ends with an error, every other query answers. *)
Definition no_bluetooth_service : HardwareInfo.t :=
  {| HardwareInfo.is_windows := true;
     HardwareInfo.subprocess_run := fun command =>
       if existsb (String.eqb HardwareInfo.bluetooth_status_query) command
       then HardwareInfo.Completed 1 ""
       else HardwareInfo.Completed 0 "Intel" |}.

(** A machine on which every test can be created. *)
Definition working : MainWindow.System :=
  {| MainWindow.mkdtemp := true; MainWindow.wmi := true |}.

(** A machine on which the connection to WMI fails. *)
Definition no_wmi : MainWindow.System :=
  {| MainWindow.mkdtemp := true; MainWindow.wmi := false |}.

(** A machine on which no temporary directory can be made. *)
Definition no_tempdir : MainWindow.System :=
  {| MainWindow.mkdtemp := false; MainWindow.wmi := true |}.

(** The window after the technician identified themself, ticked the
    keyboard and webcam tests and started the run: the keyboard test is
    open, the webcam test waits in the queue. *)
Definition keyboard_running : MainWindow.t :=
  MainWindow.run "Desktop"
    [MainWindow.TypeTechnicianName "Ana"; MainWindow.TypeWorkbenchId "B1";
     MainWindow.Toggle "keyboard" true; MainWindow.Toggle "webcam" true;
     MainWindow.ClickRunSelected working].

(** A Windows machine on which the query of the Wi-Fi adapter answers
    with spaces around the name, the query of its status prints only
    white space and the query of the network ends with an error. *)
Definition wifi_partly_answers : HardwareInfo.t :=
  {| HardwareInfo.is_windows := true;
     HardwareInfo.subprocess_run := fun command =>
       if existsb (String.eqb HardwareInfo.wifi_adapter_query) command
       then HardwareInfo.Completed 0 "  Intel(R) Wi-Fi 6 AX201  "
       else if existsb (String.eqb HardwareInfo.wifi_status_query) command
       then HardwareInfo.Completed 0 "   "
       else HardwareInfo.Completed 1 "" |}.

(** The window once the technician identified themself. *)
Definition identified : MainWindow.t :=
  MainWindow.run "Desktop"
    [MainWindow.TypeTechnicianName "Ana"; MainWindow.TypeWorkbenchId "B1"].

(** An operating system on which directories and files can be written. *)
Definition writable : ReportGenerator.OS :=
  {| ReportGenerator.platform :=
       {| ReportGenerator.system := "Windows"; ReportGenerator.release := "10";
          ReportGenerator.version := "10.0.19045";
          ReportGenerator.machine := "AMD64"; ReportGenerator.node := "BANCADA" |};
     ReportGenerator.expanduser := "C:/Users/ana";
     ReportGenerator.path_join := fun a b => a ++ "/" ++ b;
     ReportGenerator.makedirs := fun _ => Py.Ok tt;
     ReportGenerator.open_write := fun _ => Py.Ok tt;
     ReportGenerator.write := fun _ _ => ReportGenerator.Written;
     ReportGenerator.open_read := fun _ => Py.Ok tt |}.

(** The same system with a disk that is full once 120 bytes of a file
    are written. *)
Definition disk_full : ReportGenerator.OS :=
  {| ReportGenerator.platform := ReportGenerator.platform writable;
     ReportGenerator.expanduser := ReportGenerator.expanduser writable;
     ReportGenerator.path_join := ReportGenerator.path_join writable;
     ReportGenerator.makedirs := fun _ => Py.Ok tt;
     ReportGenerator.open_write := fun _ => Py.Ok tt;
     ReportGenerator.write := fun _ _ =>
       ReportGenerator.WriteFails
         "[Errno 28] No space left on device" 120;
     ReportGenerator.open_read := fun _ => Py.Ok tt |}.

(** The same system with reports that cannot be read back. *)
Definition unreadable : ReportGenerator.OS :=
  {| ReportGenerator.platform := ReportGenerator.platform writable;
     ReportGenerator.expanduser := ReportGenerator.expanduser writable;
     ReportGenerator.path_join := ReportGenerator.path_join writable;
     ReportGenerator.makedirs := fun _ => Py.Ok tt;
     ReportGenerator.open_write := fun _ => Py.Ok tt;
     ReportGenerator.write := fun _ _ => ReportGenerator.Written;
     ReportGenerator.open_read := fun _ =>
       Py.Raise "[Errno 13] Permission denied" |}.

End Samples.

(** * Properties *)

Module PyFacts.

Lemma lt_spec (x y : Q) : Py.lt x y = true <-> (x < y)%Q.
Proof.
  unfold Py.lt. rewrite negb_true_iff.
  split.
  - intros H. apply Qnot_le_lt. intros Hle.
    apply Qle_bool_iff in Hle. congruence.
  - intros H. destruct (Qle_bool y x) eqn:E; [|reflexivity].
    apply Qle_bool_iff in E. exfalso. exact (Qlt_not_le _ _ H E).
Qed.

Lemma lt_false (x y : Q) : Py.lt x y = false <-> (y <= x)%Q.
Proof.
  unfold Py.lt. rewrite negb_false_iff. apply Qle_bool_iff.
Qed.

Lemma min_le_l (a b : Q) : (Py.min a b <= a)%Q.
Proof.
  unfold Py.min. destruct (Py.lt b a) eqn:E.
  - apply Qlt_le_weak. now apply lt_spec.
  - apply Qle_refl.
Qed.

Lemma min_le_r (a b : Q) : (Py.min a b <= b)%Q.
Proof.
  unfold Py.min. destruct (Py.lt b a) eqn:E.
  - apply Qle_refl.
  - now apply lt_false.
Qed.

Lemma min_cases (a b : Q) : Py.min a b = a \/ Py.min a b = b.
Proof. unfold Py.min. destruct (Py.lt b a); auto. Qed.

Lemma all_false_of_member (bs : list bool) :
  In false bs -> Py.all bs = false.
Proof.
  intros H. unfold Py.all.
  destruct (forallb (fun b => b) bs) eqn:E; [|reflexivity].
  rewrite forallb_forall in E. now apply E in H.
Qed.

Example sorted_set_small : Py.sorted_set [10; 100; 100]%Z = [10; 100]%Z.
Proof. reflexivity. Qed.

End PyFacts.

Module USBTestSpec.

Import USBTest.

Example test_sizes_default : test_sizes_of 100 = [10; 100]%Z.
Proof. reflexivity. Qed.

Example test_sizes_large : test_sizes_of 500 = [10; 200; 500]%Z.
Proof. reflexivity. Qed.

Example test_sizes_tiny : test_sizes_of 4 = [4]%Z.
Proof. reflexivity. Qed.

(** C4. The classification by throughput: below 35 MB/s it is USB 2.0,
    from 35 up to (not including) 450 it is USB 3.2 Gen 1, from 450 up
    to (not including) 1100 it is USB 3.2 Gen 2; in particular 40 MB/s
    is Gen 1, 20 MB/s is USB 2.0 and 900 MB/s is Gen 2. *)
Theorem determine_usb_type_bands (speed : Q) :
  ((speed < 35)%Q ->
     _determine_usb_type speed = "USB 2.0 (até 480 Mbps)") /\
  ((35 <= speed)%Q -> (speed < 450)%Q ->
     _determine_usb_type speed = "USB 3.2 Gen 1 (5 Gbps)") /\
  ((450 <= speed)%Q -> (speed < 1100)%Q ->
     _determine_usb_type speed = "USB 3.2 Gen 2 (10 Gbps)") /\
  _determine_usb_type 40 = "USB 3.2 Gen 1 (5 Gbps)" /\
  _determine_usb_type 20 = "USB 2.0 (até 480 Mbps)" /\
  _determine_usb_type 900 = "USB 3.2 Gen 2 (10 Gbps)".
Proof.
  unfold _determine_usb_type.
  repeat split; try reflexivity.
  - intros H. apply PyFacts.lt_spec in H. now rewrite H.
  - intros Hlo Hhi.
    apply PyFacts.lt_false in Hlo. apply PyFacts.lt_spec in Hhi.
    now rewrite Hlo, Hhi.
  - intros Hlo Hhi.
    assert (H35 : (35 <= speed)%Q).
    { eapply Qle_trans; [|exact Hlo]. unfold Qle; simpl; lia. }
    apply PyFacts.lt_false in H35, Hlo. apply PyFacts.lt_spec in Hhi.
    now rewrite H35, Hlo, Hhi.
Qed.

Lemma determine_usb_type_bands_witness :
  _determine_usb_type (449 # 1) = "USB 3.2 Gen 1 (5 Gbps)".
Proof.
  apply (proj1 (proj2 (determine_usb_type_bands (449 # 1))));
    unfold Qle, Qlt; simpl; lia.
Defined.

(** *** The write-speed measurement *)

(** [_measure_write_speed] on the healthy sample: 10 MB in one second,
    twice. *)
Example measure_write_speed_healthy :
  fst (_measure_write_speed Samples.healthy (TempFile 10) (DeviceFile 10) fresh_world)
  = Ok (10485760 # 1048576)%Q.
Proof. reflexivity. Qed.

Lemma speed_of_cases (file_size_mb elapsed : Q) :
  speed_of file_size_mb elapsed
  = if Qlt_le_dec 0 elapsed then (file_size_mb / elapsed)%Q else 0%Q.
Proof.
  unfold speed_of. destruct (Qlt_le_dec 0 elapsed) as [Hpos | Hle].
  - apply PyFacts.lt_spec in Hpos. now rewrite Hpos.
  - apply PyFacts.lt_false in Hle. now rewrite Hle.
Qed.

(** C6. When the size of the source can be read and both copies go
    through, [_measure_write_speed] starts exactly two copies of the
    source to the destination, one after the other, each between two
    readings of the clock, and returns the smaller of the two speeds.
    The speed of a copy is the size of the file in MB (its bytes over
    1024 * 1024) divided by the time between the two readings, and 0
    when that time is not positive.  The value returned is one of the
    two speeds and at most each of them.  (The quotients are exact
    here; the sources hold the doubles nearest to them.) *)
Theorem measure_write_speed_min_of_two
    (env : Env) (src dst : path) (w : World) (bytes : Z) :
  getsize env src = Ok bytes ->
  copy_result env (List.length (copies w)) = Ok tt ->
  copy_result env (S (List.length (copies w))) = Ok tt ->
  let file_size_mb := (inject_Z bytes / inject_Z (1024 * 1024))%Q in
  let elapsed1 := (now env (1 + reads w) - now env (reads w))%Q in
  let elapsed2 := (now env (3 + reads w) - now env (2 + reads w))%Q in
  let speed1 :=
    if Qlt_le_dec 0 elapsed1 then (file_size_mb / elapsed1)%Q else 0%Q in
  let speed2 :=
    if Qlt_le_dec 0 elapsed2 then (file_size_mb / elapsed2)%Q else 0%Q in
  exists speed,
    _measure_write_speed env src dst w
    = (Ok speed,
       {| reads := 4 + reads w;
          copies := (copies w ++ [(src, dst)]) ++ [(src, dst)] |}) /\
    (speed = speed1 \/ speed = speed2) /\
    (speed <= speed1)%Q /\ (speed <= speed2)%Q.
Proof.
  intros Hsize Hc1 Hc2 file_size_mb elapsed1 elapsed2 speed1 speed2.
  exists (Py.min speed1 speed2).
  split; [| split; [apply PyFacts.min_cases
                   | split; [apply PyFacts.min_le_l | apply PyFacts.min_le_r]]].
  unfold _measure_write_speed, bind, lift, time_time, copyfile, ret.
  rewrite Hsize. cbn [reads copies].
  rewrite Hc1.
  rewrite length_app. cbn [List.length].
  replace (List.length (copies w) + 1)%nat with (S (List.length (copies w))) by lia.
  rewrite Hc2. rewrite !speed_of_cases. reflexivity.
Qed.

(** On the uneven sample the file of 10 MB is copied in 2 s and then in
    1 s: the two speeds are 5 and 10 MB/s. *)
Lemma measure_write_speed_min_of_two_witness :
  let file_size_mb := (inject_Z 10485760 / inject_Z (1024 * 1024))%Q in
  let elapsed1 := (inject_Z 2 - inject_Z 0)%Q in
  let elapsed2 := (inject_Z 3 - inject_Z 2)%Q in
  let speed1 :=
    if Qlt_le_dec 0 elapsed1 then (file_size_mb / elapsed1)%Q else 0%Q in
  let speed2 :=
    if Qlt_le_dec 0 elapsed2 then (file_size_mb / elapsed2)%Q else 0%Q in
  exists speed,
    _measure_write_speed Samples.uneven (TempFile 10) (DeviceFile 10) fresh_world
    = (Ok speed,
       {| reads := 4;
          copies := [(TempFile 10, DeviceFile 10); (TempFile 10, DeviceFile 10)] |}) /\
    (speed = speed1 \/ speed = speed2) /\
    (speed <= speed1)%Q /\ (speed <= speed2)%Q.
Proof.
  exact (measure_write_speed_min_of_two Samples.uneven
           (TempFile 10) (DeviceFile 10) fresh_world 10485760
           eq_refl eq_refl eq_refl).
Defined.

(** The value measured there: 5 MB/s, the speed of the slower copy. *)
Example measure_write_speed_uneven :
  exists speed w',
    _measure_write_speed Samples.uneven (TempFile 10) (DeviceFile 10) fresh_world
    = (Ok speed, w') /\ (speed == 5)%Q.
Proof. eexists. eexists. split; [vm_compute; reflexivity | reflexivity]. Qed.

(** *** Integrity *)

Lemma run_pass_ok (env : Env) (nc : bool) (size : Z) (w w' : World) (p : USBPass) :
  run_pass env nc size w = (Ok p, w') ->
  exists h1 h2,
    hash_result env (TempFile size) = Ok h1 /\
    hash_result env (DeviceFile size) = Ok h2 /\
    pass_integrity p = String.eqb h1 h2 /\
    pass_size p = size.
Proof.
  unfold run_pass, bind, lift, ret.
  destruct (create_result env size); [|discriminate].
  destruct (hash_result env (TempFile size)) as [h1|]; [|discriminate].
  destruct (_measure_write_speed env (TempFile size) (DeviceFile size) w)
    as [[ws|] w1]; [|discriminate].
  destruct (read_result env nc (DeviceFile size)); [|discriminate].
  destruct (hash_result env (DeviceFile size)) as [h2|]; [|discriminate].
  destruct (remove_result env (DeviceFile size)); [|discriminate].
  intros H. injection H as <- _.
  exists h1, h2. auto.
Qed.

Lemma run_passes_ok (env : Env) (nc : bool) (sizes : list Z) :
  forall (w w' : World) (ps : list USBPass),
    run_passes env nc sizes w = (Ok ps, w') ->
    forall size, In size sizes ->
      exists p w0 w1,
        In p ps /\ run_pass env nc size w0 = (Ok p, w1).
Proof.
  induction sizes as [|s rest IH]; intros w w' ps Hrun size Hin.
  - destruct Hin.
  - cbn [run_passes] in Hrun. unfold bind in Hrun.
    destruct (run_pass env nc s w) as [[p|] w1] eqn:Hp; [|discriminate].
    fold (run_passes env nc rest) in Hrun.
    destruct (run_passes env nc rest w1) as [[ps'|] w2] eqn:Hps; [|discriminate].
    unfold ret in Hrun. injection Hrun as <- _.
    destruct Hin as [<- | Hin].
    + exists p, w, w1. split; [now left | exact Hp].
    + destruct (IH _ _ _ Hps _ Hin) as (p' & w0 & w3 & Hin' & Hp').
      exists p', w0, w3. split; [now right | exact Hp'].
Qed.

Lemma measure_integrity (env : Env) (nc : bool) (n : Z) (device : Device)
    (w w' : World) (d : USBDetails) :
  measure env nc n device w = (Ok d, w') ->
  d_integrity d = Py.all (map pass_integrity (d_results d)) /\
  exists w0 w1, run_passes env nc (test_sizes_of n) w0 = (Ok (d_results d), w1).
Proof.
  unfold measure, bind, lift, ret.
  destruct (mkdtemp_result env); [|discriminate].
  destruct (run_passes env nc (test_sizes_of n) w) as [[ps|] w1] eqn:Hps;
    [|discriminate].
  destruct (average (map pass_write_speed ps)); [|discriminate].
  destruct (average (map pass_read_speed ps)); [|discriminate].
  intros H. injection H as <- _. cbn [d_integrity d_results].
  split; [reflexivity | eauto].
Qed.

(** C5. In every pass that completes, the integrity flag is true exactly
    when the hash of the source file equals the hash of the copy.  If in
    some pass of a run the two hashes differ, then, whatever the clock
    and the read measurement say, [_run_advanced_test] leaves
    [success = False], and the [integrity] entry it stores, if it stores
    one, is [False]. *)
Theorem integrity_follows_hashes (env : Env) :
  (forall nc size w w' p,
      run_pass env nc size w = (Ok p, w') ->
      exists h1 h2,
        hash_result env (TempFile size) = Ok h1 /\
        hash_result env (DeviceFile size) = Ok h2 /\
        (pass_integrity p = true <-> h1 = h2)) /\
  (forall device s size,
      In size (test_sizes_of (test_file_size_mb s)) ->
      hash_result env (TempFile size) <> hash_result env (DeviceFile size) ->
      details (result s) = NoDetails ->
      success (result (_run_advanced_test env device s)) = false /\
      forall d,
        details (result (_run_advanced_test env device s)) = USBMeasured d ->
        d_integrity d = false).
Proof.
  split.
  - intros nc size w w' p Hp.
    destruct (run_pass_ok _ _ _ _ _ _ Hp) as (h1 & h2 & H1 & H2 & Hi & _).
    exists h1, h2. repeat split; auto.
    + rewrite Hi. apply String.eqb_eq.
    + rewrite Hi. apply String.eqb_eq.
  - intros device s size Hin Hneq Hnone.
    unfold _run_advanced_test. cbn [result].
    destruct (measure env (force_no_cache s) (test_file_size_mb s) device fresh_world)
      as [[d|e] w'] eqn:Hm; cbn [fst success details].
    + destruct (measure_integrity _ _ _ _ _ _ _ Hm) as (Hall & w0 & w1 & Hps).
      destruct (run_passes_ok _ _ _ _ _ _ Hps _ Hin) as (p & wa & wb & Hp & Hrun).
      destruct (run_pass_ok _ _ _ _ _ _ Hrun) as (h1 & h2 & H1 & H2 & Hi & _).
      assert (Hfalse : d_integrity d = false).
      { rewrite Hall. apply PyFacts.all_false_of_member.
        apply in_map_iff. exists p. split; [|exact Hp].
        rewrite Hi. apply String.eqb_neq. intros ->. apply Hneq. congruence. }
      split; [exact Hfalse|].
      intros d' Hd'. injection Hd' as <-. exact Hfalse.
    + split; [reflexivity|].
      intros d Hd. rewrite Hnone in Hd. discriminate.
Qed.

Lemma integrity_follows_hashes_witness :
  success (result (_run_advanced_test Samples.corrupting Samples.pendrive init)) = false.
Proof.
  refine (proj1 (proj2 (integrity_follows_hashes Samples.corrupting)
                   Samples.pendrive init 10%Z _ _ eq_refl)).
  - vm_compute. auto.
  - vm_compute. discriminate.
Defined.

(** What the corrupting sample leaves behind: speeds in the USB4 band,
    integrity and success false. *)
Example corrupting_run :
  let s := _run_advanced_test Samples.corrupting Samples.pendrive init in
  success (result s) = false /\
  exists d, details (result s) = USBMeasured d /\
            d_integrity d = false /\
            d_usb_type d = "USB4/Thunderbolt (20 Gbps)".
Proof.
  vm_compute. split; [reflexivity|]. eexists. repeat split.
Qed.

(** *** Completion *)

(** C1 (failing path). The USB window has no question about whether the
    device worked.  When the measurement raises, the [except] branch
    records the error with [success = False] and the [finally] block
    enables "Concluir"; clicking it stores [success = True].  The result
    handed to the orchestrator is then successful although no
    measurement passed. *)
Theorem complete_after_failed_measurement
    (env : Env) (device : Device) (n free : Z) (e : string) (w' : World) :
  (0 < n)%Z ->
  (n * 1024 * 1024 * 2 <= free)%Z ->
  measure env true n device fresh_world = (Raise e, w') ->
  let s := run [ClickStart (Some device) (Some n) (Ok free) env; ClickComplete] in
  success (result s) = true /\
  error (result s) = Some e /\
  details (result s) = NoDetails /\
  ~ measurement_passed (result s) /\
  completions s = [("usb", result s)].
Proof.
  intros Hn Hfree Hm s. subst s.
  assert (Hle : (n <=? 0)%Z = false) by (apply Z.leb_gt; exact Hn).
  assert (Hlt : (free <? n * 1024 * 1024 * 2)%Z = false)
    by (apply Z.ltb_ge; exact Hfree).
  unfold run.
  cbn -[measure Z.leb Z.ltb Z.mul String.append].
  rewrite Hle, Hlt.
  cbn -[measure String.append].
  rewrite Hm.
  cbn -[String.append].
  repeat split.
  intros (d & Hd & _). discriminate.
Qed.

Lemma complete_after_failed_measurement_witness :
  success (result (run [ClickStart (Some Samples.pendrive) (Some 100%Z)
                          (Ok 1000000000%Z) Samples.unplugged;
                        ClickComplete])) = true.
Proof.
  refine (proj1 (complete_after_failed_measurement Samples.unplugged
                   Samples.pendrive 100 1000000000
                   "[Errno 2] No such file or directory"
                   {| reads := 1; copies := [(TempFile 10, DeviceFile 10)] |}
                   _ _ _)).
  - lia.
  - lia.
  - vm_compute. reflexivity.
Defined.

(** *** The sizes and the passes of a measurement *)

(** X1. For a configured size [n] the measurement runs at the sizes
    [n] when [n <= 10], [10, n] when [10 < n <= 200] and [10, 200, n]
    above: ascending, without repetition, never above [n], the
    configured size last. *)
Theorem test_sizes_closed_form (n : Z) :
  test_sizes_of n
  = if (n <=? 10)%Z then [n]
    else if (n <=? 200)%Z then [10%Z; n]
    else [10%Z; 200%Z; n].
Proof.
  unfold test_sizes_of, sorted_set. cbn [map fold_right].
  destruct (Z.leb_spec n 10) as [H10 | H10];
    [|destruct (Z.leb_spec n 200) as [H200 | H200]];
    rewrite ?(Z.min_r 10 n), ?(Z.min_l 10 n), ?Z.min_id,
      ?(Z.min_r 200 n), ?(Z.min_l 200 n) by lia;
    repeat (cbn [insert_unique];
            repeat match goal with
              | |- context [(?a <? ?b)%Z] =>
                  destruct (Z.ltb_spec a b); try lia
              | |- context [(?a =? ?b)%Z] =>
                  destruct (Z.eqb_spec a b); try lia
              end);
    reflexivity.
Qed.

Lemma measure_write_speed_copies (env : Env) (src dst : path) (w w' : World)
  (speed : Q) :
  _measure_write_speed env src dst w = (Ok speed, w') ->
  copies w' = (copies w ++ [(src, dst); (src, dst)])%list /\
  exists bytes,
    getsize env src = Ok bytes /\
    speed
    = Py.min
        (speed_of (inject_Z bytes / inject_Z (1024 * 1024))
           (now env (1 + reads w) - now env (reads w)))
        (speed_of (inject_Z bytes / inject_Z (1024 * 1024))
           (now env (3 + reads w) - now env (2 + reads w))).
Proof.
  unfold _measure_write_speed, bind, lift, time_time, copyfile, ret.
  destruct (getsize env src) as [bytes|]; [|discriminate].
  cbn [reads copies].
  destruct (copy_result env (List.length (copies w))); [|discriminate].
  destruct (copy_result env _); [|discriminate].
  intros H. injection H as <- <-. cbn [copies].
  split; [now rewrite <- app_assoc|]. exists bytes. split; reflexivity.
Qed.








(** The measurement of the uneven sample: passes of 10 and 100 MB
    written at 5 and 20 MB/s and read at 30 and 20 MB/s, hence 12.5 and
    25 MB/s for the device, a USB 2.0 speed. *)
Example measure_uneven :
  exists d w',
    measure Samples.uneven true 100 Samples.pendrive fresh_world = (Ok d, w') /\
    map pass_size (d_results d) = [10; 100]%Z /\
    Forall2 Qeq (map pass_write_speed (d_results d)) [5; 20]%Q /\
    Forall2 Qeq (map pass_read_speed (d_results d)) [30; 20]%Q /\
    (d_write_speed d == 25 # 2)%Q /\ (d_read_speed d == 25)%Q /\
    d_usb_type d = "USB 2.0 (até 480 Mbps)".
Proof.
  eexists. eexists. split; [vm_compute; reflexivity|]. cbn.
  repeat split; repeat constructor; reflexivity.
Qed.

(** *** Starting *)

(** X3. A click on the start button measures nothing when no device is
    selected, when the size is not a positive integer, or when the
    device is known to have less free space than twice the size: the
    result, the buttons and the reported completions stay as they were.
    With a device, a positive size and enough space (or a free space
    that could not be read) the measurement runs, after which the
    start button is disabled and the button "Concluir" enabled. *)
Theorem start_test_guards (selection : option Device) (size : option Z)
  (free_bytes : outcome Z) (env : Env) (s : t) :
  let s' := _start_test selection size free_bytes env s in
  (selection = None \/ size = None \/
   (exists n, size = Some n /\ (n <= 0)%Z) \/
   (exists n free, size = Some n /\ free_bytes = Ok free /\
                   (free < n * 1024 * 1024 * 2)%Z) ->
   result s' = result s /\ start_button s' = start_button s /\
   complete_button s' = complete_button s /\ is_running s' = is_running s /\
   completions s' = completions s) /\
  (forall device n,
     is_running s = false -> selection = Some device -> size = Some n ->
     (0 < n)%Z ->
     (forall free, free_bytes = Ok free -> (n * 1024 * 1024 * 2 <= free)%Z) ->
     start_button s' = false /\ complete_button s' = true /\
     is_running s' = false /\ selected_device s' = Some device /\
     test_file_size_mb s' = n).
Proof.
  intros s'. subst s'. unfold _start_test. split.
  - intros H. destruct (is_running s) eqn:Hr; [repeat split; congruence|].
    destruct selection as [device|]; [|repeat split; congruence].
    destruct size as [n|]; [|repeat split; congruence].
    destruct (Z.leb_spec n 0) as [Hn | Hn]; [cbn; repeat split; congruence|].
    destruct H as [H | [H | [(n' & H & Hle) | (n' & free & H & Hf & Hlt)]]];
      try discriminate.
    + injection H as <-. lia.
    + injection H as <-. subst free_bytes.
      destruct (Z.ltb_spec free (n * 1024 * 1024 * 2));
        [cbn; repeat split; congruence | lia].
  - intros device n Hr -> -> Hn Hfree. rewrite Hr.
    destruct (Z.leb_spec n 0) as [Hle | _]; [lia|].
    assert (Henough :
      match free_bytes with
      | Ok free => negb (free <? n * 1024 * 1024 * 2)%Z
      | Raise _ => true
      end = true).
    { destruct free_bytes as [free|]; [|reflexivity].
      specialize (Hfree free eq_refl).
      destruct (Z.ltb_spec free (n * 1024 * 1024 * 2)); [lia | reflexivity]. }
    rewrite Henough. cbn. auto.
Qed.

Lemma step_keeps_measurement (s : t) (e : event) :
  start_button s = false ->
  start_button (step s e) = false /\
  details (result (step s e)) = details (result s) /\
  error (result (step s e)) = error (result s).
Proof.
  intros Hb. unfold step. destruct (window_open s); cbn [negb]; [|auto].
  destruct e as [selection size free_bytes env | yes | | yes].
  - rewrite Hb. auto.
  - destruct yes; cbn; auto.
  - destruct (complete_button s); cbn; auto.
  - destruct yes; cbn; auto.
Qed.

(** X4. Once a measurement has been started its button stays disabled:
    whatever happens afterwards, no second measurement runs, and the
    details and the error of the result remain those the first one
    left (a failed measurement cannot be repeated in the same window). *)
Theorem measurement_runs_once (s : t) (evs : list event) :
  start_button s = false ->
  start_button (fold_left step evs s) = false /\
  details (result (fold_left step evs s)) = details (result s) /\
  error (result (fold_left step evs s)) = error (result s).
Proof.
  revert s. induction evs as [|e evs IH]; intros s Hb; [cbn; auto|].
  cbn [fold_left].
  destruct (step_keeps_measurement s e Hb) as (Hb' & Hd & He).
  destruct (IH _ Hb') as (H1 & H2 & H3).
  split; [exact H1|]. split; congruence.
Qed.

Lemma measurement_runs_once_witness :
  let s := run [ClickStart (Some Samples.pendrive) (Some 10%Z) (Raise "sem acesso")
                  Samples.unplugged] in
  let evs := [ClickStart (Some Samples.pendrive) (Some 10%Z) (Raise "sem acesso")
                Samples.healthy; ClickComplete] in
  start_button s = false /\
  start_button (fold_left step evs s) = false /\
  details (result (fold_left step evs s)) = details (result s) /\
  error (result (fold_left step evs s)) = error (result s).
Proof.
  split; [reflexivity|].
  apply (measurement_runs_once
           (run [ClickStart (Some Samples.pendrive) (Some 10%Z)
                   (Raise "sem acesso") Samples.unplugged])).
  reflexivity.
Defined.

(** *** Reporting the completion *)

Lemma step_reported (s : t) (e : event) : reported s -> reported (step s e).
Proof.
  intros Hrep. unfold step.
  destruct (window_open s) eqn:Hw; cbn [negb]; [|exact Hrep].
  destruct Hrep as [Hopen _]. specialize (Hopen Hw).
  assert (Hsame : forall s', window_open s' = window_open s ->
                             completions s' = completions s -> reported s').
  { intros s' H1 H2. split; rewrite H1, H2; [auto | congruence]. }
  destruct e as [selection size free_bytes env | yes | | yes].
  - destruct (start_button s); [|now apply Hsame].
    unfold _start_test.
    destruct (is_running s); [now apply Hsame|].
    destruct selection; [|now apply Hsame].
    destruct size as [n|]; [|now apply Hsame].
    destruct (n <=? 0)%Z; [now apply Hsame|].
    destruct (match free_bytes with Ok _ => _ | Raise _ => _ end);
      now apply Hsame.
  - destruct yes; [|now apply Hsame].
    split; cbn; [discriminate | auto].
  - destruct (complete_button s); [|now apply Hsame].
    split; cbn; [discriminate|]. rewrite Hopen. now right.
  - destruct yes; [|now apply Hsame].
    split; cbn; [discriminate|]. rewrite Hopen. now right.
Qed.

Lemma run_reported (evs : list event) : reported (run evs).
Proof.
  unfold run. induction evs as [|e evs IH] using rev_ind.
  - split; [reflexivity | discriminate].
  - rewrite fold_left_app. cbn [fold_left]. now apply step_reported.
Qed.

(** X5. The USB test reports its completion at most once, only when its
    window is gone, and what it reports is its final result; the skip
    button closes the window without reporting anything. *)
Theorem completion_reported_once (evs : list event) :
  let s := run evs in
  length (completions s) <= 1 /\
  (completions s <> [] -> window_open s = false) /\
  (forall name r, In (name, r) (completions s) -> name = "usb" /\ r = result s) /\
  (window_open s = true ->
   window_open (step s (ClickSkip true)) = false /\
   completions (step s (ClickSkip true)) = []).
Proof.
  intros s. destruct (run_reported evs) as [Hopen Hclosed]. fold s in Hopen, Hclosed.
  assert (Hcases : completions s = [] \/ completions s = [("usb", result s)]).
  { destruct (window_open s); [left; now apply Hopen | now apply Hclosed]. }
  split; [destruct Hcases as [-> | ->]; cbn; lia|].
  split.
  { intros Hne. destruct (window_open s); [|reflexivity].
    now rewrite Hopen in Hne. }
  split.
  { intros name r Hin. destruct Hcases as [H | H]; rewrite H in Hin; cbn in Hin.
    - destruct Hin.
    - destruct Hin as [Heq | []]. injection Heq as <- <-. auto. }
  intros Hw. unfold step. rewrite Hw. cbn. split; [reflexivity | now apply Hopen].
Qed.

(** *** Speeds *)

Lemma speed_of_nonnegative (size elapsed : Q) :
  (0 <= size)%Q -> (0 <= speed_of size elapsed)%Q.
Proof.
  intros Hs. unfold speed_of. destruct (lt 0 elapsed) eqn:E; [|apply Qle_refl].
  apply PyFacts.lt_spec in E. unfold Qdiv.
  apply Qmult_le_0_compat; [exact Hs|]. apply Qlt_le_weak.
  now apply Qinv_lt_0_compat.
Qed.

Lemma speed_of_stalled (size elapsed : Q) :
  (elapsed <= 0)%Q -> speed_of size elapsed = 0%Q.
Proof.
  intros He. unfold speed_of.
  destruct (lt 0 elapsed) eqn:E; [|reflexivity].
  apply PyFacts.lt_spec in E. exfalso. apply (Qlt_irrefl 0).
  eapply Qlt_le_trans; eassumption.
Qed.

Lemma elapsed_nonpositive (stop start : Q) :
  (stop <= start)%Q -> (stop - start <= 0)%Q.
Proof.
  intros H. apply (proj1 (Qplus_le_l _ _ start)). ring_simplify. exact H.
Qed.

Lemma min_zero (a b : Q) :
  (0 <= a)%Q -> (0 <= b)%Q -> a = 0%Q \/ b = 0%Q -> (Py.min a b == 0)%Q.
Proof.
  intros Ha Hb H. unfold Py.min. destruct (lt b a) eqn:E.
  - apply PyFacts.lt_spec in E. destruct H as [-> | ->]; [|reflexivity].
    exfalso. apply (Qlt_irrefl 0). eapply Qle_lt_trans; eassumption.
  - apply PyFacts.lt_false in E. destruct H as [-> | ->]; [reflexivity|].
    apply Qle_antisym; assumption.
Qed.

(** X6. A write speed that [_measure_write_speed] returns for a file of
    non-negative size is never negative, and it is 0 when the clock did
    not advance during one of the two copies: a copy that takes no
    measurable time is no division by zero. *)
Theorem write_speed_nonnegative (env : Env) (src dst : path) (w w' : World)
  (speed : Q) (bytes : Z) :
  getsize env src = Ok bytes -> (0 <= bytes)%Z ->
  _measure_write_speed env src dst w = (Ok speed, w') ->
  (0 <= speed)%Q /\
  ((now env (1 + reads w) <= now env (reads w))%Q \/
   (now env (3 + reads w) <= now env (2 + reads w))%Q ->
   (speed == 0)%Q).
Proof.
  intros Hsize Hbytes Hrun.
  destruct (measure_write_speed_copies _ _ _ _ _ _ Hrun) as (_ & bytes' & Hs & ->).
  rewrite Hsize in Hs. injection Hs as <-.
  set (size := (inject_Z bytes / inject_Z (1024 * 1024))%Q).
  assert (Hpos : (0 <= size)%Q).
  { unfold size, Qdiv. apply Qmult_le_0_compat.
    - unfold Qle. cbn. lia.
    - apply Qinv_le_0_compat. unfold Qle. simpl. lia. }
  split.
  - destruct (PyFacts.min_cases
                (speed_of size (now env (1 + reads w) - now env (reads w)))
                (speed_of size (now env (3 + reads w) - now env (2 + reads w))))
      as [-> | ->]; now apply speed_of_nonnegative.
  - intros Hstall. apply min_zero; try now apply speed_of_nonnegative.
    destruct Hstall as [H | H]; [left | right]; apply speed_of_stalled;
      now apply elapsed_nonpositive.
Qed.

Lemma write_speed_nonnegative_witness :
  exists speed w',
    getsize Samples.healthy (TempFile 10) = Ok 10485760%Z /\
    (0 <= 10485760)%Z /\
    _measure_write_speed Samples.healthy (TempFile 10) (DeviceFile 10) fresh_world
    = (Ok speed, w') /\
    (0 <= speed)%Q /\
    ((now Samples.healthy (1 + reads fresh_world)
      <= now Samples.healthy (reads fresh_world))%Q \/
     (now Samples.healthy (3 + reads fresh_world)
      <= now Samples.healthy (2 + reads fresh_world))%Q ->
     (speed == 0)%Q).
Proof.
  eexists. eexists. split; [reflexivity|]. split; [lia|].
  split; [vm_compute; reflexivity|].
  eapply (write_speed_nonnegative Samples.healthy (TempFile 10) (DeviceFile 10)
            fresh_world); [reflexivity | lia | vm_compute; reflexivity].
Defined.

End USBTestSpec.

Module WebcamTestSpec.

Import Py WebcamTest.

Lemma webcam_step_success (s : t) (e : event) :
  success (result (step s e)) = true ->
  success (result s) = true \/ e = ClickConfirm true.
Proof.
  unfold step. destruct (window_open s); cbn [negb]; [|now left].
  destruct e as [capture | ok | yes | | yes]; cbn.
  - destruct (start_button s); [|now left].
    destruct capture; cbn; now left.
  - destruct (confirm_buttons s); [|now left].
    destruct ok; cbn; [now right | discriminate].
  - destruct yes; cbn; [discriminate | now left].
  - destruct (complete_button s); cbn; now left.
  - destruct yes; cbn; [discriminate | now left].
Qed.

(** The webcam test succeeds only if the user confirmed it. *)
Lemma webcam_success_confirmed (evs : list event) :
  success (result (run evs)) = true -> In (ClickConfirm true) evs.
Proof.
  unfold run. induction evs as [|e evs IH] using rev_ind; [discriminate|].
  rewrite fold_left_app. cbn [fold_left]. intros H.
  apply in_or_app. destruct (webcam_step_success _ _ H) as [Hs | ->].
  - left. now apply IH.
  - right. now left.
Qed.

(** *** What a result rests on *)

Lemma webcam_step_grounds (s : t) (e : event) :
  (confirm_buttons (step s e) = true ->
   confirm_buttons s = true \/ exists u, e = ClickStart (Ok u)) /\
  (success (result (step s e)) = true ->
   (success (result s) = true \/ e = ClickConfirm true) /\
   (success (result s) = true \/ confirm_buttons s = true)).
Proof.
  unfold step. destruct (window_open s); cbn [negb]; [|auto].
  destruct e as [capture | ok | yes | | yes]; cbn.
  - destruct (start_button s); [|auto].
    destruct capture as [u|]; cbn; [|auto].
    split; [intros _; right; now exists u | auto].
  - destruct (confirm_buttons s) eqn:E; [|rewrite E; auto].
    destruct ok; cbn; rewrite ?E; split; auto; discriminate.
  - destruct yes; cbn; [split; [auto | discriminate] | auto].
  - destruct (complete_button s); cbn; auto.
  - destruct yes; cbn; [split; [auto | discriminate] | auto].
Qed.

Lemma webcam_run_grounds (evs : list event) :
  (confirm_buttons (run evs) = true -> exists u, In (ClickStart (Ok u)) evs) /\
  (success (result (run evs)) = true ->
   In (ClickConfirm true) evs /\ confirm_buttons (run evs) = true).
Proof.
  unfold run. induction evs as [|e evs IH] using rev_ind.
  - split; discriminate.
  - rewrite fold_left_app. cbn [fold_left].
    set (s := fold_left step evs init) in *.
    destruct IH as [IHc IHs].
    destruct (webcam_step_grounds s e) as [Hc Hs].
    assert (Hkeep : confirm_buttons s = true -> confirm_buttons (step s e) = true).
    { clear. intros H. unfold step. destruct (window_open s); cbn [negb]; [|exact H].
      destruct e as [capture | ok | yes | | yes]; cbn.
      - destruct (start_button s); [|exact H]. destruct capture; cbn; auto.
      - rewrite H. exact H.
      - destruct yes; cbn; exact H.
      - destruct (complete_button s); cbn; exact H.
      - destruct yes; cbn; exact H. }
    split.
    + intros H. destruct (Hc H) as [Hb | (u & ->)].
      * destruct (IHc Hb) as (u & Hu). exists u. apply in_or_app. now left.
      * exists u. apply in_or_app. right. now left.
    + intros H. destruct (Hs H) as [Hwho Hbuttons]. split.
      * apply in_or_app. destruct Hwho as [Hb | ->]; [left; now apply IHs | right; now left].
      * apply Hkeep. destruct Hbuttons as [Hb | Hb]; [now apply IHs | exact Hb].
Qed.

(** X7. The webcam test ends with success only if a capture went
    through and the operator then answered "Sim". *)
Theorem webcam_success_grounds (evs : list event) :
  success (result (run evs)) = true ->
  In (ClickConfirm true) evs /\ exists u, In (ClickStart (Ok u)) evs.
Proof.
  intros H. destruct (webcam_run_grounds evs) as [Hc Hs].
  destruct (Hs H) as [Hin Hb]. split; [exact Hin | now apply Hc].
Qed.

Lemma webcam_success_grounds_witness :
  success (result (run [ClickStart (Ok tt); ClickConfirm true; ClickComplete])) = true /\
  In (ClickConfirm true) [ClickStart (Ok tt); ClickConfirm true; ClickComplete] /\
  exists u, In (ClickStart (Ok u)) [ClickStart (Ok tt); ClickConfirm true; ClickComplete].
Proof.
  split; [reflexivity|].
  apply (webcam_success_grounds [ClickStart (Ok tt); ClickConfirm true; ClickComplete]).
  reflexivity.
Defined.

(** *** How a test ends *)

Lemma webcam_step_outcome (s : t) (e : event) :
  outcome_invariant s -> outcome_invariant (step s e).
Proof.
  intros Hinv. unfold step.
  destruct (window_open s) eqn:Hw; cbn [negb]; [|exact Hinv].
  destruct Hinv as [Hopen _]. destruct (Hopen Hw) as [Hic Hans].
  assert (Hsame : forall s',
             window_open s' = true -> is_completed s' = is_completed s ->
             complete_button s' = complete_button s ->
             success (result s') = success (result s) ->
             message (result s') = message (result s) ->
             outcome_invariant s').
  { intros s' H1 H2 H3 H4 H5. split; [|congruence]. intros _.
    split; [congruence|]. rewrite H3. intros Hb.
    unfold answered. rewrite H4, H5. now apply Hans. }
  destruct e as [capture | ok | yes | | yes].
  - destruct (start_button s); [|now apply Hsame].
    destruct capture; now apply Hsame.
  - destruct (confirm_buttons s); [|now apply Hsame].
    split; cbn; [|congruence]. intros _. split; [exact Hic|]. intros _.
    unfold answered. destruct ok; cbn; auto.
  - destruct yes; [|now apply Hsame].
    split; cbn; [discriminate|]. intros _. right. auto.
  - destruct (complete_button s) eqn:Hb; [|now apply Hsame].
    split; cbn; [discriminate|]. intros _. left.
    split; [reflexivity | now apply Hans].
  - destruct yes; [|now apply Hsame].
    split; cbn; [discriminate|]. intros _. right. auto.
Qed.

Lemma webcam_run_outcome (evs : list event) : outcome_invariant (run evs).
Proof.
  unfold run. induction evs as [|e evs IH] using rev_ind.
  - split; [|discriminate]. intros _. split; [reflexivity | discriminate].
  - rewrite fold_left_app. cbn [fold_left]. now apply webcam_step_outcome.
Qed.

(** X8. When the webcam window is gone the test was either completed,
    and then carries the operator's answer (success with "Webcam
    funcionou corretamente", or failure with "Webcam não funcionou
    corretamente"), or abandoned, and then it is a failure whose message
    tells whether it was skipped or closed, whatever was answered
    before. *)
Theorem webcam_closed_outcome (evs : list event) :
  window_open (run evs) = false ->
  (is_completed (run evs) = true /\ answered (result (run evs))) \/
  (is_completed (run evs) = false /\ success (result (run evs)) = false /\
   (message (result (run evs)) = "Teste pulado pelo usuário" \/
    message (result (run evs)) = "Teste interrompido pelo usuário")).
Proof.
  intros Hw. destruct (webcam_run_outcome evs) as [_ Hclosed]. now apply Hclosed.
Qed.

Lemma webcam_closed_outcome_witness :
  let evs := [ClickStart (Ok tt); ClickConfirm true; ClickSkip true] in
  window_open (run evs) = false /\
  ((is_completed (run evs) = true /\ answered (result (run evs))) \/
   (is_completed (run evs) = false /\ success (result (run evs)) = false /\
    (message (result (run evs)) = "Teste pulado pelo usuário" \/
     message (result (run evs)) = "Teste interrompido pelo usuário"))).
Proof.
  split; [reflexivity|].
  apply (webcam_closed_outcome [ClickStart (Ok tt); ClickConfirm true; ClickSkip true]).
  reflexivity.
Defined.

(** *** The text of a failure *)

Lemma webcam_step_error (s : t) (e : event) :
  (forall capture, e <> ClickStart capture) ->
  error (result (step s e)) = error (result s).
Proof.
  intros Hne. unfold step. destruct (window_open s); cbn [negb]; [|reflexivity].
  destruct e as [capture | ok | yes | | yes].
  - now destruct (Hne capture).
  - destruct (confirm_buttons s); [|reflexivity]. now destruct ok.
  - now destruct yes.
  - now destruct (complete_button s).
  - now destruct yes.
Qed.

(** X9. An error recorded by a capture that failed stays in the result
    through every answer, skip, completion or closing that follows, and
    the text of a failed webcam test then shows that error, not the
    reason of the failure (the answer "Não", the skip or the closing). *)
Theorem webcam_failure_text_shows_error (s : t) (evs : list event) (e : string) :
  has_error (result s) = Some e ->
  (forall capture, ~ In (ClickStart capture) evs) ->
  success (result (fold_left step evs s)) = false ->
  get_formatted_result (fold_left step evs s)
  = "Teste de Webcam: FALHA" ++ newline ++ "Erro: " ++ e.
Proof.
  intros He Hno Hfail.
  assert (Herr : error (result (fold_left step evs s)) = error (result s)).
  { clear He Hfail. revert s. induction evs as [|ev evs IH]; intros s; [reflexivity|].
    cbn [fold_left]. rewrite IH.
    - apply webcam_step_error. intros capture ->. apply (Hno capture). now left.
    - intros capture Hin. apply (Hno capture). now right. }
  unfold get_formatted_result. rewrite Hfail.
  unfold has_error in *. rewrite Herr. now rewrite He.
Qed.

Lemma webcam_failure_text_shows_error_witness :
  let s := run [ClickStart (Raise "Não foi possível acessar a webcam")] in
  has_error (result s) = Some "Não foi possível acessar a webcam" /\
  (forall capture, ~ In (ClickStart capture) [ClickSkip true]) /\
  success (result (fold_left step [ClickSkip true] s)) = false /\
  get_formatted_result (fold_left step [ClickSkip true] s)
  = "Teste de Webcam: FALHA" ++ newline ++ "Erro: "
    ++ "Não foi possível acessar a webcam".
Proof.
  split; [reflexivity|].
  split; [intros capture [H | []]; discriminate|].
  split; [reflexivity|].
  apply (webcam_failure_text_shows_error
           (run [ClickStart (Raise "Não foi possível acessar a webcam")])
           [ClickSkip true]).
  - reflexivity.
  - intros capture [H | []]. discriminate.
  - reflexivity.
Defined.

End WebcamTestSpec.

Module AudioTestSpec.

Import Py AudioTest.

Lemma audio_step_success (s : t) (e : event) :
  success (result (step s e)) = true ->
  success (result s) = true \/ e = ClickConfirm true.
Proof.
  unfold step. destruct (window_open s); cbn [negb]; [|now left].
  destruct e as [recording save | playback | ok | yes | | yes]; cbn.
  - unfold record, _stop_recording.
    destruct recording as [[|] | e]; [destruct save| |]; cbn; now left.
  - destruct (play_button s); [|now left].
    unfold _play_audio. destruct (audio_file_exists s); cbn [negb]; [|now left].
    destruct playback; cbn; now left.
  - destruct (confirm_buttons s); [|now left].
    destruct ok; cbn; [now right | discriminate].
  - destruct yes; cbn; [discriminate | now left].
  - destruct (complete_button s); cbn; now left.
  - destruct yes; cbn; [discriminate | now left].
Qed.

(** The audio test succeeds only if the user confirmed it. *)
Lemma audio_success_confirmed (evs : list event) :
  success (result (run evs)) = true -> In (ClickConfirm true) evs.
Proof.
  unfold run. induction evs as [|e evs IH] using rev_ind; [discriminate|].
  rewrite fold_left_app. cbn [fold_left]. intros H.
  apply in_or_app. destruct (audio_step_success _ _ H) as [Hs | ->].
  - left. now apply IH.
  - right. now left.
Qed.

(** *** What a result rests on *)

Lemma audio_step_grounds (s : t) (e : event) :
  (audio_file_exists (step s e) = true ->
   audio_file_exists s = true \/ exists u, e = ClickRecord (Ok true) (Ok u)) /\
  (confirm_buttons (step s e) = true ->
   confirm_buttons s = true \/
   (audio_file_exists s = true /\ exists u, e = ClickPlay (Ok u))) /\
  (success (result (step s e)) = true ->
   (success (result s) = true \/ e = ClickConfirm true) /\
   (success (result s) = true \/ confirm_buttons s = true)).
Proof.
  unfold step. destruct (window_open s); cbn [negb]; [|auto].
  destruct e as [recording save | playback | ok | yes | | yes]; cbn.
  - unfold record, _stop_recording.
    destruct recording as [[|] | e]; [destruct save as [u|]| |]; cbn; auto.
    split; [intros _; right; now exists u | auto].
  - destruct (play_button s); [|auto].
    unfold _play_audio. destruct (audio_file_exists s) eqn:E; cbn [negb]; [|rewrite E; auto].
    destruct playback as [u|]; cbn; rewrite ?E; auto.
    split; [auto|]. split; [intros _; right; split; [reflexivity | now exists u] | auto].
  - destruct (confirm_buttons s) eqn:E; [|rewrite E; auto].
    destruct ok; cbn; rewrite ?E; repeat split; auto; discriminate.
  - destruct yes; cbn; [repeat split; auto; discriminate | auto].
  - destruct (complete_button s); cbn; auto.
  - destruct yes; cbn; [repeat split; auto; discriminate | auto].
Qed.

Lemma audio_step_keeps (s : t) (e : event) :
  (audio_file_exists s = true -> audio_file_exists (step s e) = true) /\
  (confirm_buttons s = true -> confirm_buttons (step s e) = true).
Proof.
  unfold step. destruct (window_open s); cbn [negb]; [|auto].
  destruct e as [recording save | playback | ok | yes | | yes]; cbn.
  - unfold record, _stop_recording.
    destruct recording as [[|] | e]; [destruct save| |]; cbn; auto.
  - destruct (play_button s); [|auto].
    unfold _play_audio.
    destruct (audio_file_exists s) eqn:E; cbn [negb];
      [|split; [discriminate | auto]].
    destruct playback; cbn; rewrite ?E; auto.
  - destruct (confirm_buttons s) eqn:E; [|split; [auto | discriminate]].
    destruct ok; cbn; rewrite ?E; auto.
  - destruct yes; cbn; auto.
  - destruct (complete_button s); cbn; auto.
  - destruct yes; cbn; auto.
Qed.

Lemma audio_run_grounds (evs : list event) :
  (audio_file_exists (run evs) = true ->
   exists u, In (ClickRecord (Ok true) (Ok u)) evs) /\
  (confirm_buttons (run evs) = true ->
   audio_file_exists (run evs) = true /\ exists u, In (ClickPlay (Ok u)) evs) /\
  (success (result (run evs)) = true ->
   In (ClickConfirm true) evs /\ confirm_buttons (run evs) = true).
Proof.
  unfold run. induction evs as [|e evs IH] using rev_ind.
  - repeat split; discriminate.
  - rewrite fold_left_app. cbn [fold_left].
    set (s := fold_left step evs init) in *.
    destruct IH as (IHf & IHc & IHs).
    destruct (audio_step_grounds s e) as (Hf & Hc & Hs).
    destruct (audio_step_keeps s e) as (Kf & Kc).
    split; [|split].
    + intros H. destruct (Hf H) as [Hb | (u & ->)].
      * destruct (IHf Hb) as (u & Hu). exists u. apply in_or_app. now left.
      * exists u. apply in_or_app. right. now left.
    + intros H. destruct (Hc H) as [Hb | (Hfile & u & ->)].
      * destruct (IHc Hb) as (Hfile & u & Hu). split; [now apply Kf|].
        exists u. apply in_or_app. now left.
      * split; [now apply Kf|]. exists u. apply in_or_app. right. now left.
    + intros H. destruct (Hs H) as [Hwho Hbuttons]. split.
      * apply in_or_app.
        destruct Hwho as [Hb | ->]; [left; now apply IHs | right; now left].
      * apply Kc. destruct Hbuttons as [Hb | Hb]; [now apply IHs | exact Hb].
Qed.

(** X10. The audio test ends with success only if a recording was made
    and saved, it was played back without error, and the operator then
    answered "Sim". *)
Theorem audio_success_grounds (evs : list event) :
  success (result (run evs)) = true ->
  In (ClickConfirm true) evs /\
  (exists u, In (ClickPlay (Ok u)) evs) /\
  (exists u, In (ClickRecord (Ok true) (Ok u)) evs).
Proof.
  intros H. destruct (audio_run_grounds evs) as (Hf & Hc & Hs).
  destruct (Hs H) as [Hin Hb]. destruct (Hc Hb) as [Hfile Hplay].
  split; [exact Hin|]. split; [exact Hplay | now apply Hf].
Qed.

Lemma audio_success_grounds_witness :
  let evs := [ClickRecord (Ok true) (Ok tt); ClickPlay (Ok tt);
              ClickConfirm true; ClickComplete] in
  success (result (run evs)) = true /\
  In (ClickConfirm true) evs /\
  (exists u, In (ClickPlay (Ok u)) evs) /\
  (exists u, In (ClickRecord (Ok true) (Ok u)) evs).
Proof.
  split; [reflexivity|].
  apply (audio_success_grounds
           [ClickRecord (Ok true) (Ok tt); ClickPlay (Ok tt);
            ClickConfirm true; ClickComplete]).
  reflexivity.
Defined.

(** *** How a test ends *)

Lemma audio_step_outcome (s : t) (e : event) :
  outcome_invariant s -> outcome_invariant (step s e).
Proof.
  intros Hinv. unfold step.
  destruct (window_open s) eqn:Hw; cbn [negb]; [|exact Hinv].
  destruct Hinv as [Hopen _]. destruct (Hopen Hw) as [Hic Hans].
  assert (Hsame : forall s',
             window_open s' = true -> is_completed s' = is_completed s ->
             complete_button s' = complete_button s ->
             success (result s') = success (result s) ->
             message (result s') = message (result s) ->
             outcome_invariant s').
  { intros s' H1 H2 H3 H4 H5. split; [|congruence]. intros _.
    split; [congruence|]. rewrite H3. intros Hb.
    unfold answered. rewrite H4, H5. now apply Hans. }
  destruct e as [recording save | playback | ok | yes | | yes].
  - unfold record, _stop_recording.
    destruct recording as [[|] | e]; [destruct save| |]; now apply Hsame.
  - destruct (play_button s); [|now apply Hsame].
    unfold _play_audio. destruct (audio_file_exists s); cbn [negb]; [|now apply Hsame].
    destruct playback; now apply Hsame.
  - destruct (confirm_buttons s); [|now apply Hsame].
    split; cbn; [|congruence]. intros _. split; [exact Hic|]. intros _.
    unfold answered. destruct ok; cbn; auto.
  - destruct yes; [|now apply Hsame].
    split; cbn; [discriminate|]. intros _. right. auto.
  - destruct (complete_button s) eqn:Hb; [|now apply Hsame].
    split; cbn; [discriminate|]. intros _. left.
    split; [reflexivity | now apply Hans].
  - destruct yes; [|now apply Hsame].
    split; cbn; [discriminate|]. intros _. right. auto.
Qed.

Lemma audio_run_outcome (evs : list event) : outcome_invariant (run evs).
Proof.
  unfold run. induction evs as [|e evs IH] using rev_ind.
  - split; [|discriminate]. intros _. split; [reflexivity | discriminate].
  - rewrite fold_left_app. cbn [fold_left]. now apply audio_step_outcome.
Qed.

(** X11. When the audio window is gone the test was either completed,
    and then carries the operator's answer (success with "Áudio
    funcionou corretamente", or failure with "Áudio não funcionou
    corretamente"), or abandoned, and then it is a failure whose message
    tells whether it was skipped or closed, whatever was answered
    before. *)
Theorem audio_closed_outcome (evs : list event) :
  window_open (run evs) = false ->
  (is_completed (run evs) = true /\ answered (result (run evs))) \/
  (is_completed (run evs) = false /\ success (result (run evs)) = false /\
   (message (result (run evs)) = "Teste pulado pelo usuário" \/
    message (result (run evs)) = "Teste interrompido pelo usuário")).
Proof.
  intros Hw. destruct (audio_run_outcome evs) as [_ Hclosed]. now apply Hclosed.
Qed.

Lemma audio_closed_outcome_witness :
  let evs := [ClickRecord (Ok true) (Ok tt); ClickPlay (Ok tt);
              ClickConfirm true; CloseWindow true] in
  window_open (run evs) = false /\
  ((is_completed (run evs) = true /\ answered (result (run evs))) \/
   (is_completed (run evs) = false /\ success (result (run evs)) = false /\
    (message (result (run evs)) = "Teste pulado pelo usuário" \/
     message (result (run evs)) = "Teste interrompido pelo usuário"))).
Proof.
  split; [reflexivity|].
  apply (audio_closed_outcome
           [ClickRecord (Ok true) (Ok tt); ClickPlay (Ok tt);
            ClickConfirm true; CloseWindow true]).
  reflexivity.
Defined.

End AudioTestSpec.

Module KeyboardTestSpec.

Import KeyboardTest.

Example key_buttons_count : size key_buttons = 88.
Proof. vm_compute. reflexivity. Qed.

Lemma visual_to_logical_items :
  visual_to_logical
  = [("Shift (Esq)", "Shift"); ("Shift (Dir)", "Shift");
     ("Ctrl (Esq)", "Ctrl"); ("Win (Esq)", "Win");
     ("Alt (Esq)", "Alt"); ("Alt (Dir)", "Alt");
     ("Win (Dir)", "Win"); ("Ctrl (Dir)", "Ctrl");
     ("\", "\")].
Proof. vm_compute. reflexivity. Qed.

(** Case analysis on a comparison of [key] with a label. *)
Ltac case_label key :=
  match goal with
  | |- context [String.eqb key ?s] =>
      destruct (String.eqb_spec key s) as [-> | ?]
  end.

(** Every entry of [visual_to_logical] is the backslash or one side of a
    dual key, and [visuals_of] returns the whole dual key. *)
Lemma assoc_visual (key logic : string) :
  assoc key visual_to_logical = Some logic ->
  In key (visuals_of logic) /\
  (visuals_of logic = ["\"] \/
   exists d, In d dual_keys /\ visuals_of logic = snd d).
Proof.
  rewrite visual_to_logical_items. cbn [assoc].
  repeat (case_label key;
          [ intros [= <-]; split;
            [ vm_compute; auto 10
            | first [ left; vm_compute; reflexivity
                    | right;
                      match goal with
                      | |- exists d, _ /\ visuals_of ?l = _ =>
                          exists (l, visuals_of l)
                      end;
                      split; [ vm_compute; auto 10 | reflexivity ] ] ]
          | ]).
  discriminate.
Qed.

Lemma assoc_none_not_dual (key : string) :
  assoc key visual_to_logical = None ->
  Forall (fun d : string * list string => ~ In key (snd d)) dual_keys.
Proof.
  rewrite visual_to_logical_items. cbn [assoc].
  repeat (case_label key; [discriminate|]).
  intros _. unfold dual_keys.
  repeat constructor; cbn [snd In]; intuition congruence.
Qed.

Lemma logical_none_not_dual (key : string) :
  logical_of key = None ->
  Forall (fun d : string * list string => ~ In key (snd d)) dual_keys.
Proof.
  unfold logical_of, dual_keys. cbn [List.find snd existsb].
  repeat (case_label key; [discriminate | cbn [orb]]).
  intros _. repeat constructor; cbn [snd In]; intuition congruence.
Qed.

Lemma modifier_visuals (key_str : string) :
  existsb (String.eqb key_str) ["Shift"; "Ctrl"; "Alt"; "Win"] = true ->
  exists d, In d dual_keys /\ visuals_of key_str = snd d.
Proof.
  cbn [existsb].
  repeat (case_label key_str;
          [ intros _;
            match goal with
            | |- exists d, _ /\ visuals_of ?l = _ =>
                exists (l, visuals_of l)
            end;
            split; [ vm_compute; auto 10 | reflexivity ]
          | cbn [orb] ]).
  discriminate.
Qed.

(** *** The set of pressed keys *)

Lemma closed_empty : closed ∅.
Proof.
  unfold closed. apply List.Forall_forall. intros d _ (v & _ & Hv).
  set_solver.
Qed.

Lemma closed_all (p : gset string) (d : string * list string) :
  closed p -> In d dual_keys ->
  (exists v, In v (snd d) /\ v ∈ p) ->
  list_to_set (snd d) ⊆ p.
Proof.
  intros Hc Hd Hex v Hv.
  apply elem_of_list_to_set in Hv. apply list_elem_of_In in Hv.
  unfold closed in Hc. rewrite List.Forall_forall in Hc.
  exact (Hc d Hd Hex v Hv).
Qed.

Lemma dual_keys_disjoint (d d' : string * list string) (v : string) :
  In d dual_keys -> In d' dual_keys ->
  In v (snd d) -> In v (snd d') -> d = d'.
Proof.
  unfold dual_keys. cbn [In].
  intros Hd Hd'.
  repeat match goal with
         | H : _ \/ _ |- _ => destruct H
         | H : False |- _ => destruct H
         end; subst; cbn [snd In]; intros Hv Hv';
    repeat match goal with
           | H : _ \/ _ |- _ => destruct H
           | H : False |- _ => destruct H
           end; subst; first [reflexivity | discriminate].
Qed.

Lemma closed_add_dual (p : gset string) (d : string * list string) :
  closed p -> In d dual_keys -> closed (list_to_set (snd d) ∪ p).
Proof.
  unfold closed. rewrite !List.Forall_forall.
  intros Hc Hd d' Hd' (v & Hv & Hin) v' Hv'.
  apply elem_of_union in Hin as [Hin | Hin]; apply elem_of_union.
  - left. apply elem_of_list_to_set, list_elem_of_In in Hin.
    rewrite (dual_keys_disjoint d d' v Hd Hd' Hin Hv).
    now apply elem_of_list_to_set, list_elem_of_In.
  - right. apply (Hc d' Hd'); [|exact Hv']. now exists v.
Qed.

Lemma closed_add_other (p : gset string) (k : string) :
  closed p ->
  Forall (fun d : string * list string => ~ In k (snd d)) dual_keys ->
  closed ({[k]} ∪ p).
Proof.
  unfold closed. rewrite !List.Forall_forall.
  intros Hc Hk d Hd (v & Hv & Hin) v' Hv'.
  apply elem_of_union. right.
  apply (Hc d Hd); [|exact Hv'].
  exists v. split; [exact Hv|].
  apply elem_of_union in Hin as [Hin | Hin]; [|exact Hin].
  apply elem_of_singleton in Hin. subst v.
  exfalso. exact (Hk d Hd Hv).
Qed.

Lemma list_to_set_single (k : string) (p : gset string) :
  list_to_set [k] ∪ p = {[k]} ∪ p.
Proof. cbn [list_to_set]. now rewrite union_empty_r_L. Qed.

(** *** Counter and button *)

Lemma refresh_pressed (s : t) : pressed_keys (refresh s) = pressed_keys s.
Proof.
  unfold refresh, enable_when_all, _update_counter.
  destruct s as [p c b r run comp win].
  cbn -[size key_buttons Nat.leb Nat.eqb].
  destruct (_ =? _)%nat; reflexivity.
Qed.

Lemma refresh_consistent (s : t) : consistent (refresh s).
Proof.
  unfold consistent, refresh, enable_when_all, _update_counter.
  destruct s as [p c b r run comp win].
  cbn -[size key_buttons Nat.leb Nat.eqb].
  destruct (size p =? size key_buttons)%nat eqn:E;
    cbn -[size key_buttons Nat.leb Nat.eqb]; rewrite E.
  - split; [reflexivity | now rewrite orb_true_r].
  - split; [reflexivity | now rewrite orb_false_r].
Qed.

Lemma refresh_id (s : t) : consistent s -> refresh s = s.
Proof.
  unfold consistent, refresh, enable_when_all, _update_counter.
  destruct s as [p c b r run comp win].
  cbn -[size key_buttons Nat.leb Nat.eqb].
  intros [-> ->].
  destruct (size p =? size key_buttons)%nat.
  - now rewrite orb_true_r.
  - now rewrite orb_false_r.
Qed.

Lemma refresh_other (s : t) :
  result (refresh s) = result s /\
  is_running (refresh s) = is_running s /\
  window_open (refresh s) = window_open s.
Proof.
  unfold refresh, enable_when_all, _update_counter.
  destruct s as [p c b r run comp win].
  cbn -[size key_buttons Nat.leb Nat.eqb].
  destruct (_ =? _)%nat; repeat split.
Qed.

Lemma mark_id (vs : list string) (s : t) :
  list_to_set vs ⊆ pressed_keys s -> mark vs s = s.
Proof.
  intros H. unfold mark. destruct s as [p c b r run comp win]. cbn in *.
  f_equal. now apply subseteq_union_1_L.
Qed.

Lemma branch_of_in (x label : string) (table : list (list string * string)) :
  branch_of x table = Some label -> In label (map snd table).
Proof.
  unfold branch_of.
  destruct (List.find _ table) as [p|] eqn:E; [|discriminate].
  intros [= <-]. apply List.find_some in E as [E _].
  apply in_map_iff. now exists p.
Qed.

Lemma named_keys_not_dual :
  Forall (fun label => logical_of label = None) (map snd named_keys).
Proof. vm_compute. repeat constructor. Qed.

Lemma char_keys_not_dual :
  Forall (fun label => logical_of label = None) (map snd char_keys).
Proof. vm_compute. repeat constructor. Qed.

Lemma backslash_not_dual :
  Forall (fun d : string * list string => ~ In "\" (snd d)) dual_keys.
Proof. apply logical_none_not_dual. reflexivity. Qed.

(** *** Traces *)

Section WithUpper.

Variable upper : string -> string.

(** No upper-cased character is the label of one side of a dual key. *)
Hypothesis upper_not_dual : forall c, logical_of (upper c) = None.

Lemma get_key_string_not_dual (k : key) (key_str : string) :
  _get_key_string upper k = Some key_str -> logical_of key_str = None.
Proof.
  destruct k as [name | [char|]]; cbn [_get_key_string].
  - destruct (branch_of name named_keys) as [label|] eqn:E.
    + intros [= <-]. apply branch_of_in in E.
      pose proof named_keys_not_dual as H.
      rewrite List.Forall_forall in H. now apply H.
    + destruct name as [|[[] [] [] [] [] [] [] []] rest]; try discriminate.
      destruct (isdigit rest); [|discriminate].
      intros [= <-]. reflexivity.
  - destruct (String.eqb char ""); [discriminate|].
    destruct (branch_of char char_keys) as [label|] eqn:E.
    + intros [= <-]. apply branch_of_in in E.
      pose proof char_keys_not_dual as H.
      rewrite List.Forall_forall in H. now apply H.
    + destruct (String.eqb (upper char) "Ç"); intros [= <-].
      * reflexivity.
      * apply upper_not_dual.
  - discriminate.
Qed.

Lemma invariant_press (vs : list string) (s : t) :
  invariant s -> window_open s = true ->
  closed (list_to_set vs ∪ pressed_keys s) ->
  invariant (refresh (mark vs s)).
Proof.
  intros (Hc & Hr & Hw & Hs) Hopen Hclosed.
  destruct (refresh_other (mark vs s)) as (Hres & Hrun & Hwin).
  destruct (Hw Hopen) as [_ Hfalse].
  unfold invariant. rewrite refresh_pressed, Hres, Hrun.
  cbn [mark pressed_keys result is_running].
  split; [exact Hclosed|]. split; [exact Hr|]. split.
  - intros _. split; [apply refresh_consistent | exact Hfalse].
  - rewrite Hfalse. discriminate.
Qed.

Lemma invariant_refresh (s : t) :
  invariant s -> window_open s = true -> invariant (refresh s).
Proof.
  intros (Hc & Hr & Hw & Hs) Hopen.
  destruct (refresh_other s) as (Hres & Hrun & Hwin).
  destruct (Hw Hopen) as [_ Hfalse].
  unfold invariant. rewrite refresh_pressed, Hres, Hrun.
  split; [exact Hc|]. split; [exact Hr|]. split.
  - intros _. split; [apply refresh_consistent | exact Hfalse].
  - rewrite Hfalse. discriminate.
Qed.

Lemma invariant_abandon (msg : string) (s : t) :
  invariant s -> invariant (abandon msg s).
Proof.
  intros (Hc & Hr & Hw & Hs). unfold invariant, abandon.
  cbn [pressed_keys is_running window_open result set_message set_success success].
  split; [exact Hc|]. split; [exact Hr|]. split; discriminate.
Qed.

Lemma complete_enabled_threshold (s : t) :
  consistent s -> complete_button s = true -> 70 <= size (pressed_keys s).
Proof.
  intros [_ Hb] He. rewrite Hb in He.
  apply orb_true_iff in He as [He | He].
  - now apply Nat.leb_le in He.
  - apply Nat.eqb_eq in He. rewrite He, key_buttons_count. lia.
Qed.

Lemma step_invariant (s : t) (e : event) :
  invariant s -> invariant (step upper s e).
Proof.
  intros Hinv. unfold step.
  destruct (window_open s) eqn:Hopen; cbn [negb]; [|exact Hinv].
  destruct e as [key | k | yes | | yes].
  - unfold _on_virtual_key_press.
    destruct (assoc key visual_to_logical) as [logic|] eqn:E.
    + apply invariant_press; auto.
      destruct (assoc_visual _ _ E) as [_ [Hb | (d & Hd & Hv)]].
      * rewrite Hb, list_to_set_single.
        apply closed_add_other; [apply Hinv | apply backslash_not_dual].
      * rewrite Hv. apply closed_add_dual; [apply Hinv | exact Hd].
    + destruct (bool_decide (key ∈ key_buttons)
                && negb (bool_decide (key ∈ pressed_keys s))); [|exact Hinv].
      apply invariant_press; auto.
      rewrite list_to_set_single.
      apply closed_add_other; [apply Hinv | now apply assoc_none_not_dual].
  - unfold _on_key_press.
    destruct (is_running s); cbn [negb]; [|exact Hinv].
    destruct (_get_key_string upper k) as [key_str|] eqn:E.
    + destruct (existsb (String.eqb key_str) ["Shift"; "Ctrl"; "Alt"; "Win"])
        eqn:Hmod.
      * apply invariant_press; auto.
        destruct (modifier_visuals _ Hmod) as (d & Hd & Hv).
        rewrite Hv. apply closed_add_dual; [apply Hinv | exact Hd].
      * destruct (bool_decide (key_str ∈ key_buttons)).
        -- apply invariant_press; auto.
           rewrite list_to_set_single.
           apply closed_add_other; [apply Hinv|].
           apply logical_none_not_dual.
           exact (get_key_string_not_dual _ _ E).
        -- now apply invariant_refresh.
    + now apply invariant_refresh.
  - destruct yes; [now apply invariant_abandon | exact Hinv].
  - destruct (complete_button s) eqn:Hb; [|exact Hinv].
    destruct Hinv as (Hc & Hr & Hw & Hs).
    destruct (Hw Hopen) as [Hcons _].
    unfold invariant, _complete_test.
    cbn [pressed_keys is_running window_open].
    split; [exact Hc|]. split; [exact Hr|]. split; [discriminate|].
    intros _. now apply complete_enabled_threshold.
  - destruct yes; [now apply invariant_abandon | exact Hinv].
Qed.

Lemma init_invariant : invariant init.
Proof.
  unfold invariant, init. cbn [pressed_keys is_running window_open result].
  split; [apply closed_empty|]. split; [reflexivity|]. split; [|discriminate].
  intros _. split; [|reflexivity].
  unfold consistent. cbn [pressed_keys counter_var complete_button].
  rewrite size_empty, key_buttons_count. split; reflexivity.
Qed.

Lemma fold_invariant (evs : list event) (s : t) :
  invariant s -> invariant (fold_left (step upper) evs s).
Proof.
  revert s. induction evs as [|e evs IH]; intros s Hs; [exact Hs|].
  cbn [fold_left]. apply IH. now apply step_invariant.
Qed.

Lemma run_invariant (evs : list event) : invariant (run upper evs).
Proof. apply fold_invariant, init_invariant. Qed.

Lemma step_pressed_subseteq (s : t) (e : event) :
  pressed_keys s ⊆ pressed_keys (step upper s e).
Proof.
  unfold step. destruct (window_open s); cbn [negb]; [|reflexivity].
  destruct e as [key | k | yes | | yes].
  - unfold _on_virtual_key_press.
    destruct (assoc key visual_to_logical).
    + fold (refresh (mark (visuals_of s0) s)). rewrite refresh_pressed.
      cbn [mark pressed_keys]. apply union_subseteq_r.
    + destruct (_ && _); [|reflexivity].
      fold (refresh (mark [key] s)). rewrite refresh_pressed.
      cbn [mark pressed_keys]. apply union_subseteq_r.
  - unfold _on_key_press.
    destruct (is_running s); cbn [negb]; [|reflexivity].
    destruct (_get_key_string upper k) as [key_str|].
    + destruct (existsb _ _).
      * fold (refresh (mark (visuals_of key_str) s)). rewrite refresh_pressed.
        cbn [mark pressed_keys]. apply union_subseteq_r.
      * destruct (bool_decide _).
        -- fold (refresh (mark [key_str] s)). rewrite refresh_pressed.
           cbn [mark pressed_keys]. apply union_subseteq_r.
        -- fold (refresh s). now rewrite refresh_pressed.
    + fold (refresh s). now rewrite refresh_pressed.
  - destruct yes; reflexivity.
  - destruct (complete_button s); reflexivity.
  - destruct yes; reflexivity.
Qed.

(** C9. Along every run of the keyboard test, an event that registers
    a key already counted as pressed leaves the whole state as it is:
    the set of pressed keys, the counter and the state of the button
    "Concluir Teste".  No event ever removes a key from the set, so the
    number of pressed keys never decreases. *)
Theorem press_idempotent_monotone :
  (forall evs e,
      already_pressed upper (run upper evs) e ->
      step upper (run upper evs) e = run upper evs) /\
  (forall s e,
      pressed_keys s ⊆ pressed_keys (step upper s e) /\
      size (pressed_keys s) <= size (pressed_keys (step upper s e))).
Proof.
  split.
  - intros evs e Hdup.
    pose proof (run_invariant evs) as Hinv.
    set (s := run upper evs) in *.
    unfold step. destruct (window_open s) eqn:Hopen; cbn [negb]; [|reflexivity].
    destruct Hinv as (Hc & Hr & Hw & _).
    destruct (Hw Hopen) as [Hcons _].
    destruct e as [key | k | yes | | yes]; cbn [already_pressed] in Hdup;
      try contradiction.
    + unfold _on_virtual_key_press.
      destruct (assoc key visual_to_logical) as [logic|] eqn:E.
      * fold (refresh (mark (visuals_of logic) s)).
        rewrite mark_id; [now apply refresh_id|].
        destruct (assoc_visual _ _ E) as [Hkey [Hb | (d & Hd & Hv)]].
        -- rewrite Hb in *. destruct Hkey as [<- | []].
           cbn [list_to_set]. rewrite union_empty_r_L.
           now apply singleton_subseteq_l.
        -- rewrite Hv in *. apply closed_all; auto. now exists key.
      * rewrite (bool_decide_eq_true_2 _ Hdup). cbn [negb].
        now rewrite andb_false_r.
    + unfold _on_key_press. rewrite Hr. cbn [negb].
      destruct (_get_key_string upper k) as [key_str|]; [|contradiction].
      destruct (existsb (String.eqb key_str) ["Shift"; "Ctrl"; "Alt"; "Win"])
        eqn:Hmod.
      * fold (refresh (mark (visuals_of key_str) s)).
        rewrite mark_id; [now apply refresh_id|].
        destruct (modifier_visuals _ Hmod) as (d & Hd & Hv).
        rewrite Hv in *. now apply closed_all.
      * destruct (bool_decide (key_str ∈ key_buttons)).
        -- fold (refresh (mark [key_str] s)).
           rewrite mark_id; [now apply refresh_id|].
           cbn [list_to_set]. rewrite union_empty_r_L.
           now apply singleton_subseteq_l.
        -- fold (refresh s). now apply refresh_id.
  - intros s e. split.
    + apply step_pressed_subseteq.
    + apply subseteq_size, step_pressed_subseteq.
Qed.

(** The keyboard test reports success only when the threshold of 70
    pressed keys was reached. *)
Lemma keyboard_success_measured (evs : list event) :
  success (result (run upper evs)) = true ->
  70 <= size (pressed_keys (run upper evs)).
Proof. apply run_invariant. Qed.

End WithUpper.

(** *** A concrete [upper] *)

Lemma upper_ascii_not_lower (c : ascii) :
  Samples.is_lower (Samples.upper_ascii c) = false.
Proof. destruct c as [[] [] [] [] [] [] [] []]; vm_compute; reflexivity. Qed.

Lemma dual_label_second_lower (x logic : string) :
  logical_of x = Some logic ->
  exists a b rest, x = String a (String b rest) /\ Samples.is_lower b = true.
Proof.
  unfold logical_of, dual_keys. cbn [List.find existsb snd].
  repeat (case_label x;
          [ intros _; do 3 eexists; split; reflexivity | cbn [orb] ]).
  discriminate.
Qed.

Lemma ascii_upper_not_dual (c : string) :
  logical_of (Samples.ascii_upper c) = None.
Proof.
  destruct (logical_of (Samples.ascii_upper c)) as [logic|] eqn:E;
    [|reflexivity].
  destruct (dual_label_second_lower _ _ E) as (a & b & rest & Hx & Hb).
  destruct c as [|c1 [|c2 r]]; try discriminate.
  cbn [Samples.ascii_upper] in Hx. injection Hx as _ <- _.
  now rewrite upper_ascii_not_lower in Hb.
Qed.

Lemma press_idempotent_monotone_witness :
  step Samples.ascii_upper
       (run Samples.ascii_upper [KeyPress (Key "shift_r"); VirtualPress "A"])
       (VirtualPress "Shift (Esq)")
  = run Samples.ascii_upper [KeyPress (Key "shift_r"); VirtualPress "A"].
Proof.
  apply (proj1 (press_idempotent_monotone Samples.ascii_upper
                  ascii_upper_not_dual)).
  cbn [already_pressed]. apply (bool_decide_unpack _). vm_compute. exact I.
Defined.

Example shift_marks_both_sides :
  pressed_keys (run Samples.ascii_upper [KeyPress (Key "shift_r")])
  = {[ "Shift (Esq)"; "Shift (Dir)" ]}.
Proof. apply (bool_decide_unpack _). vm_compute. exact I. Qed.

(** *** Keys outside the layout, the counter and the text of a success *)

Lemma dual_in_layout (d : string * list string) :
  In d dual_keys -> list_to_set (snd d) ⊆ key_buttons.
Proof.
  intros Hd. cbn in Hd.
  destruct Hd as [<- | [<- | [<- | [<- | []]]]];
    apply (bool_decide_unpack _); vm_compute; exact I.
Qed.

Lemma backslash_in_layout : list_to_set ["\"] ⊆ key_buttons.
Proof. apply (bool_decide_unpack _). vm_compute. exact I. Qed.

Lemma accounted_press (vs : list string) (s : t) :
  list_to_set vs ⊆ key_buttons -> window_open s = true ->
  accounted s -> accounted (refresh (mark vs s)).
Proof.
  intros Hvs Hopen (Hsub & Hcount & Hw & Hs).
  destruct (Hw Hopen) as [_ Hfail].
  destruct (refresh_other (mark vs s)) as (Hr & _ & Hwin).
  pose proof (refresh_consistent (mark vs s)) as Hcons.
  unfold accounted. rewrite refresh_pressed, Hr, Hwin. cbn [mark pressed_keys result window_open].
  split; [now apply union_least|].
  split; [destruct Hcons as [Hc _]; now rewrite Hc, refresh_pressed|].
  split; [intros _; split; [exact Hcons | exact Hfail]|].
  intros H. congruence.
Qed.

Lemma accounted_refresh (s : t) :
  window_open s = true -> accounted s -> accounted (refresh s).
Proof.
  intros Hopen Hacc.
  replace s with (mark [] s) at 1; [apply accounted_press; auto|].
  - cbn. apply empty_subseteq.
  - apply mark_id. cbn. apply empty_subseteq.
Qed.

Lemma accounted_abandon (msg : string) (s : t) :
  accounted s -> accounted (abandon msg s).
Proof.
  intros (Hsub & Hcount & _ & _). unfold accounted, abandon. cbn.
  split; [exact Hsub|]. split; [exact Hcount|]. split; discriminate.
Qed.

Section Layout.

Variable upper : string -> string.

Lemma step_accounted (s : t) (e : event) :
  accounted s -> accounted (step upper s e).
Proof.
  intros Hacc. unfold step.
  destruct (window_open s) eqn:Hopen; cbn [negb]; [|exact Hacc].
  destruct e as [key | k | yes | | yes].
  - unfold _on_virtual_key_press.
    destruct (assoc key visual_to_logical) as [logic|] eqn:E.
    + apply accounted_press; auto.
      destruct (assoc_visual _ _ E) as [_ [Hb | (d & Hd & Hv)]].
      * rewrite Hb. apply backslash_in_layout.
      * rewrite Hv. now apply dual_in_layout.
    + destruct (bool_decide (key ∈ key_buttons)) eqn:Hk; cbn [andb]; [|exact Hacc].
      destruct (negb (bool_decide (key ∈ pressed_keys s))); [|exact Hacc].
      apply accounted_press; auto.
      apply bool_decide_eq_true in Hk. cbn.
      rewrite union_empty_r_L. now apply singleton_subseteq_l.
  - unfold _on_key_press.
    destruct (is_running s); cbn [negb]; [|exact Hacc].
    destruct (_get_key_string upper k) as [key_str|].
    + destruct (existsb (String.eqb key_str) ["Shift"; "Ctrl"; "Alt"; "Win"])
        eqn:Hmod.
      * apply accounted_press; auto.
        destruct (modifier_visuals _ Hmod) as (d & Hd & Hv).
        rewrite Hv. now apply dual_in_layout.
      * destruct (bool_decide (key_str ∈ key_buttons)) eqn:Hk.
        -- apply accounted_press; auto.
           apply bool_decide_eq_true in Hk. cbn.
           rewrite union_empty_r_L. now apply singleton_subseteq_l.
        -- now apply accounted_refresh.
    + now apply accounted_refresh.
  - destruct yes; [now apply accounted_abandon | exact Hacc].
  - destruct (complete_button s) eqn:Hb; [|exact Hacc].
    destruct Hacc as (Hsub & Hcount & Hw & Hs).
    destruct (Hw Hopen) as [Hcons _].
    unfold accounted, _complete_test. cbn.
    split; [exact Hsub|]. split; [exact Hcount|]. split; [discriminate|].
    intros _. split; [reflexivity | now apply complete_enabled_threshold].
  - destruct yes; [now apply accounted_abandon | exact Hacc].
Qed.

Lemma run_accounted (evs : list event) : accounted (run upper evs).
Proof.
  unfold run. induction evs as [|e evs IH] using rev_ind.
  - unfold accounted. cbn. split; [apply empty_subseteq|].
    split; [now rewrite size_empty|]. split; [|discriminate].
    intros _. split; [|reflexivity]. split; cbn; now rewrite size_empty.
  - rewrite fold_left_app. cbn [fold_left]. now apply step_accounted.
Qed.

(** X12. Only keys drawn on the layout are ever counted: whatever is
    typed or clicked, the pressed keys are among the 88 buttons, so the
    count shown never exceeds 88. *)
Theorem pressed_keys_within_layout (evs : list event) :
  pressed_keys (run upper evs) ⊆ key_buttons /\
  size (pressed_keys (run upper evs)) <= 88 /\
  counter_var (run upper evs) <= 88.
Proof.
  destruct (run_accounted evs) as (Hsub & Hcount & _).
  assert (Hsize : size (pressed_keys (run upper evs)) <= 88).
  { rewrite <- key_buttons_count. now apply subseteq_size. }
  split; [exact Hsub|]. split; [exact Hsize | now rewrite Hcount].
Qed.

(** X13. While the keyboard window is open the counter shows the number
    of distinct keys pressed and the button "Concluir Teste" is enabled
    exactly when that number is at least 70. *)
Theorem complete_button_threshold (evs : list event) :
  window_open (run upper evs) = true ->
  counter_var (run upper evs) = size (pressed_keys (run upper evs)) /\
  complete_button (run upper evs)
  = (70 <=? size (pressed_keys (run upper evs)))%nat.
Proof.
  intros Hopen. destruct (run_accounted evs) as (Hsub & Hcount & Hw & _).
  destruct (Hw Hopen) as [[_ Hb] _]. split; [exact Hcount|].
  rewrite Hb.
  destruct (Nat.eqb_spec (size (pressed_keys (run upper evs))) (size key_buttons))
    as [Heq | _]; [|apply orb_false_r].
  rewrite Heq, key_buttons_count. reflexivity.
Qed.

(** X14. A keyboard test that ends with success pressed between 70 and
    88 distinct keys, stores the 88 keys of the layout and that number
    as its details, and its text gives both. *)
Theorem keyboard_success_text (evs : list event) :
  success (result (run upper evs)) = true ->
  70 <= size (pressed_keys (run upper evs)) <= 88 /\
  details (result (run upper evs))
  = KeyboardDetails 88 (size (pressed_keys (run upper evs))) /\
  get_formatted_result (run upper evs)
  = "Teste de Teclado: SUCESSO" ++ newline
    ++ "Total de teclas no teclado: 88" ++ newline
    ++ "Teclas pressionadas: " ++ str_nat (size (pressed_keys (run upper evs))).
Proof.
  intros Hs. destruct (run_accounted evs) as (Hsub & _ & _ & Hd).
  destruct (Hd Hs) as [Hdet Hmin]. rewrite key_buttons_count in Hdet.
  split; [split; [exact Hmin|]|].
  - rewrite <- key_buttons_count. now apply subseteq_size.
  - split; [exact Hdet|].
    unfold get_formatted_result, details_total_keys, details_pressed_keys.
    rewrite Hs, Hdet. reflexivity.
Qed.

End Layout.

Lemma complete_button_threshold_witness :
  let evs := [VirtualPress "A"; KeyPress (Key "shift_r")] in
  window_open (run Samples.ascii_upper evs) = true /\
  counter_var (run Samples.ascii_upper evs)
  = size (pressed_keys (run Samples.ascii_upper evs)) /\
  complete_button (run Samples.ascii_upper evs)
  = (70 <=? size (pressed_keys (run Samples.ascii_upper evs)))%nat.
Proof.
  split; [reflexivity|].
  apply (complete_button_threshold Samples.ascii_upper
           [VirtualPress "A"; KeyPress (Key "shift_r")]).
  reflexivity.
Defined.

Lemma keyboard_success_text_witness :
  let evs :=
    (map VirtualPress (firstn 70 (concat keyboard_layout)) ++ [ClickComplete])%list in
  success (result (run Samples.ascii_upper evs)) = true /\
  70 <= size (pressed_keys (run Samples.ascii_upper evs)) <= 88 /\
  details (result (run Samples.ascii_upper evs))
  = KeyboardDetails 88 (size (pressed_keys (run Samples.ascii_upper evs))) /\
  get_formatted_result (run Samples.ascii_upper evs)
  = "Teste de Teclado: SUCESSO" ++ newline
    ++ "Total de teclas no teclado: 88" ++ newline
    ++ "Teclas pressionadas: "
    ++ str_nat (size (pressed_keys (run Samples.ascii_upper evs))).
Proof.
  split; [vm_compute; reflexivity|].
  apply (keyboard_success_text Samples.ascii_upper
           (map VirtualPress (firstn 70 (concat keyboard_layout)) ++ [ClickComplete])%list).
  vm_compute. reflexivity.
Defined.

(** X15. The two buttons of Shift, Ctrl, Alt and Win are marked together:
    as soon as one side of a dual key counts as pressed the other side
    does too, whichever side was typed or clicked. *)
Theorem dual_keys_marked_together (upper : string -> string)
  (evs : list event) :
  (forall c, logical_of (upper c) = None) ->
  forall d v v',
    In d dual_keys -> In v (snd d) -> In v' (snd d) ->
    v ∈ pressed_keys (run upper evs) -> v' ∈ pressed_keys (run upper evs).
Proof.
  intros Hup d v v' Hd Hv Hv' Hin.
  destruct (run_invariant upper Hup evs) as [Hc _].
  unfold closed in Hc. rewrite List.Forall_forall in Hc.
  apply (Hc d Hd); [exists v; auto | exact Hv'].
Qed.

Lemma dual_keys_marked_together_witness :
  "Ctrl (Esq)" ∈ pressed_keys (run Samples.ascii_upper [VirtualPress "Ctrl (Dir)"]).
Proof.
  apply (dual_keys_marked_together Samples.ascii_upper
           [VirtualPress "Ctrl (Dir)"] ascii_upper_not_dual
           ("Ctrl", ["Ctrl (Esq)"; "Ctrl (Dir)"]) "Ctrl (Dir)" "Ctrl (Esq)").
  - cbn. auto.
  - cbn. auto.
  - cbn. auto.
  - apply (bool_decide_unpack _). vm_compute. exact I.
Defined.

End KeyboardTestSpec.

Module ReportGeneratorSpec.

Import ReportGenerator.

(** *** Dictionaries *)

Lemma contains_In {V : Type} (d : list (string * V)) (key : string) :
  contains d key = true <-> In key (map fst d).
Proof.
  unfold contains. induction d as [|[k v] d IH]; cbn.
  - split; [discriminate | tauto].
  - rewrite orb_true_iff, IH. destruct (String.eqb_spec k key); intuition congruence.
Qed.

Lemma get_set_item_same {V : Type} (d : list (string * V)) (key : string) (v default : V) :
  get (set_item key v d) key default = v.
Proof.
  induction d as [|[k w] d IH]; cbn.
  - now rewrite String.eqb_refl.
  - destruct (String.eqb_spec k key) as [-> | Hne]; cbn.
    + now rewrite String.eqb_refl.
    + destruct (String.eqb_spec k key); [contradiction | exact IH].
Qed.

Lemma get_set_item_other {V : Type} (d : list (string * V)) (key other : string)
  (v default : V) :
  other <> key -> get (set_item key v d) other default = get d other default.
Proof.
  intros Hne. induction d as [|[k w] d IH]; cbn.
  - destruct (String.eqb_spec key other); [congruence | reflexivity].
  - destruct (String.eqb_spec k key) as [-> | Hk]; cbn.
    + destruct (String.eqb_spec key other); [congruence | reflexivity].
    + destruct (String.eqb_spec k other); [reflexivity | exact IH].
Qed.

Lemma keys_set_item {V : Type} (d : list (string * V)) (key : string) (v : V) :
  map fst (set_item key v d)
  = if contains d key then map fst d else (map fst d ++ [key])%list.
Proof.
  unfold contains. induction d as [|[k w] d IH]; cbn; [reflexivity|].
  destruct (String.eqb_spec k key) as [-> | Hk]; cbn; [reflexivity|].
  rewrite IH. now destruct (existsb _ d).
Qed.

Lemma length_set_item {V : Type} (d : list (string * V)) (key : string) (v : V) :
  length (set_item key v d)
  = if contains d key then length d else S (length d).
Proof.
  rewrite <- (length_map fst (set_item key v d)), keys_set_item.
  destruct (contains d key).
  - now rewrite length_map.
  - rewrite length_app, length_map. cbn. lia.
Qed.

Lemma NoDup_keys_set_item {V : Type} (d : list (string * V)) (key : string) (v : V) :
  NoDup (map fst d) -> NoDup (map fst (set_item key v d)).
Proof.
  intros Hd. rewrite keys_set_item.
  destruct (contains d key) eqn:Hc; [exact Hd|].
  apply (proj2 (NoDup_app _ _)). split; [exact Hd|]. split.
  - intros x Hx Hk. apply list_elem_of_In in Hx.
    apply list_elem_of_In in Hk. cbn in Hk. destruct Hk as [<- | []].
    apply contains_In in Hx. congruence.
  - apply NoDup_singleton.
Qed.

(** *** Recorded runs *)

Lemma add_all_snoc (rg : t) (calls : list call) (c : call) :
  add_all rg (calls ++ [c])
  = add_test_result (add_all rg calls) (name_of c) (snd (fst c)) (snd c).
Proof. unfold add_all. now rewrite fold_left_app. Qed.

Lemma add_all_keys (calls : list call) :
  let rg := add_all init calls in
  NoDup (map fst (test_results rg)) /\
  map fst (test_details rg) = map fst (test_results rg) /\
  (forall x, In x (map fst (test_results rg)) <-> In x (map name_of calls)).
Proof.
  induction calls as [|c calls IH] using rev_ind.
  - cbn. split; [constructor|]. split; [reflexivity | tauto].
  - cbn zeta in *. rewrite add_all_snoc. destruct IH as (Hn & Hk & Hin).
    set (rg := add_all init calls) in *. cbn [test_results test_details add_test_result].
    split; [now apply NoDup_keys_set_item|]. split.
    + rewrite !keys_set_item. unfold contains. rewrite Hk.
      replace (existsb (fun kv : string * string => String.eqb (fst kv) (name_of c)) (test_details rg))
        with (existsb (fun kv : string * TestResult => String.eqb (fst kv) (name_of c)) (test_results rg)).
      * reflexivity.
      * transitivity (existsb (fun k => String.eqb k (name_of c)) (map fst (test_results rg))).
        { clear. induction (test_results rg); cbn; congruence. }
        rewrite <- Hk. clear. induction (test_details rg); cbn; congruence.
    + intros x. rewrite keys_set_item, map_app, in_app_iff. cbn.
      destruct (contains (test_results rg) (name_of c)) eqn:Hc.
      * apply contains_In in Hc. rewrite Hin. rewrite Hin in Hc.
        intuition (subst; auto).
      * rewrite in_app_iff, Hin. cbn. tauto.
Qed.

Lemma total_tests_distinct (calls : list call) :
  total_tests (add_all init calls) = distinct (map name_of calls).
Proof.
  destruct (add_all_keys calls) as (Hn & _ & Hin). cbn zeta in *.
  unfold total_tests, distinct.
  rewrite <- (length_map fst (test_results _)).
  rewrite <- (size_list_to_set (C := gset string) (map fst (test_results (add_all init calls)))).
  - f_equal. apply set_eq. intros x.
    rewrite !elem_of_list_to_set, !list_elem_of_In. apply Hin.
  - exact Hn.
Qed.


Lemma set_item_not_nil {V : Type} (d : list (string * V)) (key : string) (v : V) :
  set_item key v d <> [].
Proof. destruct d as [|[k w] d]; cbn; [|destruct (String.eqb k key)]; discriminate. Qed.

(** C10. Recording a result under a name that already has one replaces
    the earlier result and its text in place: the recorded names are
    unchanged, the name now yields the new result and the new text,
    every other name keeps its own, and the total of the summary is the
    number of distinct names recorded, whatever the number of runs. *)
Theorem add_test_result_replaces (calls : list call) (name : string)
  (r : TestResult) (d : string) :
  let rg := add_all init calls in
  let rg' := add_test_result rg name r d in
  (In name (map name_of calls) ->
     map fst (test_results rg') = map fst (test_results rg) /\
     map fst (test_details rg') = map fst (test_details rg)) /\
  (forall r0, get (test_results rg') name r0 = r) /\
  (forall d0, get (test_details rg') name d0 = d) /\
  (forall other r0 d0, other <> name ->
     get (test_results rg') other r0 = get (test_results rg) other r0 /\
     get (test_details rg') other d0 = get (test_details rg) other d0) /\
  total_tests rg' = distinct (map name_of calls ++ [name]) /\
  hd "" (summary_lines rg')
  = "Total de Testes: " ++ Py.str_nat (distinct (map name_of calls ++ [name])).
Proof.
  intros rg rg'.
  assert (Htotal : total_tests rg' = distinct (map name_of calls ++ [name])).
  { pose proof (total_tests_distinct (calls ++ [(name, r, d)])) as H.
    rewrite add_all_snoc, map_app in H. exact H. }
  destruct (add_all_keys calls) as (_ & Hk & Hin). fold rg in Hk, Hin.
  split.
  { intros Hname. apply Hin in Hname. subst rg'. cbn [test_results test_details add_test_result].
    rewrite !keys_set_item.
    assert (Hc : contains (test_results rg) name = true) by now apply contains_In.
    assert (Hc' : contains (test_details rg) name = true).
    { apply contains_In. now rewrite Hk. }
    now rewrite Hc, Hc'. }
  split; [intros r0; apply get_set_item_same|].
  split; [intros d0; apply get_set_item_same|].
  split.
  { intros other r0 d0 Hne. split; now apply get_set_item_other. }
  split; [exact Htotal|].
  unfold summary_lines. rewrite <- Htotal.
  destruct (test_results rg') eqn:E; [|reflexivity].
  exfalso. revert E. apply set_item_not_nil.
Qed.

(** *** The summary *)

Lemma filter_split_length {A : Type} (f : A -> bool) (l : list A) :
  length (List.filter f l) + length (List.filter (fun x => negb (f x)) l) = length l.
Proof.
  induction l as [|x l IH]; cbn; [reflexivity|].
  destruct (f x); cbn; lia.
Qed.

Lemma round_half_even_close (q : Q) :
  (2 * Z.abs (Py.round_half_even q * Zpos (Qden q) - Qnum q) <= Zpos (Qden q))%Z.
Proof.
  unfold Py.round_half_even.
  set (n := Qnum q). set (d := Zpos (Qden q)).
  assert (Hd : (0 < d)%Z) by (subst d; lia).
  pose proof (Z.div_mod n d ltac:(lia)) as Hdm.
  pose proof (Z.mod_pos_bound n d Hd) as Hm.
  set (fl := (n / d)%Z) in *. set (m := (n mod d)%Z) in *.
  destruct (Z.ltb_spec (2 * m) d).
  - replace (fl * d - n)%Z with (- m)%Z by lia. lia.
  - destruct (Z.ltb_spec d (2 * m)).
    + replace ((fl + 1) * d - n)%Z with (d - m)%Z by lia. lia.
    + destruct (Z.even fl).
      * replace (fl * d - n)%Z with (- m)%Z by lia. lia.
      * replace ((fl + 1) * d - n)%Z with (d - m)%Z by lia. lia.
Qed.

Lemma success_rate_cents (rg : t) :
  test_results rg <> [] ->
  Qnum (success_rate rg * 100)%Q = (10000 * Z.of_nat (successful_tests rg))%Z /\
  Zpos (Qden (success_rate rg * 100)%Q) = Z.of_nat (total_tests rg).
Proof.
  intros Hne. unfold success_rate.
  assert (Hn : total_tests rg <> 0).
  { unfold total_tests. destruct (test_results rg); [contradiction | discriminate]. }
  destruct (total_tests rg) as [|n] eqn:E; [contradiction|].
  cbn [Nat.ltb Nat.leb].
  change (Z.of_nat (S n)) with (Z.pos (Pos.of_succ_nat n)).
  unfold Qdiv, Qinv, Qmult, inject_Z. cbn [Qnum Qden].
  rewrite ?Pos.mul_1_l, ?Pos.mul_1_r. split; lia.
Qed.

(** C7. When at least one result is recorded, the summary is four
    lines: the number of recorded results, the number of them whose
    success flag is true, the number of the others (total minus
    successes), and the rate with two decimals, the hundredths written
    being the integer nearest to 10000 * successes / total. *)
Theorem summary_counts (rg : t) :
  test_results rg <> [] ->
  let results := values (test_results rg) in
  let n := length results in
  let k := length (List.filter success results) in
  let f := length (List.filter (fun r => negb (success r)) results) in
  exists c : Z,
    summary_lines rg
    = ["Total de Testes: " ++ Py.str_nat n;
       "Testes com Sucesso: " ++ Py.str_nat k;
       "Testes com Falha: " ++ Py.str_nat f;
       "Taxa de Sucesso: " ++ Py.two_decimals c ++ "%"] /\
    k + f = n /\
    f = n - k /\
    (2 * Z.abs (c * Z.of_nat n - 10000 * Z.of_nat k) <= Z.of_nat n)%Z.
Proof.
  intros Hne results n k f.
  assert (Hsplit : k + f = n) by apply filter_split_length.
  assert (Hn : total_tests rg = n).
  { unfold total_tests, n, results, values. now rewrite length_map. }
  assert (Hk : successful_tests rg = k) by reflexivity.
  exists (Py.round_half_even (success_rate rg * 100)%Q).
  split; [|split; [exact Hsplit|split; [lia|]]].
  - unfold summary_lines. destruct (test_results rg) eqn:E; [contradiction|].
    rewrite Hn, Hk. replace (n - k) with f by lia. reflexivity.
  - pose proof (round_half_even_close (success_rate rg * 100)%Q) as Hc.
    destruct (success_rate_cents rg Hne) as [Hnum Hden].
    rewrite Hnum, Hden, Hn, Hk in Hc. exact Hc.
Qed.


Lemma summary_counts_witness :
  test_results Samples.two_results <> [] /\
  exists c : Z,
    summary_lines Samples.two_results
    = ["Total de Testes: 2"; "Testes com Sucesso: 1"; "Testes com Falha: 1";
       "Taxa de Sucesso: " ++ Py.two_decimals c ++ "%"] /\
    1 + 1 = 2 /\
    1 = 2 - 1 /\
    (2 * Z.abs (c * 2 - 10000 * 1) <= 2)%Z.
Proof.
  split; [vm_compute; discriminate|].
  apply (summary_counts Samples.two_results). vm_compute. discriminate.
Defined.

(** The summary of the report for {A: success, B: failure}. *)
Example summary_of_two_results :
  summary_lines Samples.two_results
  = ["Total de Testes: 2"; "Testes com Sucesso: 1"; "Testes com Falha: 1";
     "Taxa de Sucesso: 50.00%"].
Proof. vm_compute. reflexivity. Qed.

(** With no recorded result the summary is one line, and no total is
    written. *)
Lemma summary_without_results :
  summary_lines init = ["Nenhum teste foi executado"] /\
  ~ In ("Total de Testes: " ++ Py.str_nat (total_tests init)) (summary_lines init).
Proof.
  split; [reflexivity|]. cbn. intros [H | []]. revert H. vm_compute. discriminate.
Qed.

(** Running the keyboard test twice leaves one keyboard entry, the
    second one. *)
Example keyboard_recorded_twice :
  let rg :=
    add_all init
      [("keyboard", initial_result, "primeira"); ("usb", Samples.passed, "usb");
       ("keyboard", Samples.passed, "segunda")] in
  test_details rg = [("keyboard", "segunda"); ("usb", "usb")] /\
  summary_lines rg
  = ["Total de Testes: 2"; "Testes com Sucesso: 2"; "Testes com Falha: 0";
     "Taxa de Sucesso: 100.00%"].
Proof. vm_compute. split; reflexivity. Qed.

(** *** Writing the report *)

(** X16. [generate_report] writes one file, named after the clock
    reading, in the configured folder (in "Diagnostico_Hardware_Reports"
    under the home folder when none or an empty one is configured).  It
    returns the path exactly when the folder could be made, the file
    opened and the content written: reading that path back then gives
    the content of the report, and every other file is as before.
    Otherwise it raises an exception that carries the cause after "Erro
    ao gerar relatório: ": when the folder cannot be made or the file
    cannot be opened nothing is written; when the writing fails after
    the file was opened, the file is left with the part of the content
    that arrived, nothing if none did, and every other file is as
    before. *)
Theorem generate_report_outcome (rg : t) (os : OS) (timestamp : string)
  (fs : Files) :
  exists dir,
    (forall d, output_directory rg = Some d -> d <> "" -> dir = d) /\
    (output_directory rg = None \/ output_directory rg = Some "" ->
     dir = path_join os (expanduser os) "Diagnostico_Hardware_Reports") /\
    let path := path_join os dir ("relatorio_" ++ timestamp ++ ".txt") in
    let content := _generate_report_content rg (platform os) in
    match generate_report rg os timestamp fs with
    | (Py.Ok written, fs') =>
        written = path /\
        makedirs os dir = Py.Ok tt /\ open_write os path = Py.Ok tt /\
        write os path content = Written /\
        get fs' path "" = content /\
        forall other default,
          other <> path -> get fs' other default = get fs other default
    | (Py.Raise msg, fs') =>
        exists e,
          msg = "Erro ao gerar relatório: " ++ e /\
          ((makedirs os dir = Py.Raise e \/
            makedirs os dir = Py.Ok tt /\ open_write os path = Py.Raise e) /\
           fs' = fs
           \/
           exists arrived,
             makedirs os dir = Py.Ok tt /\ open_write os path = Py.Ok tt /\
             write os path content = WriteFails e arrived /\
             get fs' path "" = String.substring 0 arrived content /\
             forall other default,
               other <> path -> get fs' other default = get fs other default)
    end.
Proof.
  unfold generate_report.
  set (default := path_join os (expanduser os) "Diagnostico_Hardware_Reports").
  set (dir := match output_directory rg with
              | Some d => if String.eqb d "" then default else d
              | None => default
              end).
  exists dir. split; [|split].
  - intros d Hd Hne. unfold dir. rewrite Hd.
    destruct (String.eqb_spec d ""); [contradiction | reflexivity].
  - intros [H | H]; unfold dir; rewrite H; reflexivity.
  - cbn zeta. destruct (makedirs os dir) as [[] | e] eqn:Hm.
    + destruct (open_write os _) as [[] | e] eqn:Ho.
      * destruct (write os _ _) as [| e arrived] eqn:Hw.
        -- repeat split; try reflexivity; [apply get_set_item_same|].
           intros other d Hne. now apply get_set_item_other.
        -- exists e. split; [reflexivity|]. right. exists arrived.
           repeat split; try reflexivity; [apply get_set_item_same|].
           intros other d Hne. now apply get_set_item_other.
      * exists e. split; [reflexivity|]. left. auto.
    + exists e. split; [reflexivity|]. left. auto.
Qed.

(** A report asked for on a full disk: the exception is raised and the
    file is left with the 120 bytes that arrived. *)
Example report_on_full_disk :
  let rg := set_output_directory init "D:/relatorios" in
  let content := _generate_report_content rg (platform Samples.disk_full) in
  exists fs',
    generate_report rg Samples.disk_full "20240501_100000" []
    = (Py.Raise "Erro ao gerar relatório: [Errno 28] No space left on device",
       fs') /\
    fs' = [("D:/relatorios/relatorio_20240501_100000.txt",
            String.substring 0 120 content)] /\
    (String.length (String.substring 0 120 content) < String.length content)%nat.
Proof.
  eexists. split; [vm_compute; reflexivity|].
  split; vm_compute; [reflexivity | lia].
Qed.

(** *** The order of the results *)

Lemma first_seen_snoc (names : list string) (name : string) :
  rev (nodup String.string_dec (rev (names ++ [name])))
  = if existsb (fun k => String.eqb k name) (rev (nodup String.string_dec (rev names)))
    then rev (nodup String.string_dec (rev names))
    else (rev (nodup String.string_dec (rev names)) ++ [name])%list.
Proof.
  rewrite rev_app_distr. cbn [rev app nodup].
  destruct (in_dec String.string_dec name (rev names)) as [Hin | Hnin].
  - replace (existsb _ _) with true; [reflexivity|].
    symmetry. apply existsb_exists. exists name. split; [|apply String.eqb_refl].
    apply -> in_rev. now apply nodup_In.
  - replace (existsb _ _) with false; [reflexivity|].
    symmetry. apply not_true_is_false. intros H.
    apply existsb_exists in H as (k & Hk & Heq). apply String.eqb_eq in Heq. subst k.
    apply Hnin. apply (nodup_In String.string_dec). now apply in_rev.
Qed.

Lemma contains_keys {V : Type} (d : list (string * V)) (key : string) :
  contains d key = existsb (fun k => String.eqb k key) (map fst d).
Proof. unfold contains. induction d; cbn; congruence. Qed.

Lemma add_all_order (calls : list call) :
  map fst (test_results (add_all init calls))
  = rev (nodup String.string_dec (rev (map name_of calls))).
Proof.
  induction calls as [|c calls IH] using rev_ind; [reflexivity|].
  rewrite add_all_snoc, map_app. cbn [map].
  rewrite first_seen_snoc, <- IH. cbn [test_results add_test_result].
  rewrite keys_set_item. now rewrite contains_keys.
Qed.

Lemma flat_map_ext_members {A B : Type} (f g : A -> list B) (l : list A) :
  (forall x, In x l -> f x = g x) -> flat_map f l = flat_map g l.
Proof.
  induction l as [|x l IH]; [reflexivity|]. intros H. cbn.
  rewrite (H x (or_introl eq_refl)), IH; [reflexivity|].
  intros y Hy. apply H. now right.
Qed.

Lemma get_flat_map (d : list (string * string)) :
  NoDup (map fst d) ->
  flat_map (fun kv => [snd kv; ""]) d
  = flat_map (fun name => [get d name ""; ""]) (map fst d).
Proof.
  induction d as [|[k v] d IH]; [reflexivity|].
  cbn [map fst flat_map snd app]. intros Hnd.
  apply NoDup_cons in Hnd as [Hk Hnd].
  cbn [get]. rewrite String.eqb_refl. f_equal. f_equal.
  rewrite (IH Hnd). apply flat_map_ext_members. intros name Hin.
  destruct (String.eqb_spec k name) as [-> | _]; [|reflexivity].
  exfalso. apply Hk. now apply list_elem_of_In.
Qed.

(** X17. The report lists the tests in the order in which each name was
    first recorded: running a test again replaces its text where it
    stands and does not move it.  The section of the results holds, in
    that order, the latest text of each name followed by an empty
    line. *)
Theorem results_in_first_recorded_order (calls : list call) :
  calls <> [] ->
  let rg := add_all init calls in
  let names := rev (nodup String.string_dec (rev (map name_of calls))) in
  map fst (test_results rg) = names /\
  map fst (test_details rg) = names /\
  results_section rg
  = ([Py.times "-" 80; "RESULTADOS DOS TESTES"; Py.times "-" 80]
     ++ flat_map (fun name => [get (test_details rg) name ""; ""]) names)%list.
Proof.
  intros Hne rg names.
  destruct (add_all_keys calls) as (Hnd & Hk & _). fold rg in Hnd, Hk.
  pose proof (add_all_order calls) as Hord. fold rg names in Hord.
  assert (Hkd : map fst (test_details rg) = names) by now rewrite Hk.
  split; [exact Hord|]. split; [exact Hkd|].
  assert (Hfull : test_details rg <> []).
  { unfold rg. destruct (exists_last Hne) as (calls' & c & ->).
    rewrite add_all_snoc. apply set_item_not_nil. }
  unfold results_section.
  destruct (test_details rg) as [|kv ds] eqn:E; [contradiction|].
  rewrite <- E in *. cbn [List.concat]. rewrite app_nil_r. f_equal.
  rewrite <- Hkd. apply get_flat_map. rewrite Hk. exact Hnd.
Qed.

Lemma results_in_first_recorded_order_witness :
  let calls := [("usb", initial_result, "usb 1"); ("keyboard", Samples.passed, "teclado");
                ("usb", Samples.passed, "usb 2")] in
  calls <> [] /\
  map fst (test_results (add_all init calls)) = ["usb"; "keyboard"] /\
  map fst (test_details (add_all init calls)) = ["usb"; "keyboard"] /\
  results_section (add_all init calls)
  = [Py.times "-" 80; "RESULTADOS DOS TESTES"; Py.times "-" 80;
     "usb 2"; ""; "teclado"; ""].
Proof.
  split; [discriminate|].
  apply (results_in_first_recorded_order
           [("usb", initial_result, "usb 1"); ("keyboard", Samples.passed, "teclado");
            ("usb", Samples.passed, "usb 2")]).
  discriminate.
Defined.

(** *** The extremes of the rate *)

Lemma round_half_even_multiple (k d : Z) (q : Q) :
  (0 < d)%Z -> Qnum q = (k * d)%Z -> Zpos (Qden q) = d ->
  Py.round_half_even q = k.
Proof.
  intros Hd Hn Hden. unfold Py.round_half_even. rewrite Hn, Hden.
  rewrite Z.div_mul, Z.mod_mul by lia.
  destruct (Z.ltb_spec (2 * 0) d); [reflexivity | lia].
Qed.

Lemma filter_none {A : Type} (f : A -> bool) (l : list A) :
  Forall (fun x => f x = false) l -> List.filter f l = [].
Proof.
  induction 1 as [|x l Hx _ IH]; [reflexivity|]. cbn. now rewrite Hx.
Qed.

(** X18. When every recorded test succeeded the summary counts no
    failure and gives the rate as 100.00%; when none succeeded it
    counts no success and gives 0.00%. *)
Theorem summary_extremes (rg : t) :
  test_results rg <> [] ->
  (Forall (fun r => success r = true) (values (test_results rg)) ->
   summary_lines rg
   = ["Total de Testes: " ++ Py.str_nat (total_tests rg);
      "Testes com Sucesso: " ++ Py.str_nat (total_tests rg);
      "Testes com Falha: 0";
      "Taxa de Sucesso: 100.00%"]) /\
  (Forall (fun r => success r = false) (values (test_results rg)) ->
   summary_lines rg
   = ["Total de Testes: " ++ Py.str_nat (total_tests rg);
      "Testes com Sucesso: 0";
      "Testes com Falha: " ++ Py.str_nat (total_tests rg);
      "Taxa de Sucesso: 0.00%"]).
Proof.
  intros Hne.
  destruct (success_rate_cents rg Hne) as [Hnum Hden].
  assert (Hpos : (0 < Z.of_nat (total_tests rg))%Z).
  { unfold total_tests. destruct (test_results rg); [contradiction | cbn; lia]. }
  assert (Hlines : summary_lines rg
    = ["Total de Testes: " ++ Py.str_nat (total_tests rg);
       "Testes com Sucesso: " ++ Py.str_nat (successful_tests rg);
       "Testes com Falha: " ++ Py.str_nat (total_tests rg - successful_tests rg);
       "Taxa de Sucesso: " ++ Py.format_2f (success_rate rg) ++ "%"]).
  { unfold summary_lines. destruct (test_results rg); [contradiction | reflexivity]. }
  split; intros Hall.
  - assert (Hk : successful_tests rg = total_tests rg).
    { unfold successful_tests, total_tests, values in *.
      rewrite <- (length_map snd (test_results rg)).
      f_equal. apply forallb_filter_id. apply forallb_forall.
      rewrite List.Forall_forall in Hall. exact Hall. }
    rewrite Hlines, Hk, Nat.sub_diag. unfold Py.format_2f.
    rewrite (round_half_even_multiple 10000 (Z.of_nat (total_tests rg)));
      [reflexivity | exact Hpos | rewrite Hnum, Hk; reflexivity | exact Hden].
  - assert (Hk : successful_tests rg = 0).
    { unfold successful_tests. now rewrite (filter_none success _ Hall). }
    rewrite Hlines, Hk, Nat.sub_0_r. unfold Py.format_2f.
    rewrite (round_half_even_multiple 0 (Z.of_nat (total_tests rg)));
      [reflexivity | exact Hpos | rewrite Hnum, Hk; reflexivity | exact Hden].
Qed.

Lemma summary_extremes_witness :
  let rg := add_all init [("keyboard", Samples.passed, "ok"); ("Webcam", Samples.passed, "ok")] in
  test_results rg <> [] /\
  (Forall (fun r => success r = true) (values (test_results rg)) ->
   summary_lines rg
   = ["Total de Testes: " ++ Py.str_nat (total_tests rg);
      "Testes com Sucesso: " ++ Py.str_nat (total_tests rg);
      "Testes com Falha: 0";
      "Taxa de Sucesso: 100.00%"]) /\
  (Forall (fun r => success r = false) (values (test_results rg)) ->
   summary_lines rg
   = ["Total de Testes: " ++ Py.str_nat (total_tests rg);
      "Testes com Sucesso: 0";
      "Testes com Falha: " ++ Py.str_nat (total_tests rg);
      "Taxa de Sucesso: 0.00%"]).
Proof.
  split; [discriminate|].
  apply (summary_extremes
           (add_all init [("keyboard", Samples.passed, "ok"); ("Webcam", Samples.passed, "ok")])).
  discriminate.
Defined.

End ReportGeneratorSpec.

Module HardwareInfoSpec.

Import HardwareInfo.

Lemma run_command_failure (self : t) (command : list string) :
  (forall stdout, subprocess_run self command <> Completed 0 stdout) ->
  _run_command self command = "".
Proof.
  intros H. unfold _run_command.
  destruct (subprocess_run self command) as [rc out | |]; try reflexivity.
  destruct (Z.eqb_spec rc 0) as [-> | ?]; [|reflexivity].
  now destruct (H out).
Qed.

(** C3. On Windows, when the query of the status of the Bluetooth
    service gives no output (it timed out, ended with an error, or the
    tool is missing), the [device_status] field of the Bluetooth
    category is the empty text: neither a collected value nor the
    "Não disponível" placeholder. *)
Theorem bluetooth_status_left_empty (self : t) :
  is_windows self = true ->
  _run_powershell self bluetooth_status_query = "" ->
  In ("device_status", "") (get_bluetooth_info self) /\
  ReportGenerator.get (get_bluetooth_info self) "device_status" "Não disponível" = "" /\
  filled (get_bluetooth_info self) "device_status" = false.
Proof.
  intros Hw Hq. unfold get_bluetooth_info, filled. rewrite Hw, Hq. cbn.
  destruct (negb (String.eqb (_run_powershell self bluetooth_device_query) "")
            && negb (String.eqb (Py.lower (_run_powershell self bluetooth_device_query))
                       "microsoft"));
    cbn; auto.
Qed.

Lemma bluetooth_status_left_empty_witness :
  is_windows Samples.no_bluetooth_service = true /\
  _run_powershell Samples.no_bluetooth_service bluetooth_status_query = "" /\
  In ("device_status", "") (get_bluetooth_info Samples.no_bluetooth_service) /\
  ReportGenerator.get (get_bluetooth_info Samples.no_bluetooth_service)
    "device_status" "Não disponível" = "" /\
  filled (get_bluetooth_info Samples.no_bluetooth_service) "device_status" = false.
Proof.
  split; [reflexivity|]. split; [vm_compute; reflexivity|].
  apply (bluetooth_status_left_empty Samples.no_bluetooth_service);
    vm_compute; reflexivity.
Defined.

(** What the collector returns for the two categories when every query
    times out. *)
Example snapshot_when_queries_time_out :
  get_bluetooth_info Samples.queries_time_out
  = [("device_name", "Não disponível"); ("device_status", "")] /\
  get_wifi_info Samples.queries_time_out
  = [("adapter_name", "Não disponível"); ("adapter_status", "Não disponível");
     ("connected_ssid", "Não disponível")].
Proof. vm_compute. split; reflexivity. Qed.

(** Off Windows both categories keep their placeholders. *)
Lemma placeholders_off_windows (self : t) :
  is_windows self = false ->
  get_bluetooth_info self
  = [("device_name", "Não disponível"); ("device_status", "Não disponível")] /\
  get_wifi_info self
  = [("adapter_name", "Não disponível"); ("adapter_status", "Não disponível");
     ("connected_ssid", "Não disponível")].
Proof.
  intros H. unfold get_bluetooth_info, get_wifi_info. rewrite H.
  split; reflexivity.
Qed.

Lemma filled_set_if_output (key output other : string) (d : ReportGenerator.dict) :
  filled d other = true -> filled (set_if_output key output d) other = true.
Proof.
  unfold set_if_output, filled. intros H.
  destruct (String.eqb_spec output "") as [-> | Hne]; cbn; [exact H|].
  destruct (String.eqb_spec other key) as [-> | Hk].
  - rewrite ReportGeneratorSpec.get_set_item_same.
    now destruct (String.eqb_spec output "").
  - now rewrite ReportGeneratorSpec.get_set_item_other.
Qed.

(** The Wi-Fi category, which tests each output before storing it,
    never leaves a field empty. *)
Lemma wifi_fields_filled (self : t) (key : string) :
  In key ["adapter_name"; "adapter_status"; "connected_ssid"] ->
  filled (get_wifi_info self) key = true.
Proof.
  intros Hkey. unfold get_wifi_info.
  destruct (is_windows self); cbn [negb].
  - repeat apply filled_set_if_output.
    cbn in Hkey. destruct Hkey as [<- | [<- | [<- | []]]]; reflexivity.
  - cbn in Hkey. destruct Hkey as [<- | [<- | [<- | []]]]; reflexivity.
Qed.

(** So does the name of the Bluetooth device. *)
Lemma bluetooth_device_name_filled (self : t) :
  filled (get_bluetooth_info self) "device_name" = true.
Proof.
  unfold get_bluetooth_info.
  destruct (is_windows self); cbn [negb]; [|reflexivity].
  set (status := if String.eqb (Py.lower _) "running" then _ else _).
  assert (Hs : filled status "device_name" = true).
  { subst status. destruct (String.eqb _ "running"); reflexivity. }
  destruct (String.eqb_spec (_run_powershell self bluetooth_device_query) "") as [-> | Hne];
    cbn [negb andb]; [exact Hs|].
  destruct (negb _); [|exact Hs].
  unfold filled. rewrite ReportGeneratorSpec.get_set_item_same.
  now destruct (String.eqb_spec (_run_powershell self bluetooth_device_query) "").
Qed.

End HardwareInfoSpec.

Module MainWindowSpec.

Import MainWindow.

(** *** Blank texts *)

Lemma lstrip_chars_nil (l : list string) :
  Py.lstrip_chars l = [] <-> forallb Py.isspace l = true.
Proof.
  induction l as [|c l IH]; cbn [Py.lstrip_chars forallb]; [tauto|].
  destruct (Py.isspace c); cbn [andb]; [exact IH|].
  split; discriminate.
Qed.

Lemma lstrip_chars_head (l : list string) (c : string) (r : list string) :
  Py.lstrip_chars l = c :: r ->
  Py.isspace c = false /\ (forall x, In x (c :: r) -> In x l).
Proof.
  induction l as [|d l IH]; cbn [Py.lstrip_chars]; [discriminate|].
  destruct (Py.isspace d) eqn:E.
  - intros H. destruct (IH H) as [Hc Hin]. split; [exact Hc|].
    intros x Hx. right. now apply Hin.
  - intros H. injection H as <- <-. split; [exact E|]. intros x Hx. exact Hx.
Qed.

Lemma chars_from_nonempty (s cur : string) :
  cur <> "" -> List.Forall (fun ch => ch <> "") (Py.chars_from cur s).
Proof.
  revert cur. induction s as [|b s IH]; intros cur Hcur; cbn.
  - constructor; [exact Hcur | constructor].
  - destruct (Py.is_continuation b).
    + apply IH. destruct cur; cbn; discriminate.
    + constructor; [exact Hcur|]. apply IH. discriminate.
Qed.

Lemma chars_nonempty (s : string) :
  List.Forall (fun ch => ch <> "") (Py.chars s).
Proof.
  destruct s as [|b s]; cbn; [constructor|].
  apply chars_from_nonempty. discriminate.
Qed.

Lemma concat_empty_head (x : string) (l : list string) :
  String.concat "" (x :: l) = "" -> x = "".
Proof.
  cbn. destruct l; [tauto|]. destruct x; [reflexivity | discriminate].
Qed.

(** [not text.strip()] holds exactly of the blank texts. *)
Lemma strip_blank (text : string) :
  Py.strip text = "" <-> blank text = true.
Proof.
  unfold Py.strip, blank. split.
  - intros H. destruct (forallb Py.isspace (Py.chars text)) eqn:Hb; [reflexivity|].
    exfalso.
    destruct (Py.lstrip_chars (Py.chars text)) as [|c r] eqn:E1.
    { apply lstrip_chars_nil in E1. congruence. }
    destruct (lstrip_chars_head _ _ _ E1) as [Hc Hin1].
    destruct (Py.lstrip_chars (rev (c :: r))) as [|c' r'] eqn:E2.
    { apply lstrip_chars_nil in E2. rewrite forallb_forall in E2.
      specialize (E2 c). rewrite <- in_rev in E2.
      specialize (E2 (or_introl eq_refl)). congruence. }
    destruct (lstrip_chars_head _ _ _ E2) as [_ Hin2].
    destruct (rev (c' :: r')) as [|x l] eqn:E3.
    { apply (f_equal (@length string)) in E3. rewrite length_rev in E3. discriminate. }
    apply concat_empty_head in H.
    assert (Hx : In x (Py.chars text)).
    { apply Hin1. apply in_rev. apply Hin2. apply in_rev. rewrite E3. now left. }
    pose proof (chars_nonempty text) as Hne.
    rewrite List.Forall_forall in Hne. now apply (Hne x Hx).
  - intros H. apply lstrip_chars_nil in H. rewrite H. reflexivity.
Qed.

Lemma strip_eqb_blank (text : string) :
  String.eqb (Py.strip text) "" = blank text.
Proof.
  destruct (String.eqb_spec (Py.strip text) "") as [H | H].
  - symmetry. now apply strip_blank.
  - destruct (blank text) eqn:E; [|reflexivity].
    apply strip_blank in E. contradiction.
Qed.

(** *** The report *)

(** C8. When the technician name or the workbench id is blank (empty,
    or white space only), the request for a report is refused: a
    warning is shown, no file is written and the generator is left as
    it was.  When neither is blank the generation proceeds: the
    generator receives the identification, the hardware and the folder,
    and, when the folder can be made and the file opened and written,
    the file named after the clock reading in that folder holds the
    content of the report; read back, it is shown in the window with
    "Relatório Gerado".  When the system refuses one of these steps the
    window shows "Erro ao Gerar Relatório" and keeps the text it showed:
    nothing is written if the folder or the file was refused, the part
    of the content that arrived is in the file if the writing failed,
    and the whole report is in the file if only the reading back
    failed. *)
Theorem generate_report_requires_identification
  (hardware : ReportGenerator.Hardware) (os : ReportGenerator.OS)
  (date_time timestamp : string) (s : t) :
  let s' := _generate_report hardware os date_time timestamp s in
  (blank (technician_name s) = true \/ blank (workbench_id s) = true ->
     files s' = files s /\
     report_generator s' = report_generator s /\
     report_text s' = report_text s /\
     dialogs s' = (dialogs s ++ ["Campo Obrigatório"])%list) /\
  (blank (technician_name s) = false -> blank (workbench_id s) = false ->
     let rg :=
       ReportGenerator.set_output_directory
         (ReportGenerator.set_hardware_info
            (ReportGenerator.set_identification (report_generator s)
               [("date_time", date_time);
                ("technician_name", technician_name s);
                ("workbench_id", workbench_id s)])
            hardware)
         (report_save_path s) in
     let dir :=
       if String.eqb (report_save_path s) ""
       then ReportGenerator.path_join os (ReportGenerator.expanduser os)
              "Diagnostico_Hardware_Reports"
       else report_save_path s in
     let path :=
       ReportGenerator.path_join os dir ("relatorio_" ++ timestamp ++ ".txt") in
     let content :=
       ReportGenerator._generate_report_content rg (ReportGenerator.platform os) in
     let failed :=
       dialogs s' = (dialogs s ++ ["Erro ao Gerar Relatório"])%list /\
       report_text s' = report_text s in
     report_generator s' = rg /\
     (ReportGenerator.makedirs os dir = Py.Ok tt ->
      ReportGenerator.open_write os path = Py.Ok tt ->
      ReportGenerator.write os path content = ReportGenerator.Written ->
        files s' = ReportGenerator.set_item path content (files s) /\
        ReportGenerator.get (files s') path "" = content /\
        (ReportGenerator.open_read os path = Py.Ok tt ->
           report_text s' = content /\
           dialogs s' = (dialogs s ++ ["Relatório Gerado"])%list) /\
        (forall e, ReportGenerator.open_read os path = Py.Raise e -> failed)) /\
     (forall e,
        ReportGenerator.makedirs os dir = Py.Raise e \/
        ReportGenerator.makedirs os dir = Py.Ok tt /\
        ReportGenerator.open_write os path = Py.Raise e ->
        files s' = files s /\ failed) /\
     (forall e arrived,
        ReportGenerator.makedirs os dir = Py.Ok tt ->
        ReportGenerator.open_write os path = Py.Ok tt ->
        ReportGenerator.write os path content
        = ReportGenerator.WriteFails e arrived ->
        files s'
        = ReportGenerator.set_item path (String.substring 0 arrived content)
            (files s) /\
        failed)).
Proof.
  intros s'. subst s'. unfold _generate_report. rewrite !strip_eqb_blank.
  split.
  - intros [H | H]; rewrite H.
    + cbn. auto.
    + destruct (blank (technician_name s)); cbn; auto.
  - intros H1 H2. rewrite H1, H2.
    unfold ReportGenerator.generate_report.
    cbn [ReportGenerator.output_directory ReportGenerator.set_output_directory
         files with_report_generator report_text].
    set (rg := ReportGenerator.set_output_directory _ _).
    set (dir := if String.eqb (report_save_path s) "" then _ else _).
    set (path := ReportGenerator.path_join os dir _).
    set (content := ReportGenerator._generate_report_content rg _).
    cbn zeta.
    destruct (ReportGenerator.makedirs os dir) as [[] | e1] eqn:Hm;
      [destruct (ReportGenerator.open_write os path) as [[] | e2] eqn:Ho;
       [destruct (ReportGenerator.write os path content) as [| e3 arrived] eqn:Hw;
        [destruct (ReportGenerator.open_read os path) as [[] | e4] eqn:Hr|]|]|];
      cbn; rewrite ?ReportGeneratorSpec.get_set_item_same;
      repeat match goal with
        | |- _ /\ _ => split
        | |- _ -> _ => intro
        | |- forall _, _ => intro
        | H : _ \/ _ |- _ => destruct H
        | H : _ /\ _ |- _ => destruct H
        end;
      try discriminate; try congruence; auto.
Qed.

(** A report requested with a blank workbench id, then with both
    fields filled; then on a full disk and where the report cannot be
    read back. *)
Example report_refused_then_written :
  let filled :=
    run "Desktop" [TypeTechnicianName "Ana"; TypeWorkbenchId "B1"] in
  let spaces :=
    run "Desktop" [TypeTechnicianName "Ana"; TypeWorkbenchId "   "] in
  let request os :=
    ClickGenerateReport ReportGenerator.no_hardware os
      "2024-05-01 10:00:00" "20240501_100000" in
  files (step spaces (request Samples.writable)) = [] /\
  dialogs (step spaces (request Samples.writable)) = ["Campo Obrigatório"] /\
  map fst (files (step filled (request Samples.writable)))
  = ["Desktop/relatorio_20240501_100000.txt"] /\
  dialogs (step filled (request Samples.writable)) = ["Relatório Gerado"] /\
  report_text (step filled (request Samples.writable))
  = ReportGenerator.get (files (step filled (request Samples.writable)))
      "Desktop/relatorio_20240501_100000.txt" "" /\
  map (fun kv => String.length (snd kv))
      (files (step filled (request Samples.disk_full))) = [120] /\
  dialogs (step filled (request Samples.disk_full)) = ["Erro ao Gerar Relatório"] /\
  files (step filled (request Samples.unreadable))
  = files (step filled (request Samples.writable)) /\
  report_text (step filled (request Samples.unreadable)) = "" /\
  dialogs (step filled (request Samples.unreadable)) = ["Erro ao Gerar Relatório"].
Proof. vm_compute. repeat split; reflexivity. Qed.

Example blank_texts :
  blank "" = true /\ blank "   " = true /\
  blank (Py.utf8 9 ++ Py.utf8 160 ++ Py.utf8 12288) = true /\
  blank " B1 " = false.
Proof. vm_compute. repeat split; reflexivity. Qed.


(** *** One test at a time *)

Ltac case_eqb :=
  repeat match goal with
         | |- context [String.eqb ?a ?b] => destruct (String.eqb a b)
         end.

Lemma execute_next_single_flight (sys : System) (s : t) :
  tests_running s = true -> open_tests s = [] -> scheduled s = 0 ->
  single_flight (_execute_next_test sys s).
Proof.
  intros Hr Ho Hs. unfold _execute_next_test, single_flight.
  destruct (test_queue s) as [|test_id rest].
  - cbn. rewrite Ho, Hs. cbn. split; [lia | auto].
  - unfold _run_keyboard_test, _run_usb_test, _run_webcam_test, _run_audio_test.
    case_eqb; destruct sys as [[] []]; cbn; rewrite Ho, Hs, Hr; cbn;
      (split; [lia | discriminate]).
Qed.


Lemma validate_same (s : t) :
  let s' := snd (_validate_identification_fields s) in
  same_run s s' /\ selected_tests s' = selected_tests s.
Proof.
  unfold _validate_identification_fields, same_run.
  case_eqb; cbn; auto 10.
Qed.

Lemma validate_valid (s : t) :
  fst (_validate_identification_fields s) = true ->
  snd (_validate_identification_fields s) = s.
Proof.
  unfold _validate_identification_fields. case_eqb; cbn; congruence.
Qed.

(** While a run is in progress the two start buttons change nothing of
    the run. *)
Lemma start_rejected_while_running (sys : System) (s : t) :
  tests_running s = true ->
  same_run s (_run_selected_tests sys s) /\
  same_run s (_run_all_tests sys s).
Proof.
  intros Hr. unfold _run_selected_tests, _run_all_tests.
  pose proof (validate_same s) as [Hsame _].
  pose proof (validate_valid s) as Hvalid.
  destruct (_validate_identification_fields s) as [valid s0]. cbn in Hsame, Hvalid.
  destruct valid; cbn [negb].
  - rewrite (Hvalid eq_refl), Hr.
    split; [destruct (map fst _)|]; unfold same_run; cbn; auto 10.
  - split; exact Hsame.
Qed.

Lemma single_flight_same (s s' : t) :
  tests_running s' = tests_running s -> open_tests s' = open_tests s ->
  scheduled s' = scheduled s -> single_flight s -> single_flight s'.
Proof. unfold single_flight. intros -> -> ->. auto. Qed.

Lemma generate_report_same (hardware : ReportGenerator.Hardware)
  (os : ReportGenerator.OS) (date_time timestamp : string) (s : t) :
  let s' := _generate_report hardware os date_time timestamp s in
  tests_running s' = tests_running s /\ test_queue s' = test_queue s /\
  open_tests s' = open_tests s /\ scheduled s' = scheduled s.
Proof.
  unfold _generate_report. case_eqb; cbn; auto.
  destruct (ReportGenerator.generate_report _ _ _ _) as [[path | e] fs];
    [destruct (ReportGenerator.open_read os path)|]; cbn; auto.
Qed.

Lemma open_single (s : t) (test_id : string) :
  single_flight s -> existsb (String.eqb test_id) (open_tests s) = true ->
  tests_running s = true /\ open_tests (close test_id s) = [] /\ scheduled s = 0.
Proof.
  unfold single_flight. intros [Hlen Hoff] Hin.
  destruct (open_tests s) as [|x [|y l]] eqn:E; cbn in Hlen, Hin; try discriminate; try lia.
  rewrite orb_false_r in Hin. split; [|split; [|lia]].
  - destruct (tests_running s); [reflexivity|]. now destruct (Hoff eq_refl).
  - unfold close. cbn. rewrite E. cbn.
    apply String.eqb_eq in Hin. subst x. now rewrite String.eqb_refl.
Qed.

Lemma step_single_flight (s : t) (e : event) :
  single_flight s -> single_flight (step s e).
Proof.
  intros Hs. destruct e as [text | text | test_id value | mk | mk
                           | test_id result formatted mk | | mk
                           | hardware os date_time timestamp]; cbn [step].
  - exact Hs.
  - exact Hs.
  - destruct (ReportGenerator.contains _ _); exact Hs.
  - unfold _run_selected_tests.
    pose proof (validate_same s) as [(H1 & H2 & H3 & H4 & H5) _].
    pose proof (validate_valid s) as Hvalid.
    destruct (_validate_identification_fields s) as [valid s0]. cbn in *.
    destruct valid; cbn [negb]; [|now apply (single_flight_same s)].
    rewrite (Hvalid eq_refl).
    destruct (map fst _) as [|x l]; [exact Hs|].
    destruct (tests_running s) eqn:Hr; [exact Hs|].
    destruct Hs as [_ Hoff]. destruct (Hoff Hr) as [Ho Hsch].
    now apply execute_next_single_flight.
  - unfold _run_all_tests.
    pose proof (validate_same s) as [(H1 & H2 & H3 & H4 & H5) _].
    pose proof (validate_valid s) as Hvalid.
    destruct (_validate_identification_fields s) as [valid s0]. cbn in *.
    destruct valid; cbn [negb]; [|now apply (single_flight_same s)].
    rewrite (Hvalid eq_refl).
    destruct (tests_running s) eqn:Hr; [exact Hs|].
    destruct Hs as [_ Hoff]. destruct (Hoff Hr) as [Ho Hsch].
    now apply execute_next_single_flight.
  - destruct (existsb _ _) eqn:Hin; [|exact Hs].
    destruct (open_single s test_id Hs Hin) as (Hr & Ho & Hsch).
    unfold _handle_test_completion. now apply execute_next_single_flight.
  - destruct (existsb _ _) eqn:Hin; [|exact Hs].
    destruct (open_single s "usb" Hs Hin) as (Hr & Ho & Hsch).
    unfold single_flight. rewrite Ho. cbn. rewrite Hsch, Hr.
    split; [lia | discriminate].
  - destruct (scheduled s) as [|n] eqn:E; [exact Hs|].
    destruct Hs as [Hlen Hoff]. rewrite E in Hlen.
    assert (Ho : open_tests s = []) by (destruct (open_tests s); [reflexivity | cbn in Hlen; lia]).
    rewrite Ho in Hlen. cbn in Hlen.
    apply execute_next_single_flight; cbn; [|exact Ho | lia].
    destruct (tests_running s); [reflexivity|]. destruct (Hoff eq_refl). lia.
  - pose proof (generate_report_same hardware os date_time timestamp s)
      as (H1 & _ & H3 & H4).
    now apply (single_flight_same s).
Qed.

Lemma run_single_flight (desktop : string) (evs : list event) :
  single_flight (run desktop evs).
Proof.
  unfold run. induction evs as [|e evs IH] using rev_ind.
  - cbn. unfold single_flight. cbn. split; [lia | auto].
  - rewrite fold_left_app. cbn. now apply step_single_flight.
Qed.




(** A run of two tests: the second start is refused, the webcam test
    opens when the keyboard test completes, the flag falls when the
    webcam test completes. *)
Example run_of_two_tests :
  let s1 := step Samples.keyboard_running (ClickRunAll Samples.working) in
  let s2 := step s1 (TestCompletes "keyboard" Samples.passed "ok" Samples.working) in
  let s3 := step s2 (TestCompletes "webcam" initial_result "falha" Samples.working) in
  (open_tests s1, test_queue s1, tests_running s1) = (["keyboard"], ["webcam"], true) /\
  (open_tests s2, test_queue s2, tests_running s2) = (["webcam"], [], true) /\
  (open_tests s3, test_queue s3, tests_running s3) = ([], [], false) /\
  map fst (ReportGenerator.test_results (report_generator s3)) = ["keyboard"; "Webcam"].
Proof. vm_compute. repeat split; reflexivity. Qed.

(** *** Starting a run *)

Lemma run_selected_cases (sys : System) (s : t) :
  _run_selected_tests sys s
  = if blank (technician_name s) || blank (workbench_id s)
    then show "Campo Obrigatório" s
    else
      match ticked s with
      | [] => show "Nenhum Teste Selecionado" s
      | _ :: _ =>
          if tests_running s then show "Testes em Execução" s
          else _execute_next_test sys
                 (with_test_queue (ticked s) (with_tests_running true s))
      end.
Proof.
  unfold _run_selected_tests, _validate_identification_fields, ticked.
  rewrite !strip_eqb_blank.
  destruct (blank (technician_name s)); [reflexivity|].
  destruct (blank (workbench_id s)); reflexivity.
Qed.

Lemma run_all_cases (sys : System) (s : t) :
  _run_all_tests sys s
  = if blank (technician_name s) || blank (workbench_id s)
    then show "Campo Obrigatório" s
    else if tests_running s then show "Testes em Execução" s
    else _execute_next_test sys
           (with_test_queue (map fst (selected_tests s))
              (with_tests_running true s)).
Proof.
  unfold _run_all_tests, _validate_identification_fields.
  rewrite !strip_eqb_blank.
  destruct (blank (technician_name s)); [reflexivity|].
  destruct (blank (workbench_id s)); reflexivity.
Qed.

Lemma execute_next_flag_false (sys : System) (s : t) :
  tests_running s = false ->
  tests_running (_execute_next_test sys s) = false.
Proof.
  intros Hr. unfold _execute_next_test.
  destruct (test_queue s) as [|test_id rest]; [reflexivity|].
  unfold _run_keyboard_test, _run_usb_test, _run_webcam_test, _run_audio_test.
  case_eqb; destruct sys as [[] []]; cbn; exact Hr.
Qed.

(** X20. No run starts without identification: the run flag is raised
    only by one of the two start buttons, and only when neither the
    technician name nor the workbench id is blank (and, for the
    selected tests, when at least one test is ticked). *)
Theorem run_needs_identification (s : t) (e : event) :
  tests_running s = false -> tests_running (step s e) = true ->
  blank (technician_name s) = false /\ blank (workbench_id s) = false /\
  ((exists sys, e = ClickRunAll sys) \/
   (exists sys, e = ClickRunSelected sys /\ ticked s <> [])).
Proof.
  intros Hr Hon.
  destruct e as [text | text | test_id value | mk | mk
                | test_id result formatted mk | | mk
                | hardware os date_time timestamp]; cbn [step] in Hon.
  - cbn in Hon. congruence.
  - cbn in Hon. congruence.
  - destruct (ReportGenerator.contains _ _); cbn in Hon; congruence.
  - rewrite run_selected_cases in Hon.
    destruct (blank (technician_name s)); [cbn in Hon; congruence|].
    destruct (blank (workbench_id s)); [cbn in Hon; congruence|].
    destruct (ticked s) as [|first rest] eqn:E; [cbn in Hon; congruence|].
    repeat split; auto. right. exists mk. split; [reflexivity | discriminate].
  - rewrite run_all_cases in Hon.
    destruct (blank (technician_name s)); [cbn in Hon; congruence|].
    destruct (blank (workbench_id s)); [cbn in Hon; congruence|].
    repeat split; auto. left. now exists mk.
  - destruct (existsb _ _); [|congruence].
    unfold _handle_test_completion in Hon.
    rewrite execute_next_flag_false in Hon; [discriminate | exact Hr].
  - destruct (existsb _ _); cbn in Hon; congruence.
  - destruct (scheduled s); [congruence|].
    rewrite execute_next_flag_false in Hon; [discriminate | exact Hr].
  - pose proof (generate_report_same hardware os date_time timestamp s) as (H1 & _).
    congruence.
Qed.

Lemma run_needs_identification_witness :
  tests_running Samples.identified = false /\
  tests_running (step Samples.identified (ClickRunAll Samples.working)) = true /\
  blank (technician_name Samples.identified) = false /\
  blank (workbench_id Samples.identified) = false /\
  ((exists sys, ClickRunAll Samples.working = ClickRunAll sys) \/
   (exists sys, ClickRunAll Samples.working = ClickRunSelected sys /\
                    ticked Samples.identified <> [])).
Proof.
  split; [reflexivity|]. split; [vm_compute; reflexivity|].
  apply (run_needs_identification Samples.identified (ClickRunAll Samples.working));
    [reflexivity | vm_compute; reflexivity].
Defined.

(** *** A skipped USB test *)

Lemma generate_report_results (hardware : ReportGenerator.Hardware)
  (os : ReportGenerator.OS) (date_time timestamp : string) (s : t) :
  let s' := _generate_report hardware os date_time timestamp s in
  ReportGenerator.test_results (report_generator s')
  = ReportGenerator.test_results (report_generator s) /\
  ReportGenerator.test_details (report_generator s')
  = ReportGenerator.test_details (report_generator s) /\
  selected_tests s' = selected_tests s.
Proof.
  unfold _generate_report. case_eqb; cbn; auto.
  destruct (ReportGenerator.generate_report _ _ _ _) as [[path | e] fs];
    [destruct (ReportGenerator.open_read os path)|]; cbn; auto.
Qed.

Lemma step_stalled (s : t) (e : event) :
  stalled s ->
  stalled (step s e) /\ test_queue (step s e) = test_queue s /\
  ReportGenerator.test_results (report_generator (step s e))
  = ReportGenerator.test_results (report_generator s).
Proof.
  intros (Hr & Ho & Hs). unfold stalled.
  destruct e as [text | text | test_id value | mk | mk
                | test_id result formatted mk | | mk
                | hardware os date_time timestamp]; cbn [step].
  - cbn. auto.
  - cbn. auto.
  - destruct (ReportGenerator.contains _ _); cbn; auto.
  - destruct (start_rejected_while_running mk s Hr) as [(H1 & H2 & H3 & H4 & H5) _].
    rewrite H1, H2, H3, H4, H5. auto.
  - destruct (start_rejected_while_running mk s Hr) as [_ (H1 & H2 & H3 & H4 & H5)].
    rewrite H1, H2, H3, H4, H5. auto.
  - rewrite Ho. cbn. auto.
  - rewrite Ho. cbn. auto.
  - rewrite Hs. auto.
  - pose proof (generate_report_same hardware os date_time timestamp s)
      as (H1 & H2 & H3 & H4).
    pose proof (generate_report_results hardware os date_time timestamp s)
      as (H5 & _).
    cbn zeta in *. rewrite H1, H2, H3, H4, H5. auto.
Qed.

(** X21. When the USB test is skipped the run never goes on: the skip
    closes its window without reporting anything, so from then on,
    whatever is clicked, the run flag stays raised, no test is open or
    scheduled, the tests still queued are never started, no result is
    recorded, and both start buttons keep being refused. *)
Theorem usb_skip_stalls (desktop : string) (before after : list event) :
  existsb (String.eqb "usb") (open_tests (run desktop before)) = true ->
  let s := run desktop before in
  let s' := fold_left step after (step s TestSkipped) in
  stalled s' /\ test_queue s' = test_queue s /\
  ReportGenerator.test_results (report_generator s')
  = ReportGenerator.test_results (report_generator s).
Proof.
  intros Hopen s s'.
  destruct (open_single s "usb" (run_single_flight desktop before) Hopen)
    as (Hr & Hclose & Hsch).
  assert (H0 : stalled (step s TestSkipped) /\
               test_queue (step s TestSkipped) = test_queue s /\
               ReportGenerator.test_results (report_generator (step s TestSkipped))
               = ReportGenerator.test_results (report_generator s)).
  { cbn [step]. fold s in Hopen. rewrite Hopen. unfold stalled.
    rewrite Hclose. cbn. auto. }
  subst s'. revert H0. generalize (step s TestSkipped). clear Hopen Hr Hclose Hsch.
  induction after as [|e after IH]; intros s0 H0; [exact H0|].
  cbn [fold_left]. apply IH.
  destruct H0 as (Hst & Hq & Hres).
  destruct (step_stalled s0 e Hst) as (Hst' & Hq' & Hres').
  split; [exact Hst'|]. split; congruence.
Qed.

Lemma usb_skip_stalls_witness :
  let before :=
    [TypeTechnicianName "Ana"; TypeWorkbenchId "B1"; Toggle "usb" true;
     Toggle "webcam" true; ClickRunSelected Samples.working] in
  let after :=
    [ClickRunAll Samples.working; TimerFires Samples.working;
     TestCompletes "webcam" Samples.passed "ok" Samples.working] in
  existsb (String.eqb "usb") (open_tests (run "Desktop" before)) = true /\
  stalled (fold_left step after (step (run "Desktop" before) TestSkipped)) /\
  test_queue (fold_left step after (step (run "Desktop" before) TestSkipped))
  = test_queue (run "Desktop" before) /\
  ReportGenerator.test_results
    (report_generator (fold_left step after (step (run "Desktop" before) TestSkipped)))
  = ReportGenerator.test_results (report_generator (run "Desktop" before)).
Proof.
  split; [vm_compute; reflexivity|].
  apply (usb_skip_stalls "Desktop"
           [TypeTechnicianName "Ana"; TypeWorkbenchId "B1"; Toggle "usb" true;
            Toggle "webcam" true; ClickRunSelected Samples.working]
           [ClickRunAll Samples.working; TimerFires Samples.working;
            TestCompletes "webcam" Samples.passed "ok" Samples.working]).
  vm_compute. reflexivity.
Defined.

(** *** The order of the tests *)

Lemma execute_next_selected (sys : System) (s : t) :
  selected_tests (_execute_next_test sys s) = selected_tests s.
Proof.
  unfold _execute_next_test.
  destruct (test_queue s) as [|test_id rest]; [reflexivity|].
  unfold _run_keyboard_test, _run_usb_test, _run_webcam_test, _run_audio_test.
  case_eqb; destruct sys as [[] []]; reflexivity.
Qed.

Lemma step_selected_keys (s : t) (e : event) :
  map fst (selected_tests (step s e)) = map fst (selected_tests s).
Proof.
  destruct e as [text | text | test_id value | mk | mk
                | test_id result formatted mk | | mk
                | hardware os date_time timestamp]; cbn [step].
  - reflexivity.
  - reflexivity.
  - destruct (ReportGenerator.contains _ _) eqn:Hc; [|reflexivity].
    cbn. rewrite ReportGeneratorSpec.keys_set_item. now rewrite Hc.
  - rewrite run_selected_cases.
    destruct (_ || _); [reflexivity|].
    destruct (ticked s); [reflexivity|].
    destruct (tests_running s); [reflexivity|].
    now rewrite execute_next_selected.
  - rewrite run_all_cases.
    destruct (_ || _); [reflexivity|].
    destruct (tests_running s); [reflexivity|].
    now rewrite execute_next_selected.
  - destruct (existsb _ _); [|reflexivity].
    unfold _handle_test_completion. now rewrite execute_next_selected.
  - destruct (existsb _ _); reflexivity.
  - destruct (scheduled s); [reflexivity|]. now rewrite execute_next_selected.
  - now destruct (generate_report_results hardware os date_time timestamp s)
      as (_ & _ & ->).
Qed.

Lemma run_selected_keys (desktop : string) (evs : list event) :
  map fst (selected_tests (run desktop evs)) = test_ids.
Proof.
  unfold run. induction evs as [|e evs IH] using rev_ind; [reflexivity|].
  rewrite fold_left_app. cbn [fold_left]. now rewrite step_selected_keys.
Qed.

Lemma four_ticks (l : list (string * bool)) :
  map fst l = test_ids ->
  exists b1 b2 b3 b4,
    l = [("keyboard", b1); ("usb", b2); ("webcam", b3); ("audio", b4)].
Proof.
  unfold test_ids.
  destruct l as [|[k1 b1] [|[k2 b2] [|[k3 b3] [|[k4 b4] [|x l]]]]]; try discriminate.
  cbn. intros [= -> -> -> ->]. now exists b1, b2, b3, b4.
Qed.

(** X22. The ticked tests are run in the fixed order keyboard, usb,
    webcam, audio, whatever the order in which they were ticked: in an
    idle, identified window the button of the selected tests takes the
    first ticked test of that order and queues the others behind it.
    That test opens when it is the keyboard test, when it is the USB
    test and the connection to WMI goes through, or when it is the
    webcam or audio test and its temporary directory can be made.  A
    webcam or audio test that cannot be initialised shows an error and
    is passed over by a scheduled call; a USB test whose connection to
    WMI fails opens nothing and schedules nothing, which leaves the run
    stalled.  With nothing ticked the button only shows a warning. *)
Theorem ticked_tests_run_in_order (desktop : string) (evs : list event)
  (sys : System) :
  tests_running (run desktop evs) = false ->
  blank (technician_name (run desktop evs)) = false ->
  blank (workbench_id (run desktop evs)) = false ->
  let s := run desktop evs in
  let s' := step s (ClickRunSelected sys) in
  ticked s
  = List.filter (fun id => ReportGenerator.get (selected_tests s) id false)
      test_ids /\
  match ticked s with
  | [] =>
      same_run s s' /\
      dialogs s' = (dialogs s ++ ["Nenhum Teste Selecionado"])%list
  | first :: rest =>
      tests_running s' = true /\ test_queue s' = rest /\
      (first = "keyboard" \/ first = "usb" /\ wmi sys = true \/
       (first = "webcam" \/ first = "audio") /\ mkdtemp sys = true ->
       open_tests s' = [first] /\ scheduled s' = 0 /\ dialogs s' = dialogs s) /\
      ((first = "webcam" \/ first = "audio") /\ mkdtemp sys = false ->
       open_tests s' = [] /\ scheduled s' = 1 /\
       dialogs s' = (dialogs s ++ ["Erro"])%list) /\
      (first = "usb" /\ wmi sys = false ->
       stalled s' /\ dialogs s' = dialogs s)
  end.
Proof.
  intros Hr Hn Hw s s'.
  destruct (run_single_flight desktop evs) as [_ Hoff]. fold s in Hoff.
  destruct (Hoff Hr) as [Ho Hs].
  destruct (four_ticks _ (run_selected_keys desktop evs)) as (b1 & b2 & b3 & b4 & Hsel).
  fold s in Hsel, Hr, Hn, Hw.
  subst s'. cbn [step]. rewrite run_selected_cases, Hn, Hw, Hr. cbn [orb].
  unfold ticked, same_run, stalled. rewrite Hsel.
  destruct sys as [mk wm].
  destruct b1, b2, b3, b4; cbn; rewrite ?Ho, ?Hs, ?Hr;
    (split; [reflexivity|]);
    try (destruct mk, wm; cbn; rewrite ?Ho, ?Hs;
         repeat match goal with
           | |- _ /\ _ => split
           | |- _ -> _ => intro
           | H : _ \/ _ |- _ => destruct H
           | H : _ /\ _ |- _ => destruct H
           end;
         try discriminate; try reflexivity; fail);
    auto 10.
Qed.

Lemma ticked_tests_run_in_order_witness :
  let evs :=
    [TypeTechnicianName "Ana"; TypeWorkbenchId "B1"; Toggle "audio" true;
     Toggle "usb" true] in
  tests_running (run "Desktop" evs) = false /\
  blank (technician_name (run "Desktop" evs)) = false /\
  blank (workbench_id (run "Desktop" evs)) = false /\
  let s := run "Desktop" evs in
  let s' := step s (ClickRunSelected Samples.no_wmi) in
  ticked s
  = List.filter (fun id => ReportGenerator.get (selected_tests s) id false)
      test_ids /\
  match ticked s with
  | [] =>
      same_run s s' /\
      dialogs s' = (dialogs s ++ ["Nenhum Teste Selecionado"])%list
  | first :: rest =>
      tests_running s' = true /\ test_queue s' = rest /\
      (first = "keyboard" \/ first = "usb" /\ wmi Samples.no_wmi = true \/
       (first = "webcam" \/ first = "audio") /\ mkdtemp Samples.no_wmi = true ->
       open_tests s' = [first] /\ scheduled s' = 0 /\ dialogs s' = dialogs s) /\
      ((first = "webcam" \/ first = "audio") /\ mkdtemp Samples.no_wmi = false ->
       open_tests s' = [] /\ scheduled s' = 1 /\
       dialogs s' = (dialogs s ++ ["Erro"])%list) /\
      (first = "usb" /\ wmi Samples.no_wmi = false ->
       stalled s' /\ dialogs s' = dialogs s)
  end.
Proof.
  split; [reflexivity|]. split; [vm_compute; reflexivity|].
  split; [vm_compute; reflexivity|].
  apply (ticked_tests_run_in_order "Desktop"
           [TypeTechnicianName "Ana"; TypeWorkbenchId "B1";
            Toggle "audio" true; Toggle "usb" true] Samples.no_wmi);
    vm_compute; reflexivity.
Defined.

(** Runs started with the audio test ticked before another one: the
    other one comes first.  Without WMI the USB test does not open and
    the audio test is left in the queue. *)
Example audio_ticked_before_keyboard :
  let ticking other :=
    run "Desktop"
      [TypeTechnicianName "Ana"; TypeWorkbenchId "B1"; Toggle "audio" true;
       Toggle other true] in
  let s := step (ticking "keyboard") (ClickRunSelected Samples.working) in
  let u := step (ticking "usb") (ClickRunSelected Samples.no_wmi) in
  open_tests s = ["keyboard"] /\ test_queue s = ["audio"] /\
  open_tests u = [] /\ test_queue u = ["audio"] /\ scheduled u = 0 /\
  tests_running u = true /\
  same_run u (step u (TimerFires Samples.working)) /\
  same_run u (step u (ClickRunAll Samples.working)).
Proof. vm_compute. repeat split; reflexivity. Qed.

(** *** The names under which results are recorded *)

Lemma execute_next_bounded (sys : System) (s : t) :
  report_generator (_execute_next_test sys s) = report_generator s /\
  forall x, In x (open_tests (_execute_next_test sys s)) ->
            In x (open_tests s) \/ In x test_ids.
Proof.
  unfold _execute_next_test.
  destruct (test_queue s) as [|test_id rest]; [cbn; auto|].
  unfold _run_keyboard_test, _run_usb_test, _run_webcam_test, _run_audio_test,
    test_ids.
  case_eqb; destruct sys as [[] []]; cbn; (split; [reflexivity|]); intros x Hx;
    try (apply in_app_or in Hx as [Hx | [<- | []]]); cbn; auto 10.
Qed.

Lemma reported_name_known (test_id : string) :
  In test_id test_ids -> In (reported_name test_id) recorded_names.
Proof.
  unfold test_ids, recorded_names. cbn.
  intros [<- | [<- | [<- | [<- | []]]]]; cbn; auto.
Qed.

Lemma step_bounded (s : t) (e : event) : bounded s -> bounded (step s e).
Proof.
  intros (Hopen & Hnd & Hnames).
  assert (Hnext : forall mk s0,
            (forall x, In x (open_tests s0) -> In x test_ids) ->
            NoDup (map fst (ReportGenerator.test_results (report_generator s0))) ->
            (forall x, In x (map fst (ReportGenerator.test_results (report_generator s0))) ->
                       In x recorded_names) ->
            bounded (_execute_next_test mk s0)).
  { intros mk s0 H1 H2 H3. destruct (execute_next_bounded mk s0) as [Hrg Ho].
    unfold bounded. rewrite Hrg. split; [|auto].
    intros x Hx. destruct (Ho x Hx); auto. }
  destruct e as [text | text | test_id value | mk | mk
                | test_id result formatted mk | | mk
                | hardware os date_time timestamp]; cbn [step].
  - split; auto.
  - split; auto.
  - destruct (ReportGenerator.contains _ _); split; auto.
  - rewrite run_selected_cases.
    destruct (_ || _); [split; auto|].
    destruct (ticked s); [split; auto|].
    destruct (tests_running s); [split; auto|].
    apply Hnext; auto.
  - rewrite run_all_cases.
    destruct (_ || _); [split; auto|].
    destruct (tests_running s); [split; auto|].
    apply Hnext; auto.
  - destruct (existsb _ _) eqn:Hin; [|split; auto].
    apply existsb_exists in Hin as (x & Hx & Heq).
    apply String.eqb_eq in Heq. subst x.
    unfold _handle_test_completion. apply Hnext; cbn.
    + intros x Hx'. apply filter_In in Hx' as [Hx' _]. exact (Hopen x Hx').
    + now apply ReportGeneratorSpec.NoDup_keys_set_item.
    + intros x. rewrite ReportGeneratorSpec.keys_set_item.
      destruct (ReportGenerator.contains _ _); [apply Hnames|].
      intros Hx'. apply in_app_or in Hx' as [Hx' | [<- | []]];
        [exact (Hnames x Hx')|].
      apply reported_name_known. exact (Hopen test_id Hx).
  - destruct (existsb _ _); [|split; auto].
    split; [|auto]. cbn. intros x Hx. apply filter_In in Hx as [Hx _]. exact (Hopen x Hx).
  - destruct (scheduled s); [split; auto|]. apply Hnext; auto.
  - pose proof (generate_report_same hardware os date_time timestamp s)
      as (_ & _ & H3 & _).
    pose proof (generate_report_results hardware os date_time timestamp s)
      as (H5 & _).
    cbn zeta in *. unfold bounded. rewrite H3, H5. auto.
Qed.

Lemma run_bounded (desktop : string) (evs : list event) :
  bounded (run desktop evs).
Proof.
  unfold run. induction evs as [|e evs IH] using rev_ind.
  - split; [|split]; cbn; [tauto | constructor | tauto].
  - rewrite fold_left_app. cbn [fold_left]. now apply step_bounded.
Qed.

(** X23. Whatever is run, and however often, the report holds at most
    four results: results are only ever recorded under the names
    "keyboard", "usb", "Webcam" and "Áudio", each at most once. *)
Theorem recorded_names_bounded (desktop : string) (evs : list event) :
  let rg := report_generator (run desktop evs) in
  (forall name, In name (map fst (ReportGenerator.test_results rg)) ->
                In name ["keyboard"; "usb"; "Webcam"; "Áudio"]) /\
  NoDup (map fst (ReportGenerator.test_results rg)) /\
  ReportGenerator.total_tests rg <= 4.
Proof.
  intros rg. destruct (run_bounded desktop evs) as (_ & Hnd & Hnames).
  fold rg in Hnd, Hnames. split; [exact Hnames|]. split; [exact Hnd|].
  unfold ReportGenerator.total_tests.
  rewrite <- (length_map fst (ReportGenerator.test_results rg)).
  change 4 with (length recorded_names).
  apply submseteq_length, NoDup_submseteq; [exact Hnd|].
  intros x Hx. apply list_elem_of_In. apply Hnames. now apply list_elem_of_In.
Qed.

(** *** Generating a report during or after a run *)

(** X24. Asking for a report changes nothing of the tests: the recorded
    results and their texts, hence the summary, and the state of the
    run are as before, whether the report is refused, written or fails.
    When it is written, the text shown in the report tab is the content
    generated from the generator as the window left it, and it is what
    the file holds. *)
Theorem generate_report_keeps_results
  (hardware : ReportGenerator.Hardware) (os : ReportGenerator.OS)
  (date_time timestamp : string) (s : t) :
  let s' := _generate_report hardware os date_time timestamp s in
  ReportGenerator.test_results (report_generator s')
  = ReportGenerator.test_results (report_generator s) /\
  ReportGenerator.test_details (report_generator s')
  = ReportGenerator.test_details (report_generator s) /\
  ReportGenerator.summary_lines (report_generator s')
  = ReportGenerator.summary_lines (report_generator s) /\
  tests_running s' = tests_running s /\ test_queue s' = test_queue s /\
  open_tests s' = open_tests s /\ scheduled s' = scheduled s /\
  (dialogs s' = (dialogs s ++ ["Relatório Gerado"])%list ->
   report_text s'
   = ReportGenerator._generate_report_content (report_generator s')
       (ReportGenerator.platform os) /\
   exists path, ReportGenerator.get (files s') path "" = report_text s').
Proof.
  intros s'.
  pose proof (generate_report_same hardware os date_time timestamp s)
    as (H1 & H2 & H3 & H4).
  pose proof (generate_report_results hardware os date_time timestamp s)
    as (H5 & H6 & _).
  fold s' in H1, H2, H3, H4, H5, H6.
  split; [exact H5|]. split; [exact H6|].
  split.
  { unfold ReportGenerator.summary_lines, ReportGenerator.total_tests,
      ReportGenerator.successful_tests, ReportGenerator.success_rate,
      ReportGenerator.total_tests, ReportGenerator.successful_tests.
    now rewrite H5. }
  split; [exact H1|]. split; [exact H2|]. split; [exact H3|]. split; [exact H4|].
  subst s'. unfold _generate_report.
  destruct (String.eqb (Py.strip (technician_name s)) "");
    [cbn; intros H; apply app_inj_tail in H as [_ H]; discriminate|].
  destruct (String.eqb (Py.strip (workbench_id s)) "");
    [cbn; intros H; apply app_inj_tail in H as [_ H]; discriminate|].
  set (rg := ReportGenerator.set_output_directory _ _).
  unfold ReportGenerator.generate_report. cbn [files with_report_generator].
  destruct (ReportGenerator.makedirs os _);
    [|cbn; intros H; apply app_inj_tail in H as [_ H]; discriminate].
  destruct (ReportGenerator.open_write os _);
    [|cbn; intros H; apply app_inj_tail in H as [_ H]; discriminate].
  destruct (ReportGenerator.write os _ _);
    [|cbn; intros H; apply app_inj_tail in H as [_ H]; discriminate].
  destruct (ReportGenerator.open_read os _);
    [|cbn; intros H; apply app_inj_tail in H as [_ H]; discriminate].
  cbn. intros _. rewrite ReportGeneratorSpec.get_set_item_same.
  split; [reflexivity|]. eexists. apply ReportGeneratorSpec.get_set_item_same.
Qed.

(** *** A whole run *)

(** X25. In an idle, identified window the button of all tests runs the
    four tests one after the other in the order keyboard, usb, webcam,
    audio, provided each can be created when its turn comes: the
    connection to WMI goes through when the keyboard test completes,
    and a temporary directory can be made when the USB test and when
    the webcam test complete.  Then, when each test closes with its
    completion, the next one opens, and after the fourth the run flag
    falls, "Testes Concluídos" is shown, and the four results are
    recorded under the names "keyboard", "usb", "Webcam" and
    "Áudio". *)
Theorem run_all_completes (desktop : string) (evs : list event)
  (sys0 sys1 sys2 sys3 sys4 : System)
  (r1 r2 r3 r4 : TestResult) (f1 f2 f3 f4 : string) :
  tests_running (run desktop evs) = false ->
  blank (technician_name (run desktop evs)) = false ->
  blank (workbench_id (run desktop evs)) = false ->
  wmi sys1 = true -> mkdtemp sys2 = true -> mkdtemp sys3 = true ->
  let s := run desktop evs in
  let s1 := step s (ClickRunAll sys0) in
  let s2 := step s1 (TestCompletes "keyboard" r1 f1 sys1) in
  let s3 := step s2 (TestCompletes "usb" r2 f2 sys2) in
  let s4 := step s3 (TestCompletes "webcam" r3 f3 sys3) in
  let s5 := step s4 (TestCompletes "audio" r4 f4 sys4) in
  (open_tests s1, open_tests s2, open_tests s3, open_tests s4, open_tests s5)
  = (["keyboard"], ["usb"], ["webcam"], ["audio"], []) /\
  tests_running s4 = true /\ tests_running s5 = false /\
  test_queue s5 = [] /\
  dialogs s5 = (dialogs s ++ ["Testes Concluídos"])%list /\
  report_generator s5
  = ReportGenerator.add_all (report_generator s)
      [("keyboard", r1, f1); ("usb", r2, f2); ("Webcam", r3, f3);
       ("Áudio", r4, f4)].
Proof.
  intros Hr Hn Hw H1 H2 H3.
  destruct sys1 as [mk1 wm1], sys2 as [mk2 wm2], sys3 as [mk3 wm3].
  cbn in H1, H2, H3. subst wm1 mk2 mk3.
  destruct (run_single_flight desktop evs) as [_ Hoff].
  destruct (Hoff Hr) as [Ho Hs]. clear Hoff.
  pose proof (run_selected_keys desktop evs) as Hkeys.
  revert Hr Hn Hw Ho Hs Hkeys. generalize (run desktop evs) as s.
  intros [tn wb path sel running queue opened sched dlg rg text fs].
  cbn [tests_running technician_name workbench_id open_tests scheduled
       selected_tests].
  intros -> Hn Hw -> -> Hkeys.
  cbn [step]. rewrite run_all_cases.
  cbn [tests_running technician_name workbench_id selected_tests].
  rewrite Hn, Hw, Hkeys. cbn [orb]. unfold test_ids.
  repeat split; reflexivity.
Qed.

Lemma run_all_completes_witness :
  tests_running (run "Desktop" [TypeTechnicianName "Ana"; TypeWorkbenchId "B1"]) = false /\
  blank (technician_name (run "Desktop" [TypeTechnicianName "Ana"; TypeWorkbenchId "B1"])) = false /\
  blank (workbench_id (run "Desktop" [TypeTechnicianName "Ana"; TypeWorkbenchId "B1"])) = false /\
  wmi Samples.no_tempdir = true /\ mkdtemp Samples.no_wmi = true /\
  mkdtemp Samples.working = true /\
  let s := run "Desktop" [TypeTechnicianName "Ana"; TypeWorkbenchId "B1"] in
  let s1 := step s (ClickRunAll Samples.no_wmi) in
  let s2 := step s1 (TestCompletes "keyboard" Samples.passed "teclado" Samples.no_tempdir) in
  let s3 := step s2 (TestCompletes "usb" Samples.passed "usb" Samples.no_wmi) in
  let s4 := step s3 (TestCompletes "webcam" initial_result "webcam" Samples.working) in
  let s5 := step s4 (TestCompletes "audio" Samples.passed "audio" Samples.no_tempdir) in
  (open_tests s1, open_tests s2, open_tests s3, open_tests s4, open_tests s5)
  = (["keyboard"], ["usb"], ["webcam"], ["audio"], []) /\
  tests_running s4 = true /\ tests_running s5 = false /\
  test_queue s5 = [] /\
  dialogs s5 = (dialogs s ++ ["Testes Concluídos"])%list /\
  report_generator s5
  = ReportGenerator.add_all (report_generator s)
      [("keyboard", Samples.passed, "teclado"); ("usb", Samples.passed, "usb");
       ("Webcam", initial_result, "webcam"); ("Áudio", Samples.passed, "audio")].
Proof.
  split; [reflexivity|]. split; [vm_compute; reflexivity|].
  split; [vm_compute; reflexivity|].
  split; [reflexivity|]. split; [reflexivity|]. split; [reflexivity|].
  apply (run_all_completes "Desktop" [TypeTechnicianName "Ana"; TypeWorkbenchId "B1"]);
    vm_compute; reflexivity.
Defined.

(** The same run on a machine without WMI: the USB test does not open
    when the keyboard test completes, and the run stays there with the
    webcam and audio tests in the queue. *)
Example run_all_without_wmi :
  let s := run "Desktop" [TypeTechnicianName "Ana"; TypeWorkbenchId "B1"] in
  let s1 := step s (ClickRunAll Samples.no_wmi) in
  let s2 := step s1 (TestCompletes "keyboard" Samples.passed "teclado" Samples.no_wmi) in
  open_tests s1 = ["keyboard"] /\
  stalled s2 /\ test_queue s2 = ["webcam"; "audio"] /\
  map fst (ReportGenerator.test_results (report_generator s2)) = ["keyboard"] /\
  same_run s2 (step s2 (TestCompletes "usb" Samples.passed "usb" Samples.working)) /\
  same_run s2 (step s2 (TimerFires Samples.working)).
Proof. vm_compute. repeat split; reflexivity. Qed.

(** *** Collecting the hardware information *)

Lemma collection_step_counted (c : Collection) (e : collection_event) :
  collectors c = (if hardware_collection_running c then 1 else 0) ->
  collectors (collection_step c e)
  = (if hardware_collection_running (collection_step c e) then 1 else 0).
Proof.
  destruct c as [started running n warnings].
  cbn [collectors hardware_collection_running]. intros ->.
  destruct e; cbn [collection_step].
  - unfold _start_hardware_collection. destruct started, running; reflexivity.
  - unfold _refresh_hardware_info. destruct running; reflexivity.
  - destruct running; reflexivity.
Qed.

Lemma collection_run_counted (evs : list collection_event) :
  collectors (collection_run evs)
  = (if hardware_collection_running (collection_run evs) then 1 else 0).
Proof.
  unfold collection_run. induction evs as [|e evs IH] using rev_ind; [reflexivity|].
  rewrite fold_left_app. cbn [fold_left]. now apply collection_step_counted.
Qed.

(** X26. At most one collection of the hardware information runs at a
    time: the running flag is raised exactly while a collecting thread
    is alive; a refresh asked for meanwhile only shows the warning
    "Coleta em Andamento"; and the automatic collection of the start-up
    happens at most once. *)
Theorem collection_single_flight (evs : list collection_event) :
  let c := collection_run evs in
  collectors c <= 1 /\
  (hardware_collection_running c = true <-> collectors c = 1) /\
  (hardware_collection_running c = true ->
   collectors (_refresh_hardware_info c) = collectors c /\
   collection_warnings (_refresh_hardware_info c)
   = (collection_warnings c ++ ["Coleta em Andamento"])%list) /\
  (hardware_collection_started c = true -> _start_hardware_collection c = c).
Proof.
  intros c. pose proof (collection_run_counted evs) as H. fold c in H.
  split; [destruct (hardware_collection_running c); lia|].
  split; [destruct (hardware_collection_running c); split; (lia || congruence)|].
  split.
  - intros Hr. unfold _refresh_hardware_info. rewrite Hr. cbn. auto.
  - intros Hs. unfold _start_hardware_collection. now rewrite Hs.
Qed.

End MainWindowSpec.

Module HardwareInfoFields.

Import HardwareInfo.

Lemma run_powershell_answer (self : t) (query : string) :
  _run_powershell self query
  = match subprocess_run self ["powershell"; "-Command"; query] with
    | Completed returncode stdout =>
        if (returncode =? 0)%Z then Py.strip stdout else ""
    | TimeoutExpired => ""
    | SubprocessError => ""
    end.
Proof. reflexivity. Qed.

Lemma get_set_if_output (key output other : string) (d : ReportGenerator.dict) :
  ReportGenerator.get (set_if_output key output d) other ""
  = if String.eqb other key && negb (String.eqb output "")
    then output
    else ReportGenerator.get d other "".
Proof.
  unfold set_if_output.
  destruct (String.eqb_spec output "") as [-> | Hne]; cbn [negb].
  - now rewrite andb_false_r.
  - rewrite andb_true_r. destruct (String.eqb_spec other key) as [-> | Hk].
    + apply ReportGeneratorSpec.get_set_item_same.
    + now apply ReportGeneratorSpec.get_set_item_other.
Qed.

(** X19. On Windows each field of the Wi-Fi category is the output of
    its query with the white space around it removed, when the query
    ran, ended with code 0 and printed something else than white space;
    in every other case (time-out, error, non-zero code, blank output)
    the field keeps the placeholder "Não disponível". *)
Theorem wifi_field_values (self : t) (key query : string) :
  is_windows self = true ->
  In (key, query)
     [("adapter_name", wifi_adapter_query);
      ("adapter_status", wifi_status_query);
      ("connected_ssid", wifi_ssid_query)] ->
  ReportGenerator.get (get_wifi_info self) key ""
  = match subprocess_run self ["powershell"; "-Command"; query] with
    | Completed returncode stdout =>
        if (returncode =? 0)%Z && negb (MainWindow.blank stdout)
        then Py.strip stdout
        else "Não disponível"
    | TimeoutExpired => "Não disponível"
    | SubprocessError => "Não disponível"
    end.
Proof.
  intros Hw Hin. unfold get_wifi_info. rewrite Hw. cbn [negb].
  assert (Hanswer : forall q,
    (if negb (String.eqb (_run_powershell self q) "")
     then _run_powershell self q else "Não disponível")
    = match subprocess_run self ["powershell"; "-Command"; q] with
      | Completed returncode stdout =>
          if (returncode =? 0)%Z && negb (MainWindow.blank stdout)
          then Py.strip stdout
          else "Não disponível"
      | TimeoutExpired => "Não disponível"
      | SubprocessError => "Não disponível"
      end).
  { intros q. rewrite run_powershell_answer.
    destruct (subprocess_run self _) as [rc out | |]; try reflexivity.
    destruct (rc =? 0)%Z; [|reflexivity]. cbn [andb].
    now rewrite MainWindowSpec.strip_eqb_blank. }
  cbn in Hin. destruct Hin as [H | [H | [H | []]]]; injection H as <- <-;
    rewrite <- Hanswer, !get_set_if_output; cbn;
    repeat match goal with
      | |- context [negb (String.eqb ?o "")] => destruct (negb (String.eqb o ""))
      end; reflexivity.
Qed.

Lemma wifi_field_values_witness :
  is_windows Samples.wifi_partly_answers = true /\
  ReportGenerator.get (get_wifi_info Samples.wifi_partly_answers) "adapter_status" ""
  = match subprocess_run Samples.wifi_partly_answers
            ["powershell"; "-Command"; wifi_status_query] with
    | Completed returncode stdout =>
        if (returncode =? 0)%Z && negb (MainWindow.blank stdout)
        then Py.strip stdout
        else "Não disponível"
    | TimeoutExpired => "Não disponível"
    | SubprocessError => "Não disponível"
    end.
Proof.
  split; [reflexivity|].
  apply (wifi_field_values Samples.wifi_partly_answers "adapter_status"
           wifi_status_query); [reflexivity | cbn; auto].
Defined.

(** The three fields on that machine. *)
Example wifi_partly_answered :
  get_wifi_info Samples.wifi_partly_answers
  = [("adapter_name", "Intel(R) Wi-Fi 6 AX201");
     ("adapter_status", "Não disponível");
     ("connected_ssid", "Não disponível")].
Proof. vm_compute. reflexivity. Qed.

End HardwareInfoFields.
